(** * SIMPLE_3Planes: the ATME training / evaluation driver and its options

    A shallow embedding of [atme.py] (functions [train] and [test]) and of
    the [parse] methods of [options/base_options.py] and
    [options/simple_options.py].

    Python code is stateful and may raise: it is written here in a small
    state-and-exception monad [Run W], where [W] is the part of the world
    the code touches (the shared [opt] object, the local variables of the
    running function, the file system, the clock, the random source and the
    log of calls made to the external collaborators).  Collaborators that
    are not part of the repository sources (model, datasets, visualizer,
    torch, pandas) are interfaces: type classes whose operations the loops
    call, and whose calls are recorded in the log. *)

From Stdlib Require Import ZArith List String Ascii Lia DecimalString Sorted.
From Stdlib Require DecimalPos.
From stdpp Require Import base option list strings gmap.
From stdpp Require sorting.

Local Open Scope Z_scope.

(** ** Python exceptions and the [Run] monad *)

Inductive exn :=
| ZeroDivisionError
| UnboundLocalError
| AttributeError
| ValueError
| IndexError
| KeyError
| RuntimeError
| OSError.

Inductive result (A : Type) :=
| Ok (a : A)
| Raise (e : exn).
Arguments Ok {A} a.
Arguments Raise {A} e.

Definition Run (W A : Type) : Type := W -> result (A * W).

#[global] Instance Run_ret {W} : MRet (Run W) :=
  fun A a w => Ok (a, w).
#[global] Instance Run_bind {W} : MBind (Run W) :=
  fun A B f m w =>
    match m w with
    | Ok (a, w') => f a w'
    | Raise e => Raise e
    end.

Definition raise {W A} (e : exn) : Run W A := fun _ => Raise e.
Definition get {W} : Run W W := fun w => Ok (w, w).
Definition gets {W A} (f : W -> A) : Run W A := fun w => Ok (f w, w).
Definition modify {W} (f : W -> W) : Run W unit := fun w => Ok (tt, f w).
Definition lift {W A} (r : result A) : Run W A :=
  fun w => match r with Ok a => Ok (a, w) | Raise e => Raise e end.

(** The world a run ends in, or [default] if it raises. *)
Definition outcome {W A} (r : result (A * W)) (default : W) : W :=
  match r with
  | Ok (_, w) => w
  | Raise _ => default
  end.

(** Whether a run of a statement (no value) ends normally. *)
Definition returns {W} (r : result (unit * W)) : bool :=
  match r with
  | Ok _ => true
  | Raise _ => false
  end.

(** [if c: body] *)
Definition when {W} (c : bool) (body : Run W unit) : Run W unit :=
  if c then body else mret tt.

(** [for i, x in enumerate(xs): body], the index starting at [i0]. *)
Fixpoint for_enumerate {W A} (i0 : nat) (xs : list A)
    (body : nat -> A -> Run W unit) : Run W unit :=
  match xs with
  | [] => mret tt
  | x :: xs' => body i0 x;; for_enumerate (S i0) xs' body
  end.

(** [for x in xs: body] *)
Definition for_each {W A} (xs : list A) (body : A -> Run W unit) : Run W unit :=
  for_enumerate 0 xs (fun _ x => body x).

(** ** Python primitives used by the sources *)

(** [a % b] on ints: the sign of the result follows the divisor, as
    [Z.modulo] does; a zero divisor raises. *)
Definition py_mod (a b : Z) : result Z :=
  if b =? 0 then Raise ZeroDivisionError else Ok (a mod b).

(** [range(a, b)] *)
Definition py_range (a b : Z) : list Z :=
  map (fun k => a + Z.of_nat k) (seq 0 (Z.to_nat (b - a))).

(** [str(n)], also what [%d] and an f-string print for an int. *)
Definition str_of_int (n : Z) : string := NilZero.string_of_int (Z.to_int n).

(** [os.path.join(a, *p)] (posixpath). *)
Definition starts_with_sep (s : string) : bool :=
  match s with
  | String c _ => Ascii.eqb c "/"
  | EmptyString => false
  end.

Fixpoint ends_with_sep (s : string) : bool :=
  match s with
  | EmptyString => false
  | String c EmptyString => Ascii.eqb c "/"
  | String _ s' => ends_with_sep s'
  end.

Definition path_join1 (path b : string) : string :=
  if starts_with_sep b then b
  else if (String.length path =? 0)%nat || ends_with_sep path then path +:+ b
  else path +:+ "/" +:+ b.

Definition path_join (a : string) (p : list string) : string :=
  fold_left path_join1 p a.

(** [os.path.dirname] and the chain of parents [os.makedirs] creates. *)
Fixpoint dirname_aux (s : string) : option string :=
  match s with
  | EmptyString => None
  | String c s' =>
      match dirname_aux s' with
      | Some d => Some (String c d)
      | None => if Ascii.eqb c "/" then Some EmptyString else None
      end
  end.

Definition dirname (s : string) : string :=
  match dirname_aux s with
  | Some d => d
  | None => EmptyString
  end.

Fixpoint parents_fuel (n : nat) (p : string) : list string :=
  match n with
  | O => []
  | S n' =>
      let d := dirname p in
      if (String.length d =? 0)%nat then [] else d :: parents_fuel n' d
  end.

Definition parents (p : string) : list string := parents_fuel (String.length p) p.

(** [s.split(sep)] for a one-character separator: never the empty list. *)
Fixpoint str_split (sep : ascii) (s : string) : list string :=
  match s with
  | EmptyString => [EmptyString]
  | String c s' =>
      if Ascii.eqb c sep then EmptyString :: str_split sep s'
      else match str_split sep s' with
           | [] => [String c EmptyString]
           | w :: ws => String c w :: ws
           end
  end.

(** [int(s)] on a str, base 10, for ASCII text: surrounding whitespace is
    stripped, one sign is allowed, and single underscores may separate
    digits.  Anything else raises [ValueError]. *)
Definition is_space (c : ascii) : bool :=
  let n := nat_of_ascii c in
  ((9 <=? n) && (n <=? 13) || (28 <=? n) && (n <=? 32))%nat.

Definition digit_of (c : ascii) : option Z :=
  let n := nat_of_ascii c in
  if ((48 <=? n) && (n <=? 57))%nat then Some (Z.of_nat n - 48) else None.

Fixpoint lstrip (s : string) : string :=
  match s with
  | String c s' => if is_space c then lstrip s' else s
  | EmptyString => EmptyString
  end.

Fixpoint rstrip (s : string) : string :=
  match s with
  | EmptyString => EmptyString
  | String c s' =>
      match rstrip s' with
      | EmptyString => if is_space c then EmptyString else String c EmptyString
      | r => String c r
      end
  end.

Fixpoint int_digits (acc : Z) (after_digit : bool) (s : string) : option Z :=
  match s with
  | EmptyString => if after_digit then Some acc else None
  | String c s' =>
      match digit_of c with
      | Some d => int_digits (10 * acc + d) true s'
      | None =>
          if Ascii.eqb c "_" && after_digit then int_digits acc false s'
          else None
      end
  end.

Definition py_int (s : string) : result Z :=
  let body := rstrip (lstrip s) in
  let signed :=
    match body with
    | String "-" ds => option_map Z.opp (int_digits 0 false ds)
    | String "+" ds => int_digits 0 false ds
    | ds => int_digits 0 false ds
    end in
  match signed with
  | Some z => Ok z
  | None => Raise ValueError
  end.

(** [random.randint(a, b)]: [randrange(a, b + 1)], that is
    [a + _randbelow(b + 1 - a)], and [ValueError] on an empty range.  The
    generator is a stream of raw draws; [_randbelow n] maps a draw into
    [0, n). *)
Definition randbelow (raw n : Z) : Z := raw mod n.

Definition randint (raw a b : Z) : result Z :=
  let width := b + 1 - a in
  if 0 <? width then Ok (a + randbelow raw width) else Raise ValueError.

(** ** options/base_options.py and options/simple_options.py *)

Module Options.

(** A value an attribute of the parsed namespace may hold: [gpu_ids] and
    [planes] arrive as text and are overwritten by lists. *)
Inductive pyval :=
| VStr (s : string)
| VInts (l : list Z)
| VStrs (l : list string).

(** The attributes of the namespace [parse] reads or writes.  [name] has no
    [add_argument] in either class, hence the option. *)
Record Namespace := {
  suffix : string;
  name : option string;
  gpu_ids : pyval;
  planes : pyval
}.

Definition set_name (v : option string) (o : Namespace) : Namespace :=
  {| suffix := suffix o; name := v; gpu_ids := gpu_ids o; planes := planes o |}.
Definition set_gpu_ids (v : pyval) (o : Namespace) : Namespace :=
  {| suffix := suffix o; name := name o; gpu_ids := v; planes := planes o |}.
Definition set_planes (v : pyval) (o : Namespace) : Namespace :=
  {| suffix := suffix o; name := name o; gpu_ids := gpu_ids o; planes := v |}.

(** What [parse] touches: the namespace object and the CUDA runtime, the
    latter as the list of devices passed to [torch.cuda.set_device]. *)
Record PWorld := {
  p_opt : Namespace;
  p_devices : list Z
}.

Definition set_p_opt (f : Namespace -> Namespace) (w : PWorld) : PWorld :=
  {| p_opt := f (p_opt w); p_devices := p_devices w |}.
Definition cuda_set_device (d : Z) : Run PWorld unit :=
  modify (fun w => {| p_opt := p_opt w; p_devices := p_devices w ++ [d] |}).

Definition as_str (v : pyval) : result string :=
  match v with
  | VStr s => Ok s
  | _ => Raise AttributeError
  end.

Definition list_append_int (v : pyval) (x : Z) : result pyval :=
  match v with
  | VInts l => Ok (VInts (l ++ [x]))
  | _ => Raise AttributeError
  end.

Definition list_append_str (v : pyval) (x : string) : result pyval :=
  match v with
  | VStrs l => Ok (VStrs (l ++ [x]))
  | _ => Raise AttributeError
  end.

(** The entries that are kept, and the device [parse] selects for them. *)
Definition nonneg (ids : list Z) : list Z := List.filter (fun z => 0 <=? z) ids.

Definition first_device (ids : list Z) : list Z :=
  match ids with
  | d :: _ => [d]
  | [] => []
  end.

Section Parse.

(** [opt.suffix.format( **vars(opt))], left to the caller; it may raise. *)
Variable str_format : string -> Namespace -> result string.

(** [# process opt.suffix] *)
Definition process_suffix : Run PWorld unit :=
  o ← gets p_opt;
  when (negb (String.eqb (suffix o) EmptyString))
    (o ← gets p_opt;
     suffix_ ← (if negb (String.eqb (suffix o) EmptyString)
                then f ← lift (str_format (suffix o) o); mret ("_" +:+ f)
                else mret EmptyString);
     o ← gets p_opt;
     match name o with
     | Some n => modify (set_p_opt (set_name (Some (n +:+ suffix_))))
     | None => raise AttributeError
     end).

(** [# set gpu ids], the same text in both classes. *)
Definition gpu_ids_body (str_id : string) : Run PWorld unit :=
  id ← lift (py_int str_id);
  when (0 <=? id)
    (o ← gets p_opt;
     l ← lift (list_append_int (gpu_ids o) id);
     modify (set_p_opt (set_gpu_ids l))).

Definition set_gpu_ids_block : Run PWorld unit :=
  o ← gets p_opt;
  s ← lift (as_str (gpu_ids o));
  let str_ids := str_split "," s in
  modify (set_p_opt (set_gpu_ids (VInts [])));;
  for_each str_ids gpu_ids_body;;
  o ← gets p_opt;
  match gpu_ids o with
  | VInts (d :: _) => cuda_set_device d
  | _ => mret tt
  end.

(** [# set planes] *)
Definition set_planes_block : Run PWorld unit :=
  o ← gets p_opt;
  s ← lift (as_str (planes o));
  let str_planes := str_split "," s in
  modify (set_p_opt (set_planes (VStrs [])));;
  for_each str_planes (fun str_plane =>
    o ← gets p_opt;
    l ← lift (list_append_str (planes o) str_plane);
    modify (set_p_opt (set_planes l))).

End Parse.

End Options.

(** [BaseOptions.parse], after [gather_options] has produced the namespace
    held in the world. *)
Module BaseOptions.
Import Options.

Definition parse (str_format : string -> Namespace -> result string)
    : Run PWorld Namespace :=
  process_suffix str_format;;
  set_gpu_ids_block;;
  gets p_opt.

End BaseOptions.

(** [SimpleOptions.parse] overrides it and also splits [planes]. *)
Module SimpleOptions.
Import Options.

Definition parse (str_format : string -> Namespace -> result string)
    : Run PWorld Namespace :=
  process_suffix str_format;;
  set_gpu_ids_block;;
  set_planes_block;;
  gets p_opt.

End SimpleOptions.

(** ** atme.py *)

Module atme.

(** *** The configuration object

    [opt] is the argparse namespace built by [AtmeOptions().parse()].  The
    record lists the attributes [train] and [test] read or write;
    [data_dir] and [n_save_noisy] have no [add_argument] in the option
    classes at hand, so they may be absent ([None]); every remaining
    attribute of the namespace is kept in [other_attrs]. *)
#[projections(primitive)]
Record Opt := {
  isTrain : bool;
  main_root : string;
  model_root : string;
  exp_name : string;
  data_name : string;
  save_dir : string;
  data_dir : option string;
  csv_name : string;
  eval_plane : string;
  data_format : string;
  vol_cube_dim : Z;
  global_min : Z;
  global_max : Z;
  save_nifti : bool;
  epoch_count : Z;
  n_epochs : Z;
  n_epochs_decay : Z;
  batch_size : Z;
  display_freq : Z;
  update_html_freq : Z;
  print_freq : Z;
  save_latest_freq : Z;
  save_epoch_freq : Z;
  save_by_iter : bool;
  n_save_noisy : option Z;
  other_attrs : list (string * string)
}.

Definition set_isTrain (v : bool) (o : Opt) : Opt :=
  {| isTrain := v; main_root := main_root o; model_root := model_root o;
     exp_name := exp_name o; data_name := data_name o;
     save_dir := save_dir o; data_dir := data_dir o;
     csv_name := csv_name o; eval_plane := eval_plane o;
     data_format := data_format o; vol_cube_dim := vol_cube_dim o;
     global_min := global_min o; global_max := global_max o;
     save_nifti := save_nifti o; epoch_count := epoch_count o;
     n_epochs := n_epochs o; n_epochs_decay := n_epochs_decay o;
     batch_size := batch_size o; display_freq := display_freq o;
     update_html_freq := update_html_freq o; print_freq := print_freq o;
     save_latest_freq := save_latest_freq o;
     save_epoch_freq := save_epoch_freq o; save_by_iter := save_by_iter o;
     n_save_noisy := n_save_noisy o; other_attrs := other_attrs o |}.
Definition set_save_dir (v : string) (o : Opt) : Opt :=
  {| isTrain := isTrain o; main_root := main_root o;
     model_root := model_root o; exp_name := exp_name o;
     data_name := data_name o; save_dir := v; data_dir := data_dir o;
     csv_name := csv_name o; eval_plane := eval_plane o;
     data_format := data_format o; vol_cube_dim := vol_cube_dim o;
     global_min := global_min o; global_max := global_max o;
     save_nifti := save_nifti o; epoch_count := epoch_count o;
     n_epochs := n_epochs o; n_epochs_decay := n_epochs_decay o;
     batch_size := batch_size o; display_freq := display_freq o;
     update_html_freq := update_html_freq o; print_freq := print_freq o;
     save_latest_freq := save_latest_freq o;
     save_epoch_freq := save_epoch_freq o; save_by_iter := save_by_iter o;
     n_save_noisy := n_save_noisy o; other_attrs := other_attrs o |}.
Definition set_data_dir (v : option string) (o : Opt) : Opt :=
  {| isTrain := isTrain o; main_root := main_root o;
     model_root := model_root o; exp_name := exp_name o;
     data_name := data_name o; save_dir := save_dir o; data_dir := v;
     csv_name := csv_name o; eval_plane := eval_plane o;
     data_format := data_format o; vol_cube_dim := vol_cube_dim o;
     global_min := global_min o; global_max := global_max o;
     save_nifti := save_nifti o; epoch_count := epoch_count o;
     n_epochs := n_epochs o; n_epochs_decay := n_epochs_decay o;
     batch_size := batch_size o; display_freq := display_freq o;
     update_html_freq := update_html_freq o; print_freq := print_freq o;
     save_latest_freq := save_latest_freq o;
     save_epoch_freq := save_epoch_freq o; save_by_iter := save_by_iter o;
     n_save_noisy := n_save_noisy o; other_attrs := other_attrs o |}.
Definition set_global_min (v : Z) (o : Opt) : Opt :=
  {| isTrain := isTrain o; main_root := main_root o;
     model_root := model_root o; exp_name := exp_name o;
     data_name := data_name o; save_dir := save_dir o;
     data_dir := data_dir o; csv_name := csv_name o;
     eval_plane := eval_plane o; data_format := data_format o;
     vol_cube_dim := vol_cube_dim o; global_min := v;
     global_max := global_max o; save_nifti := save_nifti o;
     epoch_count := epoch_count o; n_epochs := n_epochs o;
     n_epochs_decay := n_epochs_decay o; batch_size := batch_size o;
     display_freq := display_freq o;
     update_html_freq := update_html_freq o; print_freq := print_freq o;
     save_latest_freq := save_latest_freq o;
     save_epoch_freq := save_epoch_freq o; save_by_iter := save_by_iter o;
     n_save_noisy := n_save_noisy o; other_attrs := other_attrs o |}.
Definition set_global_max (v : Z) (o : Opt) : Opt :=
  {| isTrain := isTrain o; main_root := main_root o;
     model_root := model_root o; exp_name := exp_name o;
     data_name := data_name o; save_dir := save_dir o;
     data_dir := data_dir o; csv_name := csv_name o;
     eval_plane := eval_plane o; data_format := data_format o;
     vol_cube_dim := vol_cube_dim o; global_min := global_min o;
     global_max := v; save_nifti := save_nifti o;
     epoch_count := epoch_count o; n_epochs := n_epochs o;
     n_epochs_decay := n_epochs_decay o; batch_size := batch_size o;
     display_freq := display_freq o;
     update_html_freq := update_html_freq o; print_freq := print_freq o;
     save_latest_freq := save_latest_freq o;
     save_epoch_freq := save_epoch_freq o; save_by_iter := save_by_iter o;
     n_save_noisy := n_save_noisy o; other_attrs := other_attrs o |}.

(** *** Values handed around *)

(** A reading of [time.time()] and what the loop computes from readings:
    the [k]-th reading of the run, differences, and a division by an int. *)
Inductive time_expr :=
| Now (k : nat)
| TSub (a b : time_expr)
| TDiv (a : time_expr) (n : Z).

Definition time_div (a : time_expr) (n : Z) : result time_expr :=
  if n =? 0 then Raise ZeroDivisionError else Ok (TDiv a n).

(** An argument of a [print] with a format string. *)
Inductive parg :=
| PInt (z : Z)
| PStr (s : string)
| PTime (t : time_expr).

(** The tag passed to [model.save_networks]. *)
Inductive tag :=
| TagStr (s : string)
| TagInt (z : Z).

(** [pd.read_csv] yields a table; [df.loc[:, c]] is the column [c]. *)
Record DataFrame := {
  df_columns : list string;
  df_rows : list (string -> string)
}.

Definition df_loc (df : DataFrame) (c : string) : result (list string) :=
  if bool_decide (c ∈ df_columns df) then Ok (map (fun r => r c) (df_rows df))
  else Raise KeyError.

Definition series_at (s : list string) (i : nat) : result string :=
  match s !! i with
  | Some x => Ok x
  | None => Raise KeyError
  end.

Definition plot_slice : nat := 100.

Section Driver.

Context {Data Losses Visuals Elt : Type}.

(** *** Tensors: nested lists of elements, outermost axis first *)

Definition tensor2 : Type := list (list Elt).
Definition tensor3 : Type := list tensor2.
Definition tensor4 : Type := list tensor3.

Variable zero : Elt.

(** [torch.zeros((n, h, w))]: a negative dimension raises. *)
Definition zeros3 (n h w : nat) : tensor3 := repeat (repeat (repeat zero w) h) n.

Definition torch_zeros (n : nat) (h w : Z) : result tensor3 :=
  if (h <? 0) || (w <? 0) then Raise RuntimeError
  else Ok (zeros3 n (Z.to_nat h) (Z.to_nat w)).

(** [t[0, 0, :, :]] *)
Definition index00 (t : tensor4) : result tensor2 :=
  match t with
  | (c :: _) :: _ => Ok c
  | _ => Raise IndexError
  end.

(** Broadcasting of a source to a destination shape: an axis of the source
    must have the destination's size or size 1. *)
Definition expand1 (w : nat) (row : list Elt) : option (list Elt) :=
  if (length row =? w)%nat then Some row
  else match row with
       | [x] => Some (repeat x w)
       | _ => None
       end.

Definition expand2 (h w : nat) (src : tensor2) : option tensor2 :=
  if (length src =? h)%nat then mapM (expand1 w) src
  else match src with
       | [row] => option_map (fun r => repeat r h) (expand1 w row)
       | _ => None
       end.

(** [vol[j, :, :] = src] *)
Definition setitem_slice (vol : tensor3) (j : nat) (src : tensor2) : result tensor3 :=
  match vol !! j with
  | None => Raise IndexError
  | Some dest =>
      let h := length dest in
      let w := match dest with r :: _ => length r | [] => O end in
      match expand2 h w src with
      | Some s => Ok (<[j := s]> vol)
      | None => Raise RuntimeError
      end
  end.

(** *** The collaborators *)

(** The model object, as the driver uses it: a state [M] and the methods
    called on it. *)
Class Model (M : Type) := {
  model_setup : Opt -> M -> M;
  model_update_learning_rate : M -> M;
  model_set_input : Data -> option Z -> M -> M;
  model_optimize_parameters : M -> M;
  model_compute_visuals : M -> M;
  model_get_current_losses : M -> Losses;
  model_get_current_visuals : M -> Visuals;
  model_eval : M -> M;
  model_test : M -> M;
  model_fake_B : M -> tensor4
}.

(** The dataset object: [len(dataset)], the batches its [k]-th traversal
    yields, and [dataset.dataset.crop_volume]. *)
Class Dataset (DS : Type) := {
  ds_len : DS -> nat;
  ds_iter : DS -> nat -> list Data;
  ds_crop_volume : DS -> tensor3 -> tensor3
}.

(** The factories and helpers imported by [atme.py], and the raw draws of
    the [random] module. *)
Class Env (DS M : Type) := {
  create_atme_train_dataset : Opt -> DS;
  create_atme_test_dataset : Opt -> string -> nat -> string -> DS;
  create_model : Opt -> DS -> M;
  read_csv : string -> DataFrame;
  find_grayscale_limits : list string -> string -> Z * Z;
  raw_draw : nat -> Z
}.

(** A call made to a collaborator, with its arguments. *)
Inductive event :=
| E_print (fmt : string) (args : list parg)
| E_mkdirs (paths : list string)
| E_mkdir (path : string)
| E_create_atme_train_dataset (o : Opt)
| E_create_atme_test_dataset (o : Opt) (case : string) (i : nat) (ax : string)
| E_create_model (o : Opt)
| E_model_setup (o : Opt)
| E_Visualizer (o : Opt)
| E_visualizer_reset
| E_update_learning_rate
| E_set_input (d : Data) (epoch : option Z)
| E_optimize_parameters
| E_compute_visuals
| E_get_current_losses
| E_print_current_losses (epoch epoch_iter : Z) (losses : Losses)
    (t_comp t_data : time_expr)
| E_save_networks (t : tag)
| E_get_current_visuals
| E_save_atme_images (visuals : Visuals) (dir : string) (slice_num : Z)
    (iter_num epoch : option Z) (case_num : option nat)
| E_save_D_losses (losses : Losses)
| E_save_to_tensorboard_writer (epoch : Z) (losses : Losses)
| E_read_csv (path : string)
| E_find_grayscale_limits (cases : list string) (fmt : string)
| E_model_eval
| E_model_test
| E_crop_volume
| E_makedirs (path : string)
| E_torch_save (path : string)
| E_save_nifti (path : string).

(** A log entry: the call, stamped with the values the locals [epoch] and
    [total_iters] of [train] hold when it is made. *)
Record Call := {
  at_epoch : option Z;
  at_iters : Z;
  what : event
}.

(** *** The file system: directories, and files with what was saved *)

Inductive Blob :=
| TensorFile (v : tensor3)
| NiftiFile (v : tensor3)
| OtherFile.

Record FS := {
  dirs : gset string;
  files : gmap string Blob
}.

Definition fs_exists (fs : FS) (p : string) : bool :=
  bool_decide (p ∈ dirs fs) || bool_decide (is_Some (files fs !! p)).

Definition fs_is_file (fs : FS) (p : string) : bool :=
  bool_decide (is_Some (files fs !! p)).

(** [os.makedirs(p)]: the leaf must be new and no parent may be a file. *)
Definition fs_makedirs (fs : FS) (p : string) : result FS :=
  if fs_exists fs p then Raise OSError
  else if existsb (fs_is_file fs) (parents p) then Raise OSError
  else Ok {| dirs := {[p]} ∪ list_to_set (parents p) ∪ dirs fs;
             files := files fs |}.

(** Writing a file: its directory must exist (the empty one is the working
    directory) and the path must not be a directory. *)
Definition fs_write (fs : FS) (p : string) (b : Blob) : result FS :=
  if bool_decide (p ∈ dirs fs) then Raise OSError
  else if (String.length (dirname p) =? 0)%nat || bool_decide (dirname p ∈ dirs fs)
  then Ok {| dirs := dirs fs; files := <[p := b]> (files fs) |}
  else Raise OSError.

Context {DS M : Type} `{!Model M} `{!Dataset DS} `{!Env DS M}.

(** *** The world the two functions run in

    The shared [opt] object, the log, the clock and random cursors, the file
    system, and the mutable locals: the model object, the number of
    traversals of the current dataset, and [epoch], [total_iters],
    [epoch_iter], [iter_data_time], [t_data] and [gen_vol].  A local that is
    not yet bound is [None]. *)
#[projections(primitive)]
Record World := {
  w_opt : Opt;
  w_log : list Call;
  w_clock : nat;
  w_draws : nat;
  w_fs : FS;
  w_model : M;
  w_passes : nat;
  w_epoch : option Z;
  w_total_iters : Z;
  w_epoch_iter : Z;
  w_iter_data_time : option time_expr;
  w_t_data : option time_expr;
  w_gen_vol : tensor3
}.

Definition set_w_opt (v : Opt) (w : World) : World :=
  {| w_opt := v; w_log := w_log w; w_clock := w_clock w;
     w_draws := w_draws w; w_fs := w_fs w; w_model := w_model w;
     w_passes := w_passes w; w_epoch := w_epoch w;
     w_total_iters := w_total_iters w; w_epoch_iter := w_epoch_iter w;
     w_iter_data_time := w_iter_data_time w; w_t_data := w_t_data w;
     w_gen_vol := w_gen_vol w |}.
Definition set_w_log (v : list Call) (w : World) : World :=
  {| w_opt := w_opt w; w_log := v; w_clock := w_clock w;
     w_draws := w_draws w; w_fs := w_fs w; w_model := w_model w;
     w_passes := w_passes w; w_epoch := w_epoch w;
     w_total_iters := w_total_iters w; w_epoch_iter := w_epoch_iter w;
     w_iter_data_time := w_iter_data_time w; w_t_data := w_t_data w;
     w_gen_vol := w_gen_vol w |}.
Definition set_w_clock (v : nat) (w : World) : World :=
  {| w_opt := w_opt w; w_log := w_log w; w_clock := v;
     w_draws := w_draws w; w_fs := w_fs w; w_model := w_model w;
     w_passes := w_passes w; w_epoch := w_epoch w;
     w_total_iters := w_total_iters w; w_epoch_iter := w_epoch_iter w;
     w_iter_data_time := w_iter_data_time w; w_t_data := w_t_data w;
     w_gen_vol := w_gen_vol w |}.
Definition set_w_draws (v : nat) (w : World) : World :=
  {| w_opt := w_opt w; w_log := w_log w; w_clock := w_clock w;
     w_draws := v; w_fs := w_fs w; w_model := w_model w;
     w_passes := w_passes w; w_epoch := w_epoch w;
     w_total_iters := w_total_iters w; w_epoch_iter := w_epoch_iter w;
     w_iter_data_time := w_iter_data_time w; w_t_data := w_t_data w;
     w_gen_vol := w_gen_vol w |}.
Definition set_w_fs (v : FS) (w : World) : World :=
  {| w_opt := w_opt w; w_log := w_log w; w_clock := w_clock w;
     w_draws := w_draws w; w_fs := v; w_model := w_model w;
     w_passes := w_passes w; w_epoch := w_epoch w;
     w_total_iters := w_total_iters w; w_epoch_iter := w_epoch_iter w;
     w_iter_data_time := w_iter_data_time w; w_t_data := w_t_data w;
     w_gen_vol := w_gen_vol w |}.
Definition set_w_model (v : M) (w : World) : World :=
  {| w_opt := w_opt w; w_log := w_log w; w_clock := w_clock w;
     w_draws := w_draws w; w_fs := w_fs w; w_model := v;
     w_passes := w_passes w; w_epoch := w_epoch w;
     w_total_iters := w_total_iters w; w_epoch_iter := w_epoch_iter w;
     w_iter_data_time := w_iter_data_time w; w_t_data := w_t_data w;
     w_gen_vol := w_gen_vol w |}.
Definition set_w_passes (v : nat) (w : World) : World :=
  {| w_opt := w_opt w; w_log := w_log w; w_clock := w_clock w;
     w_draws := w_draws w; w_fs := w_fs w; w_model := w_model w;
     w_passes := v; w_epoch := w_epoch w; w_total_iters := w_total_iters w;
     w_epoch_iter := w_epoch_iter w;
     w_iter_data_time := w_iter_data_time w; w_t_data := w_t_data w;
     w_gen_vol := w_gen_vol w |}.
Definition set_w_epoch (v : option Z) (w : World) : World :=
  {| w_opt := w_opt w; w_log := w_log w; w_clock := w_clock w;
     w_draws := w_draws w; w_fs := w_fs w; w_model := w_model w;
     w_passes := w_passes w; w_epoch := v;
     w_total_iters := w_total_iters w; w_epoch_iter := w_epoch_iter w;
     w_iter_data_time := w_iter_data_time w; w_t_data := w_t_data w;
     w_gen_vol := w_gen_vol w |}.
Definition set_w_total_iters (v : Z) (w : World) : World :=
  {| w_opt := w_opt w; w_log := w_log w; w_clock := w_clock w;
     w_draws := w_draws w; w_fs := w_fs w; w_model := w_model w;
     w_passes := w_passes w; w_epoch := w_epoch w; w_total_iters := v;
     w_epoch_iter := w_epoch_iter w;
     w_iter_data_time := w_iter_data_time w; w_t_data := w_t_data w;
     w_gen_vol := w_gen_vol w |}.
Definition set_w_epoch_iter (v : Z) (w : World) : World :=
  {| w_opt := w_opt w; w_log := w_log w; w_clock := w_clock w;
     w_draws := w_draws w; w_fs := w_fs w; w_model := w_model w;
     w_passes := w_passes w; w_epoch := w_epoch w;
     w_total_iters := w_total_iters w; w_epoch_iter := v;
     w_iter_data_time := w_iter_data_time w; w_t_data := w_t_data w;
     w_gen_vol := w_gen_vol w |}.
Definition set_w_iter_data_time (v : option time_expr) (w : World) : World :=
  {| w_opt := w_opt w; w_log := w_log w; w_clock := w_clock w;
     w_draws := w_draws w; w_fs := w_fs w; w_model := w_model w;
     w_passes := w_passes w; w_epoch := w_epoch w;
     w_total_iters := w_total_iters w; w_epoch_iter := w_epoch_iter w;
     w_iter_data_time := v; w_t_data := w_t_data w;
     w_gen_vol := w_gen_vol w |}.
Definition set_w_t_data (v : option time_expr) (w : World) : World :=
  {| w_opt := w_opt w; w_log := w_log w; w_clock := w_clock w;
     w_draws := w_draws w; w_fs := w_fs w; w_model := w_model w;
     w_passes := w_passes w; w_epoch := w_epoch w;
     w_total_iters := w_total_iters w; w_epoch_iter := w_epoch_iter w;
     w_iter_data_time := w_iter_data_time w; w_t_data := v;
     w_gen_vol := w_gen_vol w |}.
Definition set_w_gen_vol (v : tensor3) (w : World) : World :=
  {| w_opt := w_opt w; w_log := w_log w; w_clock := w_clock w;
     w_draws := w_draws w; w_fs := w_fs w; w_model := w_model w;
     w_passes := w_passes w; w_epoch := w_epoch w;
     w_total_iters := w_total_iters w; w_epoch_iter := w_epoch_iter w;
     w_iter_data_time := w_iter_data_time w; w_t_data := w_t_data w;
     w_gen_vol := v |}.

Definition read_local {A} (f : World -> option A) : Run World A :=
  fun w => match f w with
           | Some a => Ok (a, w)
           | None => Raise UnboundLocalError
           end.

Definition getattr {A} (f : Opt -> option A) : Run World A :=
  fun w => match f (w_opt w) with
           | Some a => Ok (a, w)
           | None => Raise AttributeError
           end.

Definition set_opt (f : Opt -> Opt) : Run World unit :=
  modify (fun w => set_w_opt (f (w_opt w)) w).

Definition call (e : event) : Run World unit :=
  modify (fun w =>
    set_w_log (w_log w ++ [{| at_epoch := w_epoch w;
                              at_iters := w_total_iters w;
                              what := e |}]) w).

Definition print (fmt : string) (args : list parg) : Run World unit :=
  call (E_print fmt args).

(** A method that changes the model, and one that reads from it. *)
Definition model_call (f : M -> M) (e : event) : Run World unit :=
  modify (fun w => set_w_model (f (w_model w)) w);;
  call e.

Definition model_query {A} (f : M -> A) (e : event) : Run World A :=
  call e;;
  gets (fun w => f (w_model w)).

Definition time_time : Run World time_expr :=
  fun w => Ok (Now (w_clock w), set_w_clock (S (w_clock w)) w).

Definition random_randint (a b : Z) : Run World Z :=
  fun w => match randint (raw_draw (w_draws w)) a b with
           | Ok z => Ok (z, set_w_draws (S (w_draws w)) w)
           | Raise e => Raise e
           end.

(** [enumerate(dataset)]: one more traversal of the dataset. *)
Definition iter_dataset (dataset : DS) : Run World (list Data) :=
  fun w => Ok (ds_iter dataset (w_passes w), set_w_passes (S (w_passes w)) w).

Definition os_path_exists (p : string) : Run World bool :=
  gets (fun w => fs_exists (w_fs w) p).

Definition os_makedirs (p : string) : Run World unit :=
  fs ← gets w_fs;
  fs' ← lift (fs_makedirs fs p);
  modify (set_w_fs fs');;
  call (E_makedirs p).

Definition torch_save (v : tensor3) (p : string) : Run World unit :=
  fs ← gets w_fs;
  fs' ← lift (fs_write fs p (TensorFile v));
  modify (set_w_fs fs');;
  call (E_torch_save p).

(** Modelled from the spec: [save_nifti] of [data/preprocess.py], which is
    not among the sources at hand; it "additionally persist[s the volume] in
    a volumetric medical-image format at the same logical location". *)
Definition preprocess_save_nifti (v : tensor3) (p : string) : Run World unit :=
  fs ← gets w_fs;
  fs' ← lift (fs_write fs p (NiftiFile v));
  modify (set_w_fs fs');;
  call (E_save_nifti p).

(** *** [train] *)

(** Lines 64-96: the body of [for i, data in enumerate(dataset)]. *)
Definition train_batch (save_fig_dir : string) (epoch : Z)
    (i : nat) (data : Data) : Run World unit :=
  iter_start_time ← time_time;
  o ← gets w_opt;
  total_iters ← gets w_total_iters;
  r ← lift (py_mod total_iters (print_freq o));
  when (r =? 0)
    (iter_data_time ← read_local w_iter_data_time;
     modify (set_w_t_data (Some (TSub iter_start_time iter_data_time))));;

  o ← gets w_opt;
  modify (fun w => set_w_total_iters (w_total_iters w + batch_size o) w);;
  o ← gets w_opt;
  modify (fun w => set_w_epoch_iter (w_epoch_iter w + batch_size o) w);;
  o ← gets w_opt;
  match n_save_noisy o with
  | Some _ => model_call (model_set_input data (Some epoch))
                         (E_set_input data (Some epoch))
  | None => model_call (model_set_input data None) (E_set_input data None)
  end;;
  model_call model_optimize_parameters E_optimize_parameters;;

  o ← gets w_opt;
  total_iters ← gets w_total_iters;
  r ← lift (py_mod total_iters (display_freq o));
  when (r =? 0)
    (o ← gets w_opt;
     total_iters ← gets w_total_iters;
     r' ← lift (py_mod total_iters (update_html_freq o));
     let save_result := r' =? 0 in
     model_call model_compute_visuals E_compute_visuals);;

  o ← gets w_opt;
  total_iters ← gets w_total_iters;
  r ← lift (py_mod total_iters (print_freq o));
  when (r =? 0)
    (losses ← model_query model_get_current_losses E_get_current_losses;
     now ← time_time;
     o ← gets w_opt;
     t_comp ← lift (time_div (TSub now iter_start_time) (batch_size o));
     epoch_iter ← gets w_epoch_iter;
     t_data ← read_local w_t_data;
     call (E_print_current_losses epoch epoch_iter losses t_comp t_data));;

  o ← gets w_opt;
  total_iters ← gets w_total_iters;
  r ← lift (py_mod total_iters (save_latest_freq o));
  when (r =? 0)
    (total_iters ← gets w_total_iters;
     print "saving the latest model (epoch %d, total_iters %d)"
           [PInt epoch; PInt total_iters];;
     o ← gets w_opt;
     total_iters ← gets w_total_iters;
     let save_suffix :=
       if save_by_iter o then "iter_" +:+ str_of_int total_iters
       else "latest" in
     call (E_save_networks (TagStr save_suffix));;
     visuals ← model_query model_get_current_visuals E_get_current_visuals;
     o ← gets w_opt;
     slice_num ← (if batch_size o =? 1 then mret (Z.of_nat i)
                  else random_randint 0 (batch_size o));
     total_iters ← gets w_total_iters;
     call (E_save_atme_images visuals save_fig_dir slice_num
             (Some total_iters) (Some epoch) None));;

  t ← time_time;
  modify (set_w_iter_data_time (Some t)).

(** Lines 58-108: the body of [for epoch in range(...)]. *)
Definition train_epoch (dataset : DS) (save_fig_dir : string)
    (epoch : Z) : Run World unit :=
  modify (set_w_epoch (Some epoch));;
  epoch_start_time ← time_time;
  t ← time_time;
  modify (set_w_iter_data_time (Some t));;
  modify (set_w_epoch_iter 0);;
  call E_visualizer_reset;;
  model_call model_update_learning_rate E_update_learning_rate;;
  batches ← iter_dataset dataset;
  for_enumerate 0 batches (train_batch save_fig_dir epoch);;
  o ← gets w_opt;
  r ← lift (py_mod epoch (save_epoch_freq o));
  when (r =? 0)
    (total_iters ← gets w_total_iters;
     print "saving the model at the end of epoch %d, iters %d"
           [PInt epoch; PInt total_iters];;
     call (E_save_networks (TagStr "latest"));;
     call (E_save_networks (TagInt epoch)));;

  losses ← model_query model_get_current_losses E_get_current_losses;
  call (E_save_D_losses losses);;

  losses ← model_query model_get_current_losses E_get_current_losses;
  call (E_save_to_tensorboard_writer epoch losses);;

  now ← time_time;
  o ← gets w_opt;
  print "End of epoch %d / %d \t Time Taken: %d sec"
        [PInt epoch; PInt (n_epochs o + n_epochs_decay o);
         PTime (TSub now epoch_start_time)].

(** A call of [train] starts with no local bound. *)
Definition enter_train (w : World) : World :=
  set_w_epoch None (set_w_iter_data_time None (set_w_t_data None w)).

(** Lines 39-108. *)
Definition train : Run World unit :=
  modify enter_train;;
  set_opt (set_isTrain true);;

  o ← gets w_opt;
  set_opt (set_save_dir (path_join (main_root o) [model_root o; exp_name o]));;
  o ← gets w_opt;
  set_opt (set_data_dir
             (Some (path_join (main_root o) [model_root o; data_name o])));;
  o ← gets w_opt;
  let save_fig_dir := path_join (save_dir o) ["figures"; "train"] in
  o ← gets w_opt;
  data_dir_ ← getattr data_dir;
  call (E_mkdirs [save_dir o; data_dir_; save_fig_dir]);;

  o ← gets w_opt;
  let dataset := create_atme_train_dataset o in
  call (E_create_atme_train_dataset o);;
  modify (set_w_passes 0);;
  let dataset_size := ds_len dataset in
  print "The number of training images = %d" [PInt (Z.of_nat dataset_size)];;

  o ← gets w_opt;
  modify (set_w_model (create_model o dataset));;
  call (E_create_model o);;
  o ← gets w_opt;
  model_call (model_setup o) (E_model_setup o);;
  o ← gets w_opt;
  call (E_Visualizer o);;
  modify (set_w_total_iters 0);;

  o ← gets w_opt;
  for_each (py_range (epoch_count o) (n_epochs o + n_epochs_decay o + 1))
           (train_epoch dataset save_fig_dir).

(** *** [test] *)

(** Lines 142-148: the body of [for j, data in enumerate(dataset)]. *)
Definition test_slice (save_fig_dir : string) (i : nat)
    (j : nat) (data : Data) : Run World unit :=
  model_call (model_set_input data None) (E_set_input data None);;
  model_call model_test E_model_test;;
  m ← gets w_model;
  src ← lift (index00 (model_fake_B m));
  gen_vol ← gets w_gen_vol;
  gen_vol' ← lift (setitem_slice gen_vol j src);
  modify (set_w_gen_vol gen_vol');;

  when (j =? plot_slice)%nat
    (visuals ← model_query model_get_current_visuals E_get_current_visuals;
     call (E_save_atme_images visuals save_fig_dir (Z.of_nat j)
             None None (Some i))).

(** Line 140: the allocation of [gen_vol]. *)
Definition alloc_volume (dataset : DS) : Run World unit :=
  o ← gets w_opt;
  gen_vol ← lift (torch_zeros (ds_len dataset) (vol_cube_dim o) (vol_cube_dim o));
  modify (set_w_gen_vol gen_vol).

(** Lines 140-148: allocation and the slice loop. *)
Definition fill_volume (dataset : DS) (save_fig_dir : string)
    (i : nat) : Run World unit :=
  alloc_volume dataset;;
  batches ← iter_dataset dataset;
  for_enumerate 0 batches (test_slice save_fig_dir i).

(** Lines 129-158: the body of [for i, cor_case in enumerate(cases_paths)]. *)
Definition test_case (save_fig_dir : string)
    (cases_paths ax_cases_paths : list string)
    (i : nat) (cor_case : string) : Run World unit :=
  print "case no: {i} / {len(cases_paths)}, {cor_case=}"
        [PInt (Z.of_nat i); PInt (Z.of_nat (length cases_paths)); PStr cor_case];;

  o ← gets w_opt;
  data_dir_ ← getattr data_dir;
  let save_dir := path_join data_dir_ ["generation"; "case_" +:+ str_of_int (Z.of_nat i)] in
  ex ← os_path_exists save_dir;
  when (negb ex) (os_makedirs save_dir);;

  ax ← lift (series_at ax_cases_paths i);
  o ← gets w_opt;
  let dataset := create_atme_test_dataset o cor_case i ax in
  call (E_create_atme_test_dataset o cor_case i ax);;
  modify (set_w_passes 0);;
  o ← gets w_opt;
  modify (set_w_model (create_model o dataset));;
  call (E_create_model o);;
  o ← gets w_opt;
  model_call (model_setup o) (E_model_setup o);;
  model_call model_eval E_model_eval;;

  fill_volume dataset save_fig_dir i;;

  gen_vol ← gets w_gen_vol;
  call E_crop_volume;;
  modify (set_w_gen_vol (ds_crop_volume dataset gen_vol));;

  gen_vol ← gets w_gen_vol;
  torch_save gen_vol (path_join save_dir ["atme_vol.pt"]);;

  o ← gets w_opt;
  when (save_nifti o)
    (gen_vol ← gets w_gen_vol;
     preprocess_save_nifti gen_vol (path_join save_dir ["atme_vol.nii.gz"])).

(** Lines 110-158. *)
Definition test : Run World unit :=
  set_opt (set_isTrain false);;

  o ← gets w_opt;
  set_opt (set_save_dir (path_join (main_root o) [model_root o; exp_name o]));;
  o ← gets w_opt;
  set_opt (set_data_dir
             (Some (path_join (main_root o) [model_root o; data_name o])));;

  o ← gets w_opt;
  let save_fig_dir := path_join (save_dir o) ["figures"; "test"] in
  call (E_mkdir save_fig_dir);;

  o ← gets w_opt;
  let df := read_csv (path_join (csv_name o) []) in
  call (E_read_csv (path_join (csv_name o) []));;
  o ← gets w_opt;
  cases_paths ← lift (df_loc df (eval_plane o));
  ax_cases_paths ← lift (df_loc df "axial");

  o ← gets w_opt;
  when ((global_min o =? 0) && (global_max o =? 0))
    (o ← gets w_opt;
     let lim := find_grayscale_limits cases_paths (data_format o) in
     call (E_find_grayscale_limits cases_paths (data_format o));;
     set_opt (set_global_min (fst lim));;
     set_opt (set_global_max (snd lim)));;

  for_enumerate 0 cases_paths (test_case save_fig_dir cases_paths ax_cases_paths).

End Driver.

Arguments tensor2 : clear implicits.
Arguments tensor3 : clear implicits.
Arguments tensor4 : clear implicits.
Arguments event : clear implicits.
Arguments Call : clear implicits.
Arguments Blob : clear implicits.
Arguments FS : clear implicits.
Arguments World : clear implicits.

End atme.

(** ** Reading the log of a run *)

Section Log.

Context {Data Losses Visuals : Type}.

Local Abbreviation event := (atme.event Data Losses Visuals).
Local Abbreviation Call := (atme.Call Data Losses Visuals).

(** The calls the properties below are about. *)
Inductive kind :=
| K_update_learning_rate
| K_set_input
| K_optimize_parameters
| K_compute_visuals
| K_print_current_losses
| K_save_atme_images.

#[global] Instance kind_eq_dec : EqDecision kind.
Proof. solve_decision. Defined.

Definition kind_of (e : event) : option kind :=
  match e with
  | atme.E_update_learning_rate => Some K_update_learning_rate
  | atme.E_set_input _ _ => Some K_set_input
  | atme.E_optimize_parameters => Some K_optimize_parameters
  | atme.E_compute_visuals => Some K_compute_visuals
  | atme.E_print_current_losses _ _ _ _ _ => Some K_print_current_losses
  | atme.E_save_atme_images _ _ _ _ _ _ => Some K_save_atme_images
  | _ => None
  end.

Definition is_kind (k : kind) (c : Call) : bool :=
  bool_decide (kind_of (atme.what c) = Some k).

(** The calls of kind [k] in a log, and the values of [total_iters] they
    were made at. *)
Definition calls_of (k : kind) (l : list Call) : list Call :=
  List.filter (is_kind k) l.

Definition iters_of (k : kind) (l : list Call) : list Z :=
  map atme.at_iters (calls_of k l).

(** The kinds of the calls made while [epoch] was [e], in order. *)
Definition kinds_in_epoch (e : Z) (l : list Call) : list kind :=
  omap (fun c => if bool_decide (atme.at_epoch c = Some e)
                 then kind_of (atme.what c) else None) l.

(** A call seen as (epoch, total_iters, kind). *)
Definition view (c : Call) : option (option Z * Z * kind) :=
  option_map (fun k => (atme.at_epoch c, atme.at_iters c, k)) (kind_of (atme.what c)).

Definition views (l : list Call) : list (option Z * Z * kind) := omap view l.

End Log.

(** What a run of [train] is expected to log, as lists of views: one batch
    step that leaves the counter at [t], [n] steps from the counter [t0],
    one epoch, and a sequence of epochs in which the [k]-th traversal of
    the dataset yields [lens k] batches. *)
Definition step_views (o : atme.Opt) (e t : Z) : list (option Z * Z * kind) :=
  map (fun k => (Some e, t, k))
    ([K_set_input; K_optimize_parameters]
     ++ (if t mod atme.display_freq o =? 0 then [K_compute_visuals] else [])
     ++ (if t mod atme.print_freq o =? 0 then [K_print_current_losses] else [])
     ++ (if t mod atme.save_latest_freq o =? 0 then [K_save_atme_images] else [])).

Fixpoint batches_views (o : atme.Opt) (e t0 : Z) (n : nat)
    : list (option Z * Z * kind) :=
  match n with
  | O => []
  | S n' => step_views o e (t0 + atme.batch_size o)
            ++ batches_views o e (t0 + atme.batch_size o) n'
  end.

Definition epoch_views (o : atme.Opt) (e t0 : Z) (n : nat)
    : list (option Z * Z * kind) :=
  (Some e, t0, K_update_learning_rate) :: batches_views o e t0 n.

Fixpoint run_views (o : atme.Opt) (lens : nat -> nat) (pass : nat) (t0 : Z)
    (epochs : list Z) : list (option Z * Z * kind) :=
  match epochs with
  | [] => []
  | e :: es =>
      epoch_views o e t0 (lens pass)
      ++ run_views o lens (S pass)
           (t0 + atme.batch_size o * Z.of_nat (lens pass)) es
  end.

(** The number of batches of the first [n] traversals. *)
Definition total_batches (lens : nat -> nat) (n : nat) : nat :=
  sum_list (map lens (seq 0 n)).

(** A configuration under which no cadence test divides by zero and the
    counter advances. *)
Definition good_cfg (o : atme.Opt) : Prop :=
  atme.print_freq o <> 0 /\ atme.display_freq o <> 0 /\
  atme.update_html_freq o <> 0 /\ atme.save_latest_freq o <> 0 /\
  atme.save_epoch_freq o <> 0 /\ 1 <= atme.batch_size o.

(** What [train] and [test] leave in [opt]. *)
Definition opt_after_train (o : atme.Opt) : atme.Opt :=
  let o1 := atme.set_isTrain true o in
  let o2 := atme.set_save_dir
              (path_join (atme.main_root o1) [atme.model_root o1; atme.exp_name o1]) o1 in
  atme.set_data_dir
    (Some (path_join (atme.main_root o2) [atme.model_root o2; atme.data_name o2])) o2.

(** ** Reading the log of [test], and shapes *)

Section TestLog.

Context {Data Losses Visuals : Type}.

Local Abbreviation Call := (atme.Call Data Losses Visuals).

(** Where the global intensity range is computed, and where it is used:
    every call that is handed [opt], with the bounds [opt] holds then. *)
Inductive range_use :=
| R_find_grayscale_limits
| R_uses (global_min global_max : Z).

Definition range_view (c : Call) : option range_use :=
  match atme.what c with
  | atme.E_find_grayscale_limits _ _ => Some R_find_grayscale_limits
  | atme.E_create_atme_test_dataset o _ _ _
  | atme.E_create_model o
  | atme.E_model_setup o => Some (R_uses (atme.global_min o) (atme.global_max o))
  | _ => None
  end.

(** What a case does to the file system. *)
Inductive io :=
| IO_makedirs (p : string)
| IO_torch_save (p : string)
| IO_save_nifti (p : string).

Definition io_view (c : Call) : option io :=
  match atme.what c with
  | atme.E_makedirs p => Some (IO_makedirs p)
  | atme.E_torch_save p => Some (IO_torch_save p)
  | atme.E_save_nifti p => Some (IO_save_nifti p)
  | _ => None
  end.

(** The slice index passed to each [save_atme_images] call. *)
Definition slice_nums (l : list Call) : list Z :=
  omap (fun c => match atme.what c with
                 | atme.E_save_atme_images _ _ s _ _ _ => Some s
                 | _ => None
                 end) l.

End TestLog.

Section Shapes.

Context {Data Losses Visuals Elt M : Type}.
Context `{!atme.Model (Data:=Data) (Losses:=Losses) (Visuals:=Visuals) (Elt:=Elt) M}.

Definition has_shape2 (h w : nat) (t : atme.tensor2 Elt) : Prop :=
  length t = h /\ Forall (fun r => length r = w) t.

Definition has_shape3 (n h w : nat) (v : atme.tensor3 Elt) : Prop :=
  length v = n /\ Forall (has_shape2 h w) v.

(** Running inference on one slice: [set_input] then [test]; and the
    first-channel, first-batch-element output the model then holds. *)
Definition infer (m : M) (d : Data) : M :=
  atme.model_test (atme.model_set_input d None m).

Definition output_of (m : M) : result (atme.tensor2 Elt) :=
  atme.index00 (atme.model_fake_B m).

(** The model's contract on outputs: after [test()], [fake_B] has a first
    batch element with a first channel of [d] rows and [d] columns. *)
Definition outputs_square (d : nat) : Prop :=
  forall m : M, exists c, output_of (atme.model_test m) = Ok c /\ has_shape2 d d c.

End Shapes.

(** The per-case output directory and the two artifacts. *)
Definition case_dir (data_dir : string) (i : nat) : string :=
  path_join data_dir ["generation"; "case_" +:+ str_of_int (Z.of_nat i)].

Definition case_pt (data_dir : string) (i : nat) : string :=
  path_join (case_dir data_dir i) ["atme_vol.pt"].

Definition case_nii (data_dir : string) (i : nat) : string :=
  path_join (case_dir data_dir i) ["atme_vol.nii.gz"].

(** What [test] leaves in [opt], given the limits the manifest yields. *)
Definition opt_at_test_loop (lim : Z * Z) (o : atme.Opt) : atme.Opt :=
  let o1 := atme.set_isTrain false o in
  let o2 := atme.set_save_dir
              (path_join (atme.main_root o1) [atme.model_root o1; atme.exp_name o1]) o1 in
  let o3 := atme.set_data_dir
              (Some (path_join (atme.main_root o2) [atme.model_root o2; atme.data_name o2])) o2 in
  if (atme.global_min o3 =? 0) && (atme.global_max o3 =? 0)
  then atme.set_global_max (snd lim) (atme.set_global_min (fst lim) o3)
  else o3.

(** ** What the pieces of [train] keep and add *)

Section TrainSpecs.

Context {Data Losses Visuals Elt M : Type}.

Local Abbreviation World := (atme.World Data Losses Visuals Elt M).

(** The locals a batch step relies on: [epoch] and [iter_data_time] are
    bound, and [t_data] is bound unless no batch has run yet. *)
Definition batch_pre (e : Z) (w : World) : Prop :=
  atme.w_epoch w = Some e /\ is_Some (atme.w_iter_data_time w) /\
  (is_Some (atme.w_t_data w) \/ atme.w_total_iters w = 0).

(** From [w] to [w']: [opt] is not touched, the counter advances by [n]
    batches, and the log grows by calls whose views are [vs]. *)
Definition advances (w w' : World) (n : nat)
    (vs : list (option Z * Z * kind)) : Prop :=
  atme.w_opt w' = atme.w_opt w /\
  atme.w_total_iters w' =
    atme.w_total_iters w + atme.batch_size (atme.w_opt w) * Z.of_nat n /\
  (is_Some (atme.w_t_data w') \/ atme.w_total_iters w' = 0) /\
  exists evs, atme.w_log w' = atme.w_log w ++ evs /\ views evs = vs.

(** An exception [train] may end with: never an unbound local, and only
    under a configuration that is not [good_cfg]. *)
Definition fails_safely (w : World) (err : exn) : Prop :=
  err <> UnboundLocalError /\ ~ good_cfg (atme.w_opt w).

End TrainSpecs.

(** The number of batches of the traversals [p], ..., [p + n - 1]. *)
Definition batches_from (lens : nat -> nat) (p n : nat) : nat :=
  sum_list (map lens (seq p n)).

(** The counter values and the per-epoch kinds, read off a list of views. *)
Definition viters (k : kind) (vs : list (option Z * Z * kind)) : list Z :=
  map (fun v => snd (fst v)) (List.filter (fun v => bool_decide (snd v = k)) vs).

Definition vkinds (e : Z) (vs : list (option Z * Z * kind)) : list kind :=
  omap (fun v => if bool_decide (fst (fst v) = Some e) then Some (snd v) else None) vs.

(** The number of calls of kind [k] in a list of kinds. *)
Definition count_kind (k : kind) (ks : list kind) : nat :=
  length (List.filter (fun k' => bool_decide (k' = k)) ks).

(** The outcome of a run is not an unbound-local error. *)
Definition no_unbound_local {A} (r : result A) : Prop :=
  match r with
  | Raise UnboundLocalError => False
  | _ => True
  end.

(** The cadence test of each of the three frequencies. *)
Definition fires (f t : Z) : bool := t mod f =? 0.

(** The counter values [t0 + B], ..., [t0 + n B]. *)
Definition ticks (B t0 : Z) (n : nat) : list Z :=
  map (fun k => t0 + B * Z.of_nat k) (seq 1 n).

Section TrainRun.

Context {Data Elt DS M : Type}.
Context `{!atme.Dataset (Data:=Data) (Elt:=Elt) DS} `{!atme.Env DS M}.

(** The epochs [train] runs, the number of batches the [k]-th traversal of
    its dataset yields, and the number of batch steps of the whole run. *)
Definition train_epochs (o : atme.Opt) : list Z :=
  py_range (atme.epoch_count o) (atme.n_epochs o + atme.n_epochs_decay o + 1).

Definition train_lens (o : atme.Opt) (k : nat) : nat :=
  length (atme.ds_iter (atme.create_atme_train_dataset (opt_after_train o)) k).

Definition train_steps (o : atme.Opt) : nat :=
  total_batches (train_lens o) (length (train_epochs o)).

End TrainRun.

(** ** What the pieces of [test] keep and add *)

Section TestSpecs.

Context {Data Losses Visuals Elt M : Type}.

Local Abbreviation World := (atme.World Data Losses Visuals Elt M).

(** From [w] to [w']: [opt] and the file system are not touched, and the
    calls added to the log neither use the intensity range nor touch the
    file system. *)
Definition keeps (w w' : World) : Prop :=
  atme.w_opt w' = atme.w_opt w /\ atme.w_fs w' = atme.w_fs w /\
  exists evs, atme.w_log w' = atme.w_log w ++ evs /\
    omap range_view evs = [] /\ omap io_view evs = [].

(** The three calls of a case that are handed [opt]. *)
Definition case_uses (o : atme.Opt) : list range_use :=
  let u := R_uses (atme.global_min o) (atme.global_max o) in [u; u; u].

(** What one case does to the file system. *)
Definition case_io (o : atme.Opt) (fs : atme.FS Elt) (dd : string) (i : nat) : list io :=
  (if atme.fs_exists fs (case_dir dd i) then [] else [IO_makedirs (case_dir dd i)])
  ++ [IO_torch_save (case_pt dd i)]
  ++ (if atme.save_nifti o then [IO_save_nifti (case_nii dd i)] else []).

End TestSpecs.

Section CaseSpec.

Context {Data Losses Visuals Elt DS M : Type}.
Context `{!atme.Dataset (Data:=Data) (Elt:=Elt) DS} `{!atme.Env DS M}.

Local Abbreviation World := (atme.World Data Losses Visuals Elt M).

(** What a completed case [i] for the manifest entry [cor_case] leaves:
    [opt] as it was; three uses of the intensity range; the directory
    created unless it existed; the cropped volume in [atme_vol.pt]; and
    [atme_vol.nii.gz] written if [save_nifti], left as it was otherwise. *)
Definition case_post (cor_case : string) (i : nat) (w w' : World) : Prop :=
  atme.w_opt w' = atme.w_opt w /\
  exists dd evs,
    atme.data_dir (atme.w_opt w) = Some dd /\
    atme.w_log w' = atme.w_log w ++ evs /\
    omap range_view evs = case_uses (atme.w_opt w) /\
    omap io_view evs = case_io (atme.w_opt w) (atme.w_fs w) dd i /\
    (atme.fs_exists (atme.w_fs w) (case_dir dd i) = true ->
     atme.dirs (atme.w_fs w') = atme.dirs (atme.w_fs w)) /\
    (exists ax v, atme.w_gen_vol w' =
       atme.ds_crop_volume
         (atme.create_atme_test_dataset (atme.w_opt w) cor_case i ax) v) /\
    atme.files (atme.w_fs w') !! case_pt dd i
      = Some (atme.TensorFile (atme.w_gen_vol w')) /\
    atme.files (atme.w_fs w') !! case_nii dd i
      = if atme.save_nifti (atme.w_opt w)
        then Some (atme.NiftiFile (atme.w_gen_vol w'))
        else atme.files (atme.w_fs w) !! case_nii dd i.

End CaseSpec.

Section TestSpec.

Context {Data Losses Visuals Elt DS M : Type}.
Context `{!atme.Env DS M}.

Local Abbreviation World := (atme.World Data Losses Visuals Elt M).

(** Whether [test] finds the global range unset, and the bounds it then
    works with, given the cases of the manifest. *)
Definition range_unset (o : atme.Opt) : bool :=
  (atme.global_min o =? 0) && (atme.global_max o =? 0).

Definition range_bounds (o : atme.Opt) (cases : list string) : Z * Z :=
  if range_unset o then atme.find_grayscale_limits cases (atme.data_format o)
  else (atme.global_min o, atme.global_max o).

(** What a completed run of [test] leaves. *)
Definition test_post (w w' : World) : Prop :=
  let o := atme.w_opt w in
  exists cases,
    atme.df_loc (atme.read_csv (atme.csv_name o)) (atme.eval_plane o) = Ok cases /\
    let o' := opt_at_test_loop
                (atme.find_grayscale_limits cases (atme.data_format o)) o in
    atme.w_opt w' = o' /\
    exists tr, atme.w_log w' = atme.w_log w ++ tr /\
      omap range_view tr =
        (if range_unset o then [R_find_grayscale_limits] else [])
        ++ flat_map (fun _ => case_uses o') cases.

End TestSpec.

(** ** A small concrete setting in which the functions run

    Batches are numbers, a model is the list of inputs it was fed (latest
    first), and its output for input [d] is the 2 x 2 image
    [[d, 1], [2, 3]]. *)

Module Demo.
Import atme.

#[global] Instance model : Model (Data:=nat) (Losses:=nat) (Visuals:=nat) (Elt:=Z) (list nat) := {|
  model_setup _ m := m;
  model_update_learning_rate m := m;
  model_set_input d _ m := d :: m;
  model_optimize_parameters m := m;
  model_compute_visuals m := m;
  model_get_current_losses m := length m;
  model_get_current_visuals m := length m;
  model_eval m := m;
  model_test m := m;
  model_fake_B m := [[[[Z.of_nat (hd O m); 1]; [2; 3]]]]
|}.

#[global] Instance dataset : Dataset (Data:=nat) (Elt:=Z) (list nat) := {|
  ds_len l := length l;
  ds_iter l _ := l;
  ds_crop_volume _ v := v
|}.

(** A training set of three examples, two slices per evaluation case, a
    manifest of two cases, and a random source whose raw draws are all 2. *)
#[global] Instance env : Env (list nat) (list nat) := {|
  create_atme_train_dataset _ := [10; 20; 30]%nat;
  create_atme_test_dataset _ _ i _ := [i; S i];
  create_model _ _ := [];
  read_csv _ := {| df_columns := ["coronal"; "axial"];
                   df_rows := [fun c => "a_" +:+ c; fun c => "b_" +:+ c] |};
  find_grayscale_limits _ _ := (-5, 7);
  raw_draw _ := 2
|}.

Definition opt : Opt := {|
  isTrain := true;
  main_root := "outputs"; model_root := "atme_output";
  exp_name := "runs"; data_name := "data";
  save_dir := "outputs"; data_dir := None;
  csv_name := "cases.csv"; eval_plane := "coronal"; data_format := "nifti";
  vol_cube_dim := 2; global_min := 0; global_max := 0; save_nifti := false;
  epoch_count := 1; n_epochs := 2; n_epochs_decay := 0;
  batch_size := 1; display_freq := 4; update_html_freq := 1000;
  print_freq := 2; save_latest_freq := 1000000; save_epoch_freq := 5;
  save_by_iter := false; n_save_noisy := None; other_attrs := []
|}.

(** The same with batches of two and the latest model saved every second
    iteration. *)
Definition opt_batch2 : Opt := {|
  isTrain := true;
  main_root := "outputs"; model_root := "atme_output";
  exp_name := "runs"; data_name := "data";
  save_dir := "outputs"; data_dir := None;
  csv_name := "cases.csv"; eval_plane := "coronal"; data_format := "nifti";
  vol_cube_dim := 2; global_min := 0; global_max := 0; save_nifti := false;
  epoch_count := 1; n_epochs := 1; n_epochs_decay := 0;
  batch_size := 2; display_freq := 4; update_html_freq := 1000;
  print_freq := 2; save_latest_freq := 2; save_epoch_freq := 5;
  save_by_iter := false; n_save_noisy := None; other_attrs := []
|}.

Definition fs_empty : FS Z := {| dirs := ∅; files := ∅ |}.

Definition world (o : Opt) (fs : FS Z) : World nat nat nat Z (list nat) := {|
  w_opt := o; w_log := []; w_clock := 0; w_draws := 0; w_fs := fs;
  w_model := []; w_passes := 0; w_epoch := None; w_total_iters := 0;
  w_epoch_iter := 0; w_iter_data_time := None; w_t_data := None;
  w_gen_vol := []
|}.

(** A file system left by an earlier evaluation run that saved NIfTI
    files for case 0. *)
Definition fs_rerun : FS Z := {|
  dirs := {[ "outputs/atme_output/data/generation/case_0" ]};
  files := {[ "outputs/atme_output/data/generation/case_0/atme_vol.nii.gz" := OtherFile ]}
|}.

(** A namespace as [gather_options] hands it to [parse]. *)
Definition pworld : Options.PWorld := {|
  Options.p_opt := {| Options.suffix := EmptyString; Options.name := None;
                      Options.gpu_ids := Options.VStr "0,-1,2";
                      Options.planes := Options.VStr "axial,coronal" |};
  Options.p_devices := []
|}.

Definition str_format (s : string) (_ : Options.Namespace) : result string := Ok s.

End Demo.

(** The world [train] and [test] start from in this setting. *)
Definition demo_world : atme.World nat nat nat Z (list nat) :=
  Demo.world Demo.opt Demo.fs_empty.

(** The world a case of a second evaluation run starts from. *)
Definition demo_case_world : atme.World nat nat nat Z (list nat) :=
  Demo.world (opt_after_train Demo.opt) Demo.fs_rerun.


(** Where the runs used below end. *)
Definition demo_train_end : atme.World nat nat nat Z (list nat) :=
  outcome (atme.train demo_world) demo_world.

Definition demo_test_end : atme.World nat nat nat Z (list nat) :=
  outcome (atme.test 0 demo_world) demo_world.

Definition demo_rerun_end : atme.World nat nat nat Z (list nat) :=
  outcome (atme.test 0 (Demo.world Demo.opt Demo.fs_rerun)) demo_world.

Definition demo_batch2_end : atme.World nat nat nat Z (list nat) :=
  outcome (atme.train (Demo.world Demo.opt_batch2 Demo.fs_empty)) demo_world.

Definition demo_epochs_end : atme.World nat nat nat Z (list nat) :=
  outcome (for_each [1; 2] (atme.train_epoch [10; 20; 30]%nat "figs") demo_world)
          demo_world.

Definition demo_case_end : atme.World nat nat nat Z (list nat) :=
  outcome (atme.test_case 0 "figs" ["a"; "b"] ["a_ax"; "b_ax"] 0 "a" demo_case_world)
          demo_world.

Definition demo_cases_end : atme.World nat nat nat Z (list nat) :=
  outcome (for_enumerate 0 ["a"; "b"]
             (atme.test_case 0 "figs" ["a"; "b"] ["a_ax"; "b_ax"]) demo_case_world)
          demo_world.

Definition demo_volume_start : atme.World nat nat nat Z (list nat) :=
  outcome (atme.alloc_volume 0 [5; 6]%nat demo_world) demo_world.

Definition demo_volume_end : atme.World nat nat nat Z (list nat) :=
  outcome (atme.fill_volume 0 [5; 6]%nat "figs" 0 demo_world) demo_world.

Definition demo_parse_end : Options.PWorld :=
  outcome (SimpleOptions.parse Demo.str_format Demo.pworld) Demo.pworld.

(** ** More of the log of [train]: arguments and checkpoints *)

Section TrainDetails.

Context {Data Losses Visuals : Type}.

Local Abbreviation Call := (atme.Call Data Losses Visuals).

(** The calls whose arguments the loop chooses: [set_input] (with the value
    the local [epoch] holds then), [print_current_losses],
    [save_networks] and [save_atme_images]. *)
Inductive detail :=
| D_set_input (at_epoch epoch : option Z)
| D_print_current_losses (epoch epoch_iter : Z)
| D_save_networks (t : atme.tag)
| D_save_atme_images (dir : string) (iter_num epoch : option Z)
    (case_num : option nat).

Definition detail_view (c : Call) : option detail :=
  match atme.what c with
  | atme.E_set_input _ ep => Some (D_set_input (atme.at_epoch c) ep)
  | atme.E_print_current_losses e ei _ _ _ => Some (D_print_current_losses e ei)
  | atme.E_save_networks t => Some (D_save_networks t)
  | atme.E_save_atme_images _ dir _ it ep cn => Some (D_save_atme_images dir it ep cn)
  | _ => None
  end.

Definition details (l : list Call) : list detail := omap detail_view l.

End TrainDetails.

(** Projections of a list of details. *)
Definition input_of (d : detail) : option (option Z * option Z) :=
  match d with
  | D_set_input ae ep => Some (ae, ep)
  | _ => None
  end.

Definition losses_of (d : detail) : option (Z * Z) :=
  match d with
  | D_print_current_losses e ei => Some (e, ei)
  | _ => None
  end.

Definition save_of (d : detail) : option detail :=
  match d with
  | D_save_networks _ | D_save_atme_images _ _ _ _ => Some d
  | _ => None
  end.

Definition epoch_tag_of (d : detail) : option Z :=
  match d with
  | D_save_networks (atme.TagInt e) => Some e
  | _ => None
  end.

(** The epoch argument of [set_input] (lines 70-73) and the tag of the
    latest-model save (line 90). *)
Definition input_epoch (o : atme.Opt) (e : Z) : option Z :=
  match atme.n_save_noisy o with
  | Some _ => Some e
  | None => None
  end.

Definition save_suffix (o : atme.Opt) (t : Z) : atme.tag :=
  atme.TagStr (if atme.save_by_iter o then "iter_" +:+ str_of_int t else "latest").

(** A [set_input] call is as expected: it was made in some epoch [e], with
    the epoch argument [input_epoch o e]. *)
Definition input_ok (o : atme.Opt) (d : detail) : Prop :=
  match d with
  | D_set_input ae ep => exists e, ae = Some e /\ ep = input_epoch o e
  | _ => True
  end.

(** What a run of [train] is expected to log, as lists of details: one
    batch step that leaves the counters at [t] and [ei], [n] steps, the end
    of an epoch, one epoch, and a sequence of epochs. *)
Definition step_details (o : atme.Opt) (sfd : string) (e t ei : Z) : list detail :=
  [D_set_input (Some e) (input_epoch o e)]
  ++ (if fires (atme.print_freq o) t then [D_print_current_losses e ei] else [])
  ++ (if fires (atme.save_latest_freq o) t
      then [D_save_networks (save_suffix o t);
            D_save_atme_images sfd (Some t) (Some e) None]
      else []).

Fixpoint batches_details (o : atme.Opt) (sfd : string) (e t0 ei0 : Z) (n : nat)
    : list detail :=
  match n with
  | O => []
  | S n' =>
      step_details o sfd e (t0 + atme.batch_size o) (ei0 + atme.batch_size o)
      ++ batches_details o sfd e (t0 + atme.batch_size o) (ei0 + atme.batch_size o) n'
  end.

Definition epoch_end_details (o : atme.Opt) (e : Z) : list detail :=
  if fires (atme.save_epoch_freq o) e
  then [D_save_networks (atme.TagStr "latest"); D_save_networks (atme.TagInt e)]
  else [].

Definition epoch_details (o : atme.Opt) (sfd : string) (e t0 : Z) (n : nat)
    : list detail :=
  batches_details o sfd e t0 0 n ++ epoch_end_details o e.

Fixpoint run_details (o : atme.Opt) (sfd : string) (lens : nat -> nat)
    (pass : nat) (t0 : Z) (epochs : list Z) : list detail :=
  match epochs with
  | [] => []
  | e :: es =>
      epoch_details o sfd e t0 (lens pass)
      ++ run_details o sfd lens (S pass)
           (t0 + atme.batch_size o * Z.of_nat (lens pass)) es
  end.

(** The exceptions the code of [train] can end with: a division by a zero
    frequency or batch size, and [random.randint] on an empty range. *)
Definition zero_divisor (o : atme.Opt) : Prop :=
  atme.print_freq o = 0 \/ atme.display_freq o = 0 \/
  atme.update_html_freq o = 0 \/ atme.save_latest_freq o = 0 \/
  atme.save_epoch_freq o = 0 \/ atme.batch_size o = 0.

Definition train_raises (o : atme.Opt) (err : exn) : Prop :=
  (err = ZeroDivisionError /\ zero_divisor o) \/
  (err = ValueError /\ atme.batch_size o < 0).

(** The directory [train] hands to [save_atme_images]. *)
Definition train_fig_dir (o : atme.Opt) : string :=
  path_join (atme.save_dir (opt_after_train o)) ["figures"; "train"].

Section TrainDetailSpecs.

Context {Data Losses Visuals Elt M : Type}.

Local Abbreviation World := (atme.World Data Losses Visuals Elt M).

(** From [w] to [w']: the log grows by calls whose details are [ds]. *)
Definition logs (w w' : World) (ds : list detail) : Prop :=
  exists evs, atme.w_log w' = atme.w_log w ++ evs /\ details evs = ds.

End TrainDetailSpecs.

(** ** More of the log of [test]: previews, and what it never calls *)

Section TestDetails.

Context {Data Losses Visuals Elt : Type}.

Local Abbreviation event := (atme.event Data Losses Visuals).
Local Abbreviation Call := (atme.Call Data Losses Visuals).

(** The calls that belong to training: set-up of [train], the optimizer,
    the cadence reports and the checkpoints. *)
Definition training_call (e : event) : bool :=
  match e with
  | atme.E_mkdirs _ | atme.E_create_atme_train_dataset _ | atme.E_Visualizer _
  | atme.E_visualizer_reset | atme.E_update_learning_rate
  | atme.E_optimize_parameters | atme.E_compute_visuals
  | atme.E_get_current_losses | atme.E_print_current_losses _ _ _ _ _
  | atme.E_save_networks _ | atme.E_save_D_losses _
  | atme.E_save_to_tensorboard_writer _ _ => true
  | _ => false
  end.

(** A [save_atme_images] call with its arguments (the visuals apart), or a
    training call. *)
Inductive tdetail :=
| T_preview (dir : string) (slice_num : Z) (iter_num epoch : option Z)
    (case_num : option nat)
| T_training.

Definition test_view (c : Call) : option tdetail :=
  match atme.what c with
  | atme.E_save_atme_images _ dir s it ep cn => Some (T_preview dir s it ep cn)
  | e => if training_call e then Some T_training else None
  end.

Definition is_preview (d : tdetail) : Prop :=
  match d with
  | T_preview _ _ _ _ _ => True
  | T_training => False
  end.

(** The preview of a case whose slices are numbered [j0, ..., j0 + n - 1]:
    one figure, for slice [plot_slice]. *)
Definition slices_previews (sfd : string) (i j0 n : nat) : list tdetail :=
  if (j0 <=? atme.plot_slice)%nat && (atme.plot_slice <? j0 + n)%nat
  then [T_preview sfd (Z.of_nat atme.plot_slice) None None (Some i)]
  else [].

(** From [fs] to [fs']: no directory and no file is removed, and only files
    at [allowed] paths are written. *)
Definition fs_extends (allowed : string -> Prop) (fs fs' : atme.FS Elt) : Prop :=
  atme.dirs fs ⊆ atme.dirs fs' /\
  (forall p, is_Some (atme.files fs !! p) -> is_Some (atme.files fs' !! p)) /\
  (forall p, ~ allowed p -> atme.files fs' !! p = atme.files fs !! p).

(** The artifacts of the cases [i0, ..., i0 + n - 1]. *)
Definition case_artifact (dd : string) (i0 n : nat) (p : string) : Prop :=
  exists i, (i0 <= i < i0 + n)%nat /\ (p = case_pt dd i \/ p = case_nii dd i).

End TestDetails.

(** ** The clock and the random source *)

Section Sources.

Context {Data Losses Visuals Elt M : Type}.

Local Abbreviation World := (atme.World Data Losses Visuals Elt M).
Local Abbreviation Call := (atme.Call Data Losses Visuals).


(** From [w] to [w']: neither the clock is read nor a random number drawn. *)
Definition reads_no_source (w w' : World) : Prop :=
  atme.w_draws w' = atme.w_draws w /\ atme.w_clock w' = atme.w_clock w.

(** The two times handed to [print_current_losses]. *)
Definition times_view (c : Call) : option (atme.time_expr * atme.time_expr) :=
  match atme.what c with
  | atme.E_print_current_losses _ _ _ t_comp t_data => Some (t_comp, t_data)
  | _ => None
  end.

End Sources.
(** ** More of the options: text of the fields *)

(** The number of occurrences of a character in a text. *)
Fixpoint count_char (c : ascii) (s : string) : nat :=
  match s with
  | EmptyString => O
  | String c' s' => (if Ascii.eqb c' c then 1 else 0) + count_char c s'
  end.


(** ** options/base_options.py: the options object *)

Module OptionsObject.

(** *** [__init__] and [gather_options]

    The argparse parser and the [models] package are collaborators: a type
    of parsers, the parser [ArgumentParser(...)] builds, the class's
    [initialize] (it adds its arguments to a parser, and may raise on one
    that holds them already), [parse_known_args] (it reads the command line
    and may exit), and [models.get_option_setter].  [model] and [isTrain]
    are attributes of the namespace [parse_known_args] returns, if the
    parser defines them. *)
Class Argparse (Parser NS : Type) := {
  ArgumentParser : Parser;
  initialize : Parser -> result Parser;
  parse_known_args : Parser -> result NS;
  get_option_setter : string -> result (Parser -> bool -> result Parser);
  ns_model : NS -> option string;
  ns_isTrain : NS -> option bool
}.

Section Gather.

Context {Parser NS : Type} `{!Argparse Parser NS}.

(** The attributes of the options object: [initialized], and [parser], which
    exists once [gather_options] has completed. *)
Record Self := {
  initialized : bool;
  parser : option Parser
}.

(** [__init__], lines 16-18. *)
Definition init : Self := {| initialized := false; parser := None |}.

Definition set_initialized (v : bool) (s : Self) : Self :=
  {| initialized := v; parser := parser s |}.
Definition set_parser (v : option Parser) (s : Self) : Self :=
  {| initialized := initialized s; parser := v |}.

(** A method call or attribute access on a value that may be [None] or
    lack the attribute. *)
Definition deref {W A} (x : option A) : Run W A :=
  match x with
  | Some a => mret a
  | None => raise AttributeError
  end.

(** Lines 49-71; the argument is [None] or a parser. *)
Definition gather_options (parser_ : option Parser) : Run Self NS :=
  s ← get;
  parser_ ← (if negb (initialized s)
             then
               let parser_ := match parser_ with
                              | None => ArgumentParser
                              | Some p => p
                              end in
               p ← lift (initialize parser_);
               modify (set_initialized true);;
               mret (Some p)
             else mret parser_);

  p ← deref parser_;
  opt ← lift (parse_known_args p);

  model_name ← deref (ns_model opt);
  model_option_setter ← lift (get_option_setter model_name);
  isTrain ← deref (ns_isTrain opt);
  p ← lift (model_option_setter p isTrain);
  opt ← lift (parse_known_args p);

  modify (set_parser (Some p));;
  mret opt.

End Gather.

(** *** [print_options]

    [vars(opt)] is a dictionary from attribute names to values; [str] of a
    value, and the value as an argument of [os.path.join] (its attributes
    are read first, then joined), are left to the caller. *)

(** The line feed. *)
Definition nl : string := String (ascii_of_nat 10) EmptyString.

Fixpoint spaces (n : nat) : string :=
  match n with
  | O => EmptyString
  | S n' => String " " (spaces n')
  end.

(** ['{:>w}'.format(s)] and ['{:<w}'.format(s)]: padding to a minimum
    width, nothing is cut. *)
Definition rjust (w : nat) (s : string) : string :=
  spaces (w - String.length s) +:+ s.

Definition ljust (w : nat) (s : string) : string :=
  s +:+ spaces (w - String.length s).

Section PrintOptions.

Context {V : Type}.
Variable py_str : V -> string.
Variable path_of : V -> result string.

(** What [print_options] touches: the standard output, the calls of
    [util.mkdirs], and the text files written. *)
Record Out := {
  stdout : list string;
  mkdirs_calls : list string;
  text_files : gmap string string
}.

Definition py_print (s : string) : Run Out unit :=
  modify (fun w => {| stdout := stdout w ++ [s +:+ nl];
                      mkdirs_calls := mkdirs_calls w;
                      text_files := text_files w |}).

Definition util_mkdirs (p : string) : Run Out unit :=
  modify (fun w => {| stdout := stdout w;
                      mkdirs_calls := mkdirs_calls w ++ [p];
                      text_files := text_files w |}).

(** [with open(p, 'wt') as f: f.write(a); f.write(b)], in the directory
    [util.mkdirs] has just made. *)
Definition write_text (p : string) (parts : list string) : Run Out unit :=
  modify (fun w => {| stdout := stdout w;
                      mkdirs_calls := mkdirs_calls w;
                      text_files := <[p := String.concat EmptyString parts]> (text_files w) |}).

(** [sorted(vars(opt).items())]: the keys of a dictionary are distinct, so
    the order of the pairs is the order of their keys. *)
Definition key_le (x y : string * V) : Prop := String.leb (fst x) (fst y) = true.

#[global] Instance key_le_dec (x y : string * V) : Decision (key_le x y).
Proof. unfold key_le. apply _. Defined.

Definition sorted_items (opt : gmap string V) : list (string * V) :=
  sorting.merge_sort key_le (map_to_list opt).

(** One line of the listing, line 83. *)
Definition option_line (k : string) (v : V) : string :=
  let comment := EmptyString in
  rjust 25 k +:+ ": " +:+ ljust 30 (py_str v) +:+ comment +:+ nl.

(** The message, lines 79-84. *)
Definition options_message (opt : gmap string V) : string :=
  let message := EmptyString in
  let message := message +:+ "----------------- Options ---------------" +:+ nl in
  let message :=
    fold_left (fun message kv => message +:+ option_line (fst kv) (snd kv))
      (sorted_items opt) message in
  message +:+ "----------------- End -------------------".

(** Lines 73-93. *)
Definition print_options (opt : gmap string V) : Run Out unit :=
  let message := options_message opt in
  py_print message;;

  main_root ← deref (opt !! "main_root");
  model_root ← deref (opt !! "model_root");
  exp_name ← deref (opt !! "exp_name");
  checkpoints_dir ← deref (opt !! "checkpoints_dir");
  main_root ← lift (path_of main_root);
  model_root ← lift (path_of model_root);
  exp_name ← lift (path_of exp_name);
  checkpoints_dir ← lift (path_of checkpoints_dir);
  let expr_dir := path_join main_root [model_root; exp_name; checkpoints_dir] in
  util_mkdirs expr_dir;;
  phase ← deref (opt !! "phase");
  let file_name := path_join expr_dir [py_str phase +:+ "_opt.txt"] in
  write_text file_name [message; nl].

End PrintOptions.

End OptionsObject.

(** ** atme.py: the script *)

Section Main.

Context {Data Losses Visuals Elt DS M : Type}.
Context `{!atme.Model (Data:=Data) (Losses:=Losses) (Visuals:=Visuals) (Elt:=Elt) M}
        `{!atme.Dataset (Data:=Data) (Elt:=Elt) DS} `{!atme.Env DS M}.
Variable zero : Elt.

(** Lines 163-168, from the [opt] that [AtmeOptions().parse()] returned. *)
Definition main : Run (atme.World Data Losses Visuals Elt M) unit :=
  atme_opt ← gets atme.w_opt;
  if atme.isTrain atme_opt then atme.train else atme.test zero.

End Main.
(** ** More of the concrete setting *)

Module DemoMore.
Import atme.

(** The configuration of [Demo.opt] with another [print_freq], number of
    epochs, evaluation plane and training flag. *)
Definition opt_with (print_freq_ n_epochs_ : Z) (eval_plane_ : string)
    (isTrain_ : bool) : Opt := {|
  isTrain := isTrain_;
  main_root := "outputs"; model_root := "atme_output";
  exp_name := "runs"; data_name := "data";
  save_dir := "outputs"; data_dir := None;
  csv_name := "cases.csv"; eval_plane := eval_plane_; data_format := "nifti";
  vol_cube_dim := 2; global_min := 0; global_max := 0; save_nifti := false;
  epoch_count := 1; n_epochs := n_epochs_; n_epochs_decay := 0;
  batch_size := 1; display_freq := 4; update_html_freq := 1000;
  print_freq := print_freq_; save_latest_freq := 1000000; save_epoch_freq := 5;
  save_by_iter := false; n_save_noisy := Some 3; other_attrs := []
|}.

(** A dataset whose [len] need not be the number of slices it yields. *)
Record Sized := {
  declared : nat;
  yielded : list nat
}.

#[global] Instance sized : Dataset (Data:=nat) (Elt:=Z) Sized := {|
  ds_len s := declared s;
  ds_iter s _ := yielded s;
  ds_crop_volume _ v := v
|}.

(** One that yields two slices and declares one, and one that declares
    three. *)
Definition long_ds : Sized := {| declared := 1; yielded := [5; 6]%nat |}.
Definition short_ds : Sized := {| declared := 3; yielded := [5; 6]%nat |}.

Definition short_slices : list nat := ds_iter short_ds 0.

(** A parser is the list of the options it defines, and the namespace it
    parses to lists them too; the model's option setter adds one. *)
#[global] Instance argparse : OptionsObject.Argparse (list string) (list string) := {|
  OptionsObject.ArgumentParser := [];
  OptionsObject.initialize p := Ok (p ++ ["model"; "isTrain"]);
  OptionsObject.parse_known_args p := Ok p;
  OptionsObject.get_option_setter _ := Ok (fun p _ => Ok (p ++ ["lambda_L1"]));
  OptionsObject.ns_model ns := if bool_decide ("model" ∈ ns) then Some "simple" else None;
  OptionsObject.ns_isTrain ns := if bool_decide ("isTrain" ∈ ns) then Some true else None
|}.

(** A namespace of six attributes, all text. *)
Definition vars : gmap string string :=
  list_to_map [("main_root", "outputs"); ("model_root", "simple_output");
               ("exp_name", "runs"); ("checkpoints_dir", "checkpoints");
               ("phase", "train"); ("gpu_ids", "0")].

Definition out_empty : OptionsObject.Out :=
  {| OptionsObject.stdout := []; OptionsObject.mkdirs_calls := [];
     OptionsObject.text_files := ∅ |}.

(** Namespaces with a malformed list of GPU ids, and with a suffix, with
    and without a name. *)
Definition pworld_with (suffix_ : string) (name_ : option string)
    (gpu_ids_ : string) : Options.PWorld := {|
  Options.p_opt := {| Options.suffix := suffix_; Options.name := name_;
                      Options.gpu_ids := Options.VStr gpu_ids_;
                      Options.planes := Options.VStr "axial,coronal" |};
  Options.p_devices := []
|}.

End DemoMore.

Definition demo_zero_freq_world : atme.World nat nat nat Z (list nat) :=
  Demo.world (DemoMore.opt_with 0 2 "coronal" true) Demo.fs_empty.

Definition demo_no_epochs_world : atme.World nat nat nat Z (list nat) :=
  Demo.world (DemoMore.opt_with 2 0 "coronal" true) Demo.fs_empty.

Definition demo_no_epochs_end : atme.World nat nat nat Z (list nat) :=
  outcome (atme.train demo_no_epochs_world) demo_no_epochs_world.


Definition demo_noisy_world : atme.World nat nat nat Z (list nat) :=
  Demo.world (DemoMore.opt_with 2 2 "coronal" true) Demo.fs_empty.

Definition demo_noisy_end : atme.World nat nat nat Z (list nat) :=
  outcome (atme.train demo_noisy_world) demo_noisy_world.

Definition demo_eval_world : atme.World nat nat nat Z (list nat) :=
  Demo.world (DemoMore.opt_with 2 2 "coronal" false) Demo.fs_empty.

Definition demo_eval_end : atme.World nat nat nat Z (list nat) :=
  outcome (main 0 demo_eval_world) demo_eval_world.

Definition demo_gather_end : OptionsObject.Self (Parser:=list string) :=
  outcome (OptionsObject.gather_options None OptionsObject.init) OptionsObject.init.

Definition demo_print_end : OptionsObject.Out :=
  outcome (OptionsObject.print_options (fun v => v) Ok DemoMore.vars DemoMore.out_empty)
          DemoMore.out_empty.

Definition demo_suffix_end : Options.PWorld :=
  outcome (SimpleOptions.parse Demo.str_format
             (DemoMore.pworld_with "v2" (Some "exp") "0"))
          Demo.pworld.

(** A world in the middle of the first epoch of [Demo.opt]: one batch done,
    the counter at 1, the clock read four times. *)
Definition demo_mid_world : atme.World nat nat nat Z (list nat) := {|
  atme.w_opt := opt_after_train Demo.opt; atme.w_log := []; atme.w_clock := 4;
  atme.w_draws := 0; atme.w_fs := Demo.fs_empty; atme.w_model := [10%nat];
  atme.w_passes := 1; atme.w_epoch := Some 1; atme.w_total_iters := 1;
  atme.w_epoch_iter := 1; atme.w_iter_data_time := Some (atme.Now 3);
  atme.w_t_data := Some (atme.TSub (atme.Now 2) (atme.Now 1));
  atme.w_gen_vol := []
|}.

Definition demo_mid_end : atme.World nat nat nat Z (list nat) :=
  outcome (atme.train_batch "figs" 1 1 20%nat demo_mid_world) demo_mid_world.
(* PROPERTIES *)

(** * Properties *)

Import atme.

(** ** The Python primitives on examples *)

Example py_int_examples :
  py_int "0" = Ok 0 /\ py_int "-1" = Ok (-1) /\ py_int " +12 " = Ok 12 /\
  py_int "1_0" = Ok 10 /\ py_int EmptyString = Raise ValueError /\
  py_int "1__0" = Raise ValueError /\ py_int "- 1" = Raise ValueError /\
  py_int "2_" = Raise ValueError.
Proof. repeat split; reflexivity. Qed.

Example str_split_examples :
  str_split "," "0,1,2" = ["0"; "1"; "2"] /\ str_split "," EmptyString = [EmptyString] /\
  str_split "," "0," = ["0"; EmptyString] /\ str_split "," "-1" = ["-1"].
Proof. repeat split; reflexivity. Qed.

Example path_join_examples :
  path_join "outputs" ["atme_output"; "runs"] = "outputs/atme_output/runs" /\
  path_join "a/" ["b"] = "a/b" /\ path_join "a" ["/b"; "c"] = "/b/c" /\
  path_join EmptyString ["b"] = "b" /\
  parents "a/b/c" = ["a/b"; "a"] /\ str_of_int 10 = "10" /\ str_of_int 0 = "0".
Proof. repeat split; reflexivity. Qed.

(** ** The monad: unfolding lemmas *)

Lemma bind_Ok {W A B} (m : Run W A) (f : A -> Run W B) w a w' :
  m w = Ok (a, w') -> (m ≫= f) w = f a w'.
Proof. intros E. unfold mbind, Run_bind. now rewrite E. Qed.

Lemma bind_Raise {W A B} (m : Run W A) (f : A -> Run W B) w e :
  m w = Raise e -> (m ≫= f) w = Raise e.
Proof. intros E. unfold mbind, Run_bind. now rewrite E. Qed.

Lemma bind_inv {W A B} (m : Run W A) (f : A -> Run W B) w b w' :
  (m ≫= f) w = Ok (b, w') ->
  exists a w1, m w = Ok (a, w1) /\ f a w1 = Ok (b, w').
Proof.
  unfold mbind, Run_bind. destruct (m w) as [[a w1]|e]; [|discriminate].
  intros E. now exists a, w1.
Qed.

Lemma for_enumerate_app {W A} (xs ys : list A) i0 (body : nat -> A -> Run W unit) w :
  for_enumerate i0 (xs ++ ys) body w =
  (for_enumerate i0 xs body;; for_enumerate (i0 + length xs) ys body) w.
Proof.
  revert i0 w. induction xs as [|x xs IH]; intros i0 w; simpl.
  - unfold mbind, Run_bind, mret, Run_ret. now rewrite Nat.add_0_r.
  - unfold mbind, Run_bind in *. destruct (body i0 x w) as [[[] w1]|e]; [|reflexivity].
    rewrite IH. now replace (S i0 + length xs)%nat with (i0 + S (length xs))%nat by lia.
Qed.


Lemma py_mod_ok a b : b <> 0 -> py_mod a b = Ok (a mod b).
Proof. intros H. unfold py_mod. destruct (Z.eqb_spec b 0); [contradiction|reflexivity]. Qed.

(** Symbolic evaluation of a run: the monad, the world and [opt] records and
    the operations on them are unfolded and reduced; arithmetic, strings and
    the collaborators are left alone. *)
Ltac run_eval :=
  cbv beta iota zeta delta [
    negb andb py_mod time_div randint when model_call model_query print call time_time random_randint
    read_local getattr set_opt iter_dataset os_path_exists os_makedirs
    torch_save preprocess_save_nifti for_each enter_train mbind Run_bind mret
    Run_ret gets get modify lift raise
    w_opt w_log w_clock w_draws w_fs w_model w_passes w_epoch
    w_total_iters w_epoch_iter w_iter_data_time w_t_data w_gen_vol set_w_opt
    set_w_log set_w_clock set_w_draws set_w_fs set_w_model set_w_passes
    set_w_epoch set_w_total_iters set_w_epoch_iter set_w_iter_data_time
    set_w_t_data set_w_gen_vol isTrain main_root model_root exp_name
    data_name save_dir data_dir csv_name eval_plane data_format vol_cube_dim
    global_min global_max save_nifti epoch_count n_epochs n_epochs_decay
    batch_size display_freq update_html_freq print_freq save_latest_freq
    save_epoch_freq save_by_iter n_save_noisy other_attrs set_isTrain
    set_save_dir set_data_dir set_global_min set_global_max ].

Tactic Notation "run_eval" "in" hyp(H) :=
  cbv beta iota zeta delta [
    negb andb py_mod time_div randint when model_call model_query print call time_time random_randint
    read_local getattr set_opt iter_dataset os_path_exists os_makedirs
    torch_save preprocess_save_nifti for_each enter_train mbind Run_bind mret
    Run_ret gets get modify lift raise
    w_opt w_log w_clock w_draws w_fs w_model w_passes w_epoch
    w_total_iters w_epoch_iter w_iter_data_time w_t_data w_gen_vol set_w_opt
    set_w_log set_w_clock set_w_draws set_w_fs set_w_model set_w_passes
    set_w_epoch set_w_total_iters set_w_epoch_iter set_w_iter_data_time
    set_w_t_data set_w_gen_vol isTrain main_root model_root exp_name
    data_name save_dir data_dir csv_name eval_plane data_format vol_cube_dim
    global_min global_max save_nifti epoch_count n_epochs n_epochs_decay
    batch_size display_freq update_html_freq print_freq save_latest_freq
    save_epoch_freq save_by_iter n_save_noisy other_attrs set_isTrain
    set_save_dir set_data_dir set_global_min set_global_max ] in H.

(** A run that ends normally ends in its [outcome]. *)
Lemma returns_outcome {W} (r : result (unit * W)) (d : W) :
  returns r = true -> r = Ok (tt, outcome r d).
Proof. destruct r as [[[] w]|e]; [reflexivity | discriminate]. Qed.

(** An equation between closed terms, checked by evaluating both sides;
    for a run and its outcome it is enough that the run returns. *)
Ltac by_eval :=
  match goal with
  | |- ?l = ?r => exact (@eq_refl _ l <: l = r)
  end.

Ltac by_run := first [ apply returns_outcome; by_eval | by_eval ].

(** A world and its [opt] as explicit records of variables. *)
Ltac destruct_world w :=
  let o := fresh "o" in
  destruct w as [o ? ? ? ? ? ? ? ? ? ? ? ?]; destruct o.

(** Case analysis on the innermost test the evaluation is stuck on. *)
Ltac stuck_case :=
  match goal with
  | |- context [match ?x with _ => _ end] =>
      lazymatch x with
      | context [match _ with _ => _ end] => fail
      | _ => destruct x eqn:?
      end
  end.

Ltac close_log :=
  rewrite <- ?app_assoc; eexists; (split; [reflexivity|]); reflexivity.

Lemma omap_cons {A B} (f : A -> option B) (x : A) (l : list A) :
  omap f (x :: l) = match f x with Some y => y :: omap f l | None => omap f l end.
Proof. reflexivity. Qed.

Section LogFacts.
Context {Data Losses Visuals : Type}.
Implicit Types l : list (Call Data Losses Visuals).

Lemma views_app l1 l2 : views (l1 ++ l2) = views l1 ++ views l2.
Proof. apply omap_app. Qed.
End LogFacts.


Arguments path_join : simpl never.
Arguments str_of_int : simpl never.

(** ** [parse]: the GPU ids *)

Import Options.

Section ParseFacts.
Variable str_format : string -> Namespace -> result string.

Lemma process_suffix_frame w w' u :
  process_suffix str_format w = Ok (u, w') ->
  gpu_ids (p_opt w') = gpu_ids (p_opt w) /\ planes (p_opt w') = planes (p_opt w) /\
  p_devices w' = p_devices w.
Proof.
  unfold process_suffix, when, mbind, Run_bind, gets, lift, mret, Run_ret, modify, raise.
  intros H. repeat case_match; simplify_eq; auto.
Qed.

Lemma gpu_loop_spec (strs : list string) : forall i0 w acc u w',
  gpu_ids (p_opt w) = VInts acc ->
  for_enumerate i0 strs (fun _ x => gpu_ids_body x) w = Ok (u, w') ->
  exists ids, Forall2 (fun str z => py_int str = Ok z) strs ids /\
    gpu_ids (p_opt w') = VInts (acc ++ nonneg ids) /\
    planes (p_opt w') = planes (p_opt w) /\ suffix (p_opt w') = suffix (p_opt w) /\
    name (p_opt w') = name (p_opt w) /\
    p_devices w' = p_devices w.
Proof.
  induction strs as [|str strs IH]; intros i0 w acc u w' Hacc; simpl.
  - intros [= <- <-]. exists []. rewrite app_nil_r. repeat split; auto.
  - intros H. apply bind_inv in H as (a & w1 & Hb & Hrest).
    unfold gpu_ids_body, when, mbind, Run_bind, gets, lift, mret, Run_ret, modify in Hb.
    destruct (py_int str) as [id|] eqn:Hid; [|discriminate].
    destruct (0 <=? id) eqn:Hpos; simpl in Hb.
    + rewrite Hacc in Hb. simpl in Hb. injection Hb as <- <-.
      eapply IH in Hrest as (ids & Hall & Hg & Hp & Hs & Hn & Hd); [|reflexivity].
      exists (id :: ids). split; [constructor; auto|].
      unfold nonneg in *. simpl. rewrite Hpos. rewrite Hg, <- app_assoc. auto.
    + injection Hb as <- <-.
      eapply IH in Hrest as (ids & Hall & Hg & Hp & Hs & Hn & Hd); [|exact Hacc].
      exists (id :: ids). split; [constructor; auto|].
      unfold nonneg in *. simpl. rewrite Hpos. auto.
Qed.


Lemma set_gpu_ids_block_spec w s u w' :
  gpu_ids (p_opt w) = VStr s ->
  set_gpu_ids_block w = Ok (u, w') ->
  exists ids, Forall2 (fun str z => py_int str = Ok z) (str_split "," s) ids /\
    gpu_ids (p_opt w') = VInts (nonneg ids) /\
    planes (p_opt w') = planes (p_opt w) /\
    p_devices w' = p_devices w ++ first_device (nonneg ids).
Proof.
  intros Hs H. unfold set_gpu_ids_block in H.
  apply bind_inv in H as (o & w1 & Ho & H). injection Ho as <- <-.
  apply bind_inv in H as (s' & w1 & Hl & H). unfold lift in Hl. rewrite Hs in Hl.
  simpl in Hl. injection Hl as <- <-.
  apply bind_inv in H as ([] & w1 & Hm & H). injection Hm as <-.
  apply bind_inv in H as ([] & w2 & Hloop & H).
  eapply gpu_loop_spec in Hloop as (ids & Hall & Hg & Hp & _ & _ & Hd); [|reflexivity].
  apply bind_inv in H as (o & w3 & Ho & H). injection Ho as <- <-.
  exists ids. split; [exact Hall|]. simpl in Hg. rewrite Hg in H.
  destruct (nonneg ids) as [|d rest] eqn:Hn.
  - injection H as _ <-. rewrite Hg, Hp, Hd, app_nil_r. auto.
  - unfold cuda_set_device, modify in H. injection H as _ <-. simpl.
    rewrite Hg, Hp, Hd. auto.
Qed.

Lemma set_planes_block_frame w u w' :
  set_planes_block w = Ok (u, w') ->
  gpu_ids (p_opt w') = gpu_ids (p_opt w) /\ p_devices w' = p_devices w.
Proof.
  unfold set_planes_block. intros H.
  apply bind_inv in H as (o & w1 & Ho & H). injection Ho as <- <-.
  apply bind_inv in H as (s' & w1 & Hl & H). unfold lift in Hl.
  destruct (as_str _); [|discriminate]. injection Hl as <- <-.
  apply bind_inv in H as ([] & w1 & Hm & H). injection Hm as <-.
  unfold for_each in H.
  assert (G : forall l i0 w1 u w', for_enumerate i0 l (fun (_ : nat) (x : string) =>
      o0 ← gets p_opt; l0 ← lift (list_append_str (planes o0) x); modify (set_p_opt (set_planes l0))) w1 = Ok (u, w')
      -> gpu_ids (p_opt w') = gpu_ids (p_opt w1) /\ p_devices w' = p_devices w1).
  { clear. induction l as [|x l IH]; intros i0 w1 u w'; simpl.
    - intros [= <- <-]. auto.
    - intros H. apply bind_inv in H as ([] & w2 & Hb & H).
      apply IH in H as [-> ->].
      unfold mbind, Run_bind, gets, lift, modify in Hb.
      destruct (list_append_str _ _); [|discriminate]. injection Hb as <-. auto. }
  apply G in H. simpl in H. exact H.
Qed.

Lemma parse_inv w opt' w' :
  SimpleOptions.parse str_format w = Ok (opt', w') ->
  exists w1 w2, (exists u, process_suffix str_format w = Ok (u, w1)) /\
    (exists u, set_gpu_ids_block w1 = Ok (u, w2)) /\
    (exists u, set_planes_block w2 = Ok (u, w')) /\ opt' = p_opt w'.
Proof.
  unfold SimpleOptions.parse. intros H.
  apply bind_inv in H as (u1 & w1 & H1 & H).
  apply bind_inv in H as (u2 & w2 & H2 & H).
  apply bind_inv in H as (u3 & w3 & H3 & H).
  injection H as <- <-. exists w1, w2. repeat split; eauto.
Qed.

Lemma base_parse_inv w opt' w' :
  BaseOptions.parse str_format w = Ok (opt', w') ->
  exists w1, (exists u, process_suffix str_format w = Ok (u, w1)) /\
    (exists u, set_gpu_ids_block w1 = Ok (u, w')) /\ opt' = p_opt w'.
Proof.
  unfold BaseOptions.parse. intros H.
  apply bind_inv in H as (u1 & w1 & H1 & H).
  apply bind_inv in H as (u2 & w2 & H2 & H).
  injection H as <- <-. exists w1. repeat split; eauto.
Qed.

(** [BaseOptions.parse] treats [gpu_ids] the same way. *)
Lemma BaseOptions_parse_gpu_ids w s opt' w' :
  gpu_ids (p_opt w) = VStr s ->
  BaseOptions.parse str_format w = Ok (opt', w') ->
  exists ids,
    Forall2 (fun str z => py_int str = Ok z) (str_split "," s) ids /\
    gpu_ids opt' = VInts (nonneg ids) /\
    p_devices w' = p_devices w ++ first_device (nonneg ids).
Proof.
  intros Hs H. apply base_parse_inv in H as (w1 & [u1 H1] & [u2 H2] & ->).
  apply process_suffix_frame in H1 as (Hg1 & _ & Hd1).
  eapply set_gpu_ids_block_spec in H2 as (ids & Hall & Hg & _ & Hd);
    [|rewrite Hg1; exact Hs].
  exists ids. rewrite Hg, Hd, Hd1. auto.
Qed.


Lemma planes_loop_total (l : list string) : forall i0 w acc,
  planes (p_opt w) = VStrs acc ->
  exists w', for_enumerate i0 l (fun _ str_plane =>
      o ← gets p_opt;
      l' ← lift (list_append_str (planes o) str_plane);
      modify (set_p_opt (set_planes l'))) w = Ok (tt, w').
Proof.
  induction l as [|x l IH]; intros i0 w acc Hacc; cbn [for_enumerate].
  - eexists. reflexivity.
  - unfold mbind, Run_bind, gets, lift, modify in *. rewrite Hacc.
    cbn [list_append_str]. eapply IH. reflexivity.
Qed.

Lemma set_planes_block_total w p :
  planes (p_opt w) = VStr p -> exists w', set_planes_block w = Ok (tt, w').
Proof.
  intros Hp.
  unfold set_planes_block, for_each, mbind, Run_bind, gets, lift, modify.
  rewrite Hp. cbn [as_str].
  destruct (planes_loop_total (str_split "," p) 0%nat
              (set_p_opt (set_planes (VStrs [])) w) [] eq_refl) as (w' & Hloop).
  unfold mbind, Run_bind, gets, lift, modify in Hloop. rewrite Hloop.
  eexists. reflexivity.
Qed.


(** C10. After [SimpleOptions.parse] returns, [gpu_ids] is the list of the
    non-negative integers read from the comma-separated text, in its order;
    the first of them, if any, is the CUDA device selected; for ["-1"] the
    list is empty and no device is selected. *)
Theorem C10_gpu_ids_nonnegative_in_order w s opt' w' :
  gpu_ids (p_opt w) = VStr s ->
  SimpleOptions.parse str_format w = Ok (opt', w') ->
  exists ids,
    Forall2 (fun str z => py_int str = Ok z) (str_split "," s) ids /\
    gpu_ids opt' = VInts (nonneg ids) /\
    p_devices w' = p_devices w ++ first_device (nonneg ids) /\
    (s = "-1" -> gpu_ids opt' = VInts [] /\ p_devices w' = p_devices w).
Proof.
  intros Hs H. apply parse_inv in H as (w1 & w2 & [u1 H1] & [u2 H2] & [u3 H3] & ->).
  apply process_suffix_frame in H1 as (Hg1 & _ & Hd1).
  eapply set_gpu_ids_block_spec in H2 as (ids & Hall & Hg & _ & Hd);
    [|rewrite Hg1; exact Hs].
  apply set_planes_block_frame in H3 as (Hg3 & Hd3).
  exists ids. rewrite Hg3, Hg, Hd3, Hd, Hd1. repeat split; try assumption.
  - subst s. cbn in Hall. inversion Hall as [|? id ? ids' Hid Hnil]; subst.
    inversion Hnil; subst. cbn in Hid. injection Hid as <-. reflexivity.
  - subst s. cbn in Hall. inversion Hall as [|? id ? ids' Hid Hnil]; subst.
    inversion Hnil; subst. cbn in Hid. injection Hid as <-. cbn. apply app_nil_r.
Qed.

End ParseFacts.
(** ** [train]: what a run logs *)

Section TrainFacts.

Context {Data Losses Visuals Elt DS M : Type}.
Context `{!atme.Model (Data:=Data) (Losses:=Losses) (Visuals:=Visuals) (Elt:=Elt) M}
        `{!atme.Dataset (Data:=Data) (Elt:=Elt) DS} `{!atme.Env DS M}.

Local Abbreviation World := (atme.World Data Losses Visuals Elt M).

Lemma train_batch_spec sfd e i data (w : World) :
  batch_pre e w ->
  match train_batch sfd e i data w with
  | Ok (_, w') =>
      batch_pre e w' /\ w_passes w' = w_passes w /\ is_Some (w_t_data w') /\
      advances w w' 1 (step_views (w_opt w) e (w_total_iters w + batch_size (w_opt w)))
  | Raise err => fails_safely w err
  end.
Proof.
  unfold batch_pre, advances, fails_safely, good_cfg, train_batch, step_views.
  destruct_world w. run_eval.
  intros (-> & [idt ->] & Ht).
  repeat (stuck_case; run_eval).
  all: try (split; [discriminate | lia]).
  all: try match goal with
    | H : (_ `mod` _ =? 0) = false |- _ =>
        destruct Ht as [Ht|Ht];
        [| rewrite Ht, Zmod_0_l in H; discriminate]
    end.
  all: try (destruct Ht as [? Ht]; discriminate).
  all: rewrite ?Z.mul_1_r; repeat split; eauto; try close_log.
Qed.

Lemma advances_refl (w : World) :
  is_Some (w_t_data w) \/ w_total_iters w = 0 -> advances w w 0 [].
Proof.
  intros Ht. unfold advances. repeat split; [lia | exact Ht |].
  exists []. now rewrite app_nil_r.
Qed.

Lemma advances_trans (w w1 w2 : World) n1 n2 vs1 vs2 :
  advances w w1 n1 vs1 -> advances w1 w2 n2 vs2 ->
  advances w w2 (n1 + n2) (vs1 ++ vs2).
Proof.
  intros (Ho1 & Hi1 & _ & evs1 & Hl1 & Hv1) (Ho2 & Hi2 & Ht2 & evs2 & Hl2 & Hv2).
  unfold advances. rewrite Ho2, Ho1, Hi2, Hi1, Ho1. repeat split; [lia | | ].
  - rewrite Hi2, Hi1, Ho1 in Ht2. exact Ht2.
  - exists (evs1 ++ evs2). rewrite Hl2, Hl1, app_assoc, views_app, Hv1, Hv2. auto.
Qed.

Lemma train_batches_spec sfd e (batches : list Data) : forall i0 (w : World),
  batch_pre e w ->
  match for_enumerate i0 batches (train_batch sfd e) w with
  | Ok (_, w') =>
      batch_pre e w' /\ w_passes w' = w_passes w /\
      advances w w' (length batches)
        (batches_views (w_opt w) e (w_total_iters w) (length batches))
  | Raise err => fails_safely w err
  end.
Proof.
  induction batches as [|data batches IH]; intros i0 w Hpre; cbn [for_enumerate length batches_views].
  - split; [exact Hpre|]. split; [reflexivity|]. apply advances_refl, Hpre.
  - unfold mbind, Run_bind.
    pose proof (train_batch_spec sfd e i0 data w Hpre) as Hstep.
    destruct (train_batch sfd e i0 data w) as [[[] w1]|err]; [|exact Hstep].
    destruct Hstep as (Hpre1 & Hp1 & _ & Hadv1).
    specialize (IH (S i0) w1 Hpre1).
    destruct (for_enumerate (S i0) batches (train_batch sfd e) w1) as [[[] w2]|err].
    + destruct IH as (Hpre2 & Hp2 & Hadv2).
      split; [exact Hpre2|]. split; [congruence|].
      destruct Hadv1 as (Ho1 & Hi1 & Hrest1). rewrite Ho1, Hi1, Z.mul_1_r in Hadv2.
      change (S (length batches)) with (1 + length batches)%nat.
      eapply advances_trans; [|exact Hadv2]. split; [exact Ho1|]. split; [lia|exact Hrest1].
    + destruct Hadv1 as (Ho1 & _). unfold fails_safely in *. now rewrite <- Ho1.
Qed.

Lemma train_epoch_spec (dataset : DS) sfd e (w : World) :
  is_Some (w_t_data w) \/ w_total_iters w = 0 ->
  let n := length (ds_iter dataset (w_passes w)) in
  match train_epoch dataset sfd e w with
  | Ok (_, w') =>
      w_passes w' = S (w_passes w) /\
      advances w w' n (epoch_views (w_opt w) e (w_total_iters w) n)
  | Raise err => fails_safely w err
  end.
Proof.
  intros Ht n. unfold train_epoch. run_eval.
  match goal with |- context [for_enumerate 0 ?l ?b ?w1] =>
    pose proof (train_batches_spec sfd e l 0%nat w1) as Hloop;
    destruct (for_enumerate 0 l b w1) as [[[] w2]|err]
  end; unfold batch_pre, advances, fails_safely in Hloop; run_eval in Hloop.
  2:{ apply Hloop. eauto. }
  destruct Hloop as ((He2 & Hidt2 & Ht2) & Hp2 & Ho2 & Hi2 & _ & evs & Hl2 & Hv2);
    [eauto|].
  unfold fails_safely, good_cfg, advances, epoch_views. run_eval.
  repeat (first [rewrite Ho2 | rewrite He2 | rewrite Hp2 | rewrite Hi2
                | rewrite Hl2 | stuck_case]; run_eval).
  all: try (split; [discriminate | lia]).
  all: repeat split; eauto.
  all: try (rewrite <- Hi2; exact Ht2).
  all: rewrite <- ?app_assoc; eexists; (split; [reflexivity|]).
  all: rewrite !views_app, Hv2; cbn; now rewrite app_nil_r.
Qed.

Lemma train_epochs_spec (dataset : DS) sfd (epochs : list Z) : forall i0 (w : World),
  is_Some (w_t_data w) \/ w_total_iters w = 0 ->
  let lens := fun k => length (ds_iter dataset k) in
  match for_enumerate i0 epochs (fun _ x => train_epoch dataset sfd x) w with
  | Ok (_, w') =>
      advances w w' (batches_from lens (w_passes w) (length epochs))
        (run_views (w_opt w) lens (w_passes w) (w_total_iters w) epochs)
  | Raise err => fails_safely w err
  end.
Proof.
  induction epochs as [|e epochs IH]; intros i0 w Ht lens; cbn [for_enumerate length run_views].
  - apply advances_refl, Ht.
  - unfold mbind, Run_bind.
    pose proof (train_epoch_spec dataset sfd e w Ht) as Hstep. cbn zeta in Hstep.
    destruct (train_epoch dataset sfd e w) as [[[] w1]|err]; [|exact Hstep].
    destruct Hstep as (Hp1 & Hadv1).
    assert (Ht1 : is_Some (w_t_data w1) \/ w_total_iters w1 = 0) by apply Hadv1.
    specialize (IH (S i0) w1 Ht1). cbn zeta in IH.
    destruct (for_enumerate (S i0) epochs _ w1) as [[[] w2]|err].
    + destruct Hadv1 as (Ho1 & Hi1 & Hrest1). rewrite Ho1, Hi1, Hp1 in IH.
      unfold batches_from in *. cbn [seq map sum_list]. fold lens.
      eapply advances_trans; [|exact IH]. split; [exact Ho1|]. split; [exact Hi1|exact Hrest1].
    + destruct Hadv1 as (Ho1 & _). unfold fails_safely in *. now rewrite <- Ho1.
Qed.

Lemma train_spec (w : World) :
  let o := opt_after_train (w_opt w) in
  let lens := fun k => length (ds_iter (create_atme_train_dataset o) k) in
  let epochs := py_range (epoch_count o) (n_epochs o + n_epochs_decay o + 1) in
  match train w with
  | Ok (_, w') =>
      w_opt w' = o /\
      w_total_iters w' = batch_size o * Z.of_nat (total_batches lens (length epochs)) /\
      exists evs, w_log w' = w_log w ++ evs /\ views evs = run_views o lens 0 0 epochs
  | Raise err => err <> UnboundLocalError /\ ~ good_cfg o
  end.
Proof.
  intros o lens epochs. unfold train. run_eval.
  match goal with |- context [for_enumerate 0 ?l (fun _ x => train_epoch ?d ?s x) ?w1] =>
    pose proof (train_epochs_spec d s l 0%nat w1) as Hloop;
    destruct (for_enumerate 0 l (fun _ x => train_epoch d s x) w1) as [[[] w2]|err]
  end; unfold advances, fails_safely in Hloop; run_eval in Hloop.
  - destruct Hloop as (Ho2 & Hi2 & _ & evs & Hl2 & Hv2); [now right|].
    split; [exact Ho2|]. split; [rewrite Hi2; reflexivity|].
    rewrite Hl2, <- !app_assoc. eexists. split; [reflexivity|].
    rewrite !views_app, Hv2. reflexivity.
  - apply Hloop. now right.
Qed.

End TrainFacts.
(** ** The expected log of [train], as lists *)

Section ViewFacts.

Context {Data Losses Visuals : Type}.
Implicit Types l : list (Call Data Losses Visuals).

Lemma iters_of_views k l : iters_of k l = viters k (views l).
Proof.
  unfold iters_of, calls_of, viters, views.
  induction l as [|c l IH]; [reflexivity|]. cbn [List.filter omap].
  unfold is_kind at 1, view at 1.
  destruct (kind_of (what c)) as [k'|] eqn:Hk; cbn; rewrite ?Hk; cbn.
  - destruct (decide (k' = k)) as [->|Hne].
    + rewrite !bool_decide_eq_true_2 by reflexivity. cbn. now rewrite IH.
    + rewrite !bool_decide_eq_false_2 by (cbn; congruence). exact IH.
  - rewrite bool_decide_eq_false_2 by discriminate. exact IH.
Qed.

Lemma length_calls_of k l : length (calls_of k l) = length (iters_of k l).
Proof. unfold iters_of. now rewrite length_map. Qed.

Lemma kinds_in_epoch_views e l : kinds_in_epoch e l = vkinds e (views l).
Proof.
  unfold kinds_in_epoch, vkinds, views.
  induction l as [|c l IH]; [reflexivity|].
  rewrite !omap_cons, IH. unfold view.
  destruct (kind_of (what c)) as [k'|]; cbn [option_map].
  - rewrite omap_cons. cbn [fst snd].
    now destruct (bool_decide (at_epoch c = Some e)).
  - now destruct (bool_decide (at_epoch c = Some e)).
Qed.

End ViewFacts.

Lemma viters_app k vs1 vs2 : viters k (vs1 ++ vs2) = viters k vs1 ++ viters k vs2.
Proof. unfold viters. now rewrite List.filter_app, map_app. Qed.

Lemma vkinds_app e vs1 vs2 : vkinds e (vs1 ++ vs2) = vkinds e vs1 ++ vkinds e vs2.
Proof. apply omap_app. Qed.

Lemma count_kind_app k ks1 ks2 :
  count_kind k (ks1 ++ ks2) = (count_kind k ks1 + count_kind k ks2)%nat.
Proof. unfold count_kind. now rewrite List.filter_app, length_app. Qed.

Lemma viters_step o e t :
  viters K_update_learning_rate (step_views o e t) = [] /\
  viters K_optimize_parameters (step_views o e t) = [t] /\
  viters K_compute_visuals (step_views o e t) = List.filter (fires (display_freq o)) [t] /\
  viters K_print_current_losses (step_views o e t) = List.filter (fires (print_freq o)) [t] /\
  viters K_save_atme_images (step_views o e t) = List.filter (fires (save_latest_freq o)) [t].
Proof.
  unfold step_views, viters, fires. cbn [List.filter].
  destruct (t mod display_freq o =? 0), (t mod print_freq o =? 0),
    (t mod save_latest_freq o =? 0); cbn; repeat split; reflexivity.
Qed.

Lemma vkinds_step o e e' t :
  vkinds e (step_views o e' t) =
  if bool_decide (e' = e) then map snd (step_views o e' t) else [].
Proof.
  unfold step_views, vkinds.
  destruct (decide (e' = e)) as [->|Hne].
  - rewrite bool_decide_eq_true_2 by reflexivity.
    induction (_ ++ _) as [|k ks IH]; [reflexivity|]. cbn.
    rewrite bool_decide_eq_true_2 by reflexivity. cbn. f_equal. exact IH.
  - rewrite bool_decide_eq_false_2 by exact Hne.
    induction (_ ++ _) as [|k ks IH]; [reflexivity|]. cbn.
    rewrite bool_decide_eq_false_2 by congruence. exact IH.
Qed.

Lemma count_kind_step o e t :
  count_kind K_update_learning_rate (map snd (step_views o e t)) = 0%nat /\
  count_kind K_optimize_parameters (map snd (step_views o e t)) = 1%nat.
Proof.
  unfold step_views, count_kind.
  destruct (t mod display_freq o =? 0), (t mod print_freq o =? 0),
    (t mod save_latest_freq o =? 0); cbn; split; reflexivity.
Qed.

Lemma ticks_S B t0 n : ticks B t0 (S n) = (t0 + B) :: ticks B (t0 + B) n.
Proof.
  unfold ticks. cbn [seq map]. f_equal; [lia|].
  rewrite <- seq_shift, map_map. apply map_ext. intros k. lia.
Qed.

Lemma ticks_app B t0 n m :
  ticks B t0 (n + m) = ticks B t0 n ++ ticks B (t0 + B * Z.of_nat n) m.
Proof.
  revert t0. induction n as [|n IH]; intros t0.
  - replace (t0 + B * Z.of_nat 0) with t0 by lia. reflexivity.
  - cbn [Nat.add]. rewrite !ticks_S, IH. cbn [app].
    replace (t0 + B + B * Z.of_nat n) with (t0 + B * Z.of_nat (S n)) by lia.
    reflexivity.
Qed.

Lemma ticks_sorted B t0 n : 1 <= B -> StronglySorted Z.lt (ticks B t0 n).
Proof.
  intros HB. revert t0. induction n as [|n IH]; intros t0.
  - constructor.
  - rewrite ticks_S. constructor; [apply IH|].
    unfold ticks. apply Forall_forall. intros x Hx.
    apply list_elem_of_fmap in Hx as (k & -> & Hk). apply elem_of_seq in Hk.
    assert (0 < B * Z.of_nat k) by (apply Z.mul_pos_pos; lia). lia.
Qed.

Section RunViews.

Variable o : Opt.
Variable lens : nat -> nat.

Lemma viters_batches e t0 n :
  viters K_update_learning_rate (batches_views o e t0 n) = [] /\
  viters K_optimize_parameters (batches_views o e t0 n) = ticks (batch_size o) t0 n.
Proof.
  revert t0. induction n as [|n IH]; intros t0; [split; reflexivity|].
  cbn [batches_views]. rewrite !viters_app, ticks_S.
  destruct (viters_step o e (t0 + batch_size o)) as (-> & -> & _).
  destruct (IH (t0 + batch_size o)) as (-> & ->). split; reflexivity.
Qed.

Lemma run_views_cons p t0 e es :
  run_views o lens p t0 (e :: es) =
  [(Some e, t0, K_update_learning_rate)] ++ batches_views o e t0 (lens p)
  ++ run_views o lens (S p) (t0 + batch_size o * Z.of_nat (lens p)) es.
Proof. reflexivity. Qed.

Lemma viters_run p t0 es :
  viters K_optimize_parameters (run_views o lens p t0 es) =
  ticks (batch_size o) t0 (batches_from lens p (length es)).
Proof.
  revert p t0. induction es as [|e es IH]; intros p t0; [reflexivity|].
  rewrite run_views_cons. cbn [length].
  rewrite !viters_app, IH. destruct (viters_batches e t0 (lens p)) as (_ & ->).
  unfold batches_from. cbn [seq map sum_list]. now rewrite ticks_app.
Qed.

Lemma viters_run_lr p t0 es :
  length (viters K_update_learning_rate (run_views o lens p t0 es)) = length es.
Proof.
  revert p t0. induction es as [|e es IH]; intros p t0; [reflexivity|].
  rewrite run_views_cons. cbn [length].
  rewrite !viters_app, !length_app, IH.
  destruct (viters_batches e t0 (lens p)) as (-> & _). reflexivity.
Qed.

(** A cadence: the calls of kind [k] are made at the counter values, among
    those the steps leave, that the test [q] accepts. *)
Section Cadence.

Variable k : kind.
Variable q : Z -> bool.
Hypothesis k_not_lr : k <> K_update_learning_rate.
Hypothesis k_step : forall e t, viters k (step_views o e t) = List.filter q [t].

Lemma cadence_batches e t0 n :
  viters k (batches_views o e t0 n) =
  List.filter q (viters K_optimize_parameters (batches_views o e t0 n)).
Proof.
  revert t0. induction n as [|n IH]; intros t0; [reflexivity|].
  cbn [batches_views]. rewrite !viters_app, List.filter_app, IH, k_step.
  now destruct (viters_step o e (t0 + batch_size o)) as (_ & -> & _).
Qed.

Lemma cadence_run p t0 es :
  viters k (run_views o lens p t0 es) =
  List.filter q (viters K_optimize_parameters (run_views o lens p t0 es)).
Proof.
  revert p t0. induction es as [|e es IH]; intros p t0; [reflexivity|].
  rewrite run_views_cons.
  rewrite !viters_app, !List.filter_app, IH, cadence_batches.
  unfold viters at 1 3. cbn [List.filter snd].
  rewrite bool_decide_eq_false_2 by congruence. reflexivity.
Qed.

End Cadence.

Lemma vkinds_batches e e' t0 n :
  vkinds e (batches_views o e' t0 n) =
  if bool_decide (e' = e) then map snd (batches_views o e' t0 n) else [].
Proof.
  revert t0. induction n as [|n IH]; intros t0.
  - now destruct (bool_decide _).
  - cbn [batches_views]. rewrite vkinds_app, vkinds_step, IH.
    destruct (bool_decide _); [now rewrite map_app | reflexivity].
Qed.

Lemma count_kind_batches e t0 n :
  count_kind K_update_learning_rate (map snd (batches_views o e t0 n)) = 0%nat /\
  count_kind K_optimize_parameters (map snd (batches_views o e t0 n)) = n.
Proof.
  revert t0. induction n as [|n IH]; intros t0; [split; reflexivity|].
  cbn [batches_views]. rewrite map_app, !count_kind_app.
  destruct (count_kind_step o e (t0 + batch_size o)) as (-> & ->).
  destruct (IH (t0 + batch_size o)) as (-> & ->). split; reflexivity.
Qed.

Lemma vkinds_run_notin e p t0 es :
  e ∉ es -> vkinds e (run_views o lens p t0 es) = [].
Proof.
  revert p t0. induction es as [|e' es IH]; intros p t0 Hnot; [reflexivity|].
  apply not_elem_of_cons in Hnot as [Hne Hnot].
  rewrite run_views_cons.
  rewrite !vkinds_app, vkinds_batches, IH by exact Hnot.
  rewrite bool_decide_eq_false_2 by congruence.
  cbn. rewrite bool_decide_eq_false_2 by congruence. reflexivity.
Qed.

(** In a run over distinct epochs, the calls of the [i]-th epoch are the
    learning-rate update followed by the calls of its batches. *)
Lemma vkinds_run_in e i p t0 es :
  NoDup es -> es !! i = Some e ->
  exists t, vkinds e (run_views o lens p t0 es) =
    K_update_learning_rate :: map snd (batches_views o e t (lens (p + i))).
Proof.
  revert i p t0. induction es as [|e' es IH]; intros i p t0 Hnd Hi; [discriminate|].
  apply NoDup_cons in Hnd as [Hnot Hnd].
  rewrite run_views_cons.
  rewrite !vkinds_app, vkinds_batches.
  destruct i as [|i]; cbn in Hi.
  - injection Hi as ->. exists t0.
    rewrite vkinds_run_notin by exact Hnot.
    rewrite bool_decide_eq_true_2 by reflexivity. cbn.
    rewrite bool_decide_eq_true_2 by reflexivity.
    now rewrite app_nil_r, Nat.add_0_r.
  - assert (Hne : e' <> e).
    { intros ->. apply Hnot. eapply list_elem_of_lookup_2. exact Hi. }
    destruct (IH i (S p) (t0 + batch_size o * Z.of_nat (lens p)) Hnd Hi) as (t & ->).
    exists t. rewrite bool_decide_eq_false_2 by exact Hne. cbn.
    rewrite bool_decide_eq_false_2 by congruence.
    now replace (p + S i)%nat with (S p + i)%nat by lia.
Qed.

End RunViews.

Lemma py_range_lookup a b (e : Z) :
  a <= e < b -> py_range a b !! Z.to_nat (e - a) = Some e.
Proof.
  intros H. unfold py_range. rewrite list_lookup_fmap.
  rewrite lookup_seq_lt by lia. cbn. f_equal. lia.
Qed.

Lemma py_range_NoDup a b : NoDup (py_range a b).
Proof.
  unfold py_range. apply NoDup_fmap_2_strong; [|apply NoDup_seq].
  intros x y _ _ Hxy. lia.
Qed.

Lemma good_cfg_after_train o : good_cfg (opt_after_train o) <-> good_cfg o.
Proof. reflexivity. Qed.

(** ** [train]: the claims *)

Section TrainClaims.

Context {Data Losses Visuals Elt DS M : Type}.
Context `{!atme.Model (Data:=Data) (Losses:=Losses) (Visuals:=Visuals) (Elt:=Elt) M}
        `{!atme.Dataset (Data:=Data) (Elt:=Elt) DS} `{!atme.Env DS M}.

Local Abbreviation World := (atme.World Data Losses Visuals Elt M).

(** Under a good configuration [train] returns, and its log is the
    expected one. *)
Lemma train_returns (w : World) :
  good_cfg (w_opt w) ->
  exists w' tr,
    train w = Ok (tt, w') /\ w_log w' = w_log w ++ tr /\
    w_opt w' = opt_after_train (w_opt w) /\
    w_total_iters w' = batch_size (w_opt w) * Z.of_nat (train_steps (w_opt w)) /\
    views tr = run_views (opt_after_train (w_opt w)) (train_lens (w_opt w)) 0 0
                 (train_epochs (w_opt w)).
Proof.
  intros Hg. pose proof (train_spec w) as Hs. cbn zeta in Hs.
  destruct (train w) as [[[] w']|err].
  - destruct Hs as (Ho & Hi & tr & Hl & Hv). exists w', tr. repeat split; assumption.
  - exfalso. destruct Hs as [_ Hn]. apply Hn, good_cfg_after_train, Hg.
Qed.

(** C2. In a run of [train] under a good configuration, the counter values
    left by the batch steps are [B, 2B, ..., nB], strictly increasing, and
    for each of [display_freq], [print_freq] and [save_latest_freq] the
    cadence's call is made at exactly those of these values [t] with
    [t mod f = 0], once each and in this order. *)
Theorem C2_cadence_fires_on_exact_multiples (w : World) :
  good_cfg (w_opt w) ->
  exists w' tr,
    train w = Ok (tt, w') /\ w_log w' = w_log w ++ tr /\
    let o := w_opt w in
    let ts := iters_of K_optimize_parameters tr in
    ts = ticks (batch_size o) 0 (train_steps o) /\
    StronglySorted Z.lt ts /\
    iters_of K_compute_visuals tr = List.filter (fires (display_freq o)) ts /\
    iters_of K_print_current_losses tr = List.filter (fires (print_freq o)) ts /\
    iters_of K_save_atme_images tr = List.filter (fires (save_latest_freq o)) ts.
Proof.
  intros Hg. destruct (train_returns w Hg) as (w' & tr & Hrun & Hl & _ & _ & Hv).
  exists w', tr. split; [exact Hrun|]. split; [exact Hl|]. cbn zeta.
  rewrite !iters_of_views, Hv.
  set (o' := opt_after_train (w_opt w)).
  pose proof (viters_run o' (train_lens (w_opt w)) 0 0 (train_epochs (w_opt w))) as Hts.
  split; [exact Hts|]. split.
  { rewrite Hts. apply ticks_sorted, Hg. }
  repeat split.
  - apply (cadence_run o' _ K_compute_visuals (fires (display_freq o')));
      [discriminate | intros; apply viters_step].
  - apply (cadence_run o' _ K_print_current_losses (fires (print_freq o')));
      [discriminate | intros; apply viters_step].
  - apply (cadence_run o' _ K_save_atme_images (fires (save_latest_freq o')));
      [discriminate | intros; apply viters_step].
Qed.

(** C3. In a run of [train] under a good configuration, for every epoch
    [e] of [epoch_count .. n_epochs + n_epochs_decay] the calls made while
    [epoch] is [e] start with the one [update_learning_rate] of that epoch;
    the [set_input] and [optimize_parameters] calls of its batches all come
    after it. *)
Theorem C3_lr_update_once_before_batches (w : World) (e : Z) :
  good_cfg (w_opt w) ->
  epoch_count (w_opt w) <= e <= n_epochs (w_opt w) + n_epochs_decay (w_opt w) ->
  exists w' tr rest,
    train w = Ok (tt, w') /\ w_log w' = w_log w ++ tr /\
    kinds_in_epoch e tr = K_update_learning_rate :: rest /\
    count_kind K_update_learning_rate rest = 0%nat /\
    count_kind K_optimize_parameters rest =
      train_lens (w_opt w) (Z.to_nat (e - epoch_count (w_opt w))).
Proof.
  intros Hg He. destruct (train_returns w Hg) as (w' & tr & Hrun & Hl & _ & _ & Hv).
  set (o' := opt_after_train (w_opt w)) in *.
  destruct (vkinds_run_in o' (train_lens (w_opt w)) e
              (Z.to_nat (e - epoch_count (w_opt w))) 0 0 (train_epochs (w_opt w)))
    as (t & Hk).
  { apply py_range_NoDup. }
  { apply py_range_lookup. lia. }
  exists w', tr, (map snd (batches_views o' e t
                   (train_lens (w_opt w) (Z.to_nat (e - epoch_count (w_opt w)))))).
  split; [exact Hrun|]. split; [exact Hl|].
  rewrite kinds_in_epoch_views, Hv. split; [exact Hk|].
  apply count_kind_batches.
Qed.

(** C4. Scenario A: with [epoch_count=1], [n_epochs=2], [n_epochs_decay=0],
    [batch_size=1], [save_latest_freq=1000000] and three examples per
    traversal, [train] makes 2 calls of [update_learning_rate] and 6 of
    [optimize_parameters], the counter takes the values 1, ..., 6 and ends
    at 6, and the save-latest cadence never fires. *)
Theorem C4_scenario_A (w : World) :
  let o := w_opt w in
  epoch_count o = 1 -> n_epochs o = 2 -> n_epochs_decay o = 0 ->
  batch_size o = 1 -> save_latest_freq o = 1000000 ->
  display_freq o <> 0 -> print_freq o <> 0 -> update_html_freq o <> 0 ->
  save_epoch_freq o <> 0 ->
  (forall k, train_lens o k = 3%nat) ->
  exists w' tr,
    train w = Ok (tt, w') /\ w_log w' = w_log w ++ tr /\
    length (calls_of K_update_learning_rate tr) = 2%nat /\
    length (calls_of K_optimize_parameters tr) = 6%nat /\
    iters_of K_optimize_parameters tr = [1; 2; 3; 4; 5; 6] /\
    iters_of K_save_atme_images tr = [] /\
    w_total_iters w' = 6.
Proof.
  intros o Hec Hne Hnd HB Hsf Hdf Hpf Huf Hef Hlen.
  assert (Hg : good_cfg o) by (unfold good_cfg; repeat split; try assumption; lia).
  destruct (train_returns w Hg) as (w' & tr & Hrun & Hl & _ & Hi & Hv).
  fold o in Hi, Hv.
  set (o' := opt_after_train o) in *.
  assert (Hep : train_epochs o = [1; 2]).
  { unfold train_epochs. now rewrite Hec, Hne, Hnd. }
  assert (Hst : train_steps o = 6%nat).
  { unfold train_steps, total_batches. rewrite Hep. cbn. now rewrite !Hlen. }
  assert (Hts : iters_of K_optimize_parameters tr = [1; 2; 3; 4; 5; 6]).
  { rewrite iters_of_views, Hv, viters_run.
    change (batches_from (train_lens o) 0 (length (train_epochs o)))
      with (train_steps o).
    rewrite Hst. change (batch_size o') with (batch_size o). now rewrite HB. }
  exists w', tr. split; [exact Hrun|]. split; [exact Hl|].
  rewrite !length_calls_of, Hts. repeat split.
  - rewrite iters_of_views, Hv, viters_run_lr, Hep. reflexivity.
  - rewrite iters_of_views, Hv.
    rewrite (cadence_run o' _ K_save_atme_images (fires (save_latest_freq o')))
      by (discriminate || (intros; apply viters_step)).
    rewrite <- Hv, <- iters_of_views, Hts.
    change (save_latest_freq o') with (save_latest_freq o). now rewrite Hsf.
  - rewrite Hi, Hst, HB. reflexivity.
Qed.

(** C9. No run of [train] ends in an unbound-local error: [t_data] is
    assigned by the guard of the first batch, where the counter is 0,
    before the print branch reads it. *)
Theorem C9_t_data_bound_before_read (w : World) :
  no_unbound_local (train w).
Proof.
  pose proof (train_spec w) as Hs. cbn zeta in Hs.
  destruct (train w) as [[[] w']|err]; [exact I|].
  destruct Hs as [Hne _]. destruct err; try exact I. now apply Hne.
Qed.

End TrainClaims.

(** ** [test]: what a case and a run keep and log *)

Lemma string_app_inj_l (s a b : string) : s +:+ a = s +:+ b -> a = b.
Proof.
  induction s as [|c s IH]; cbn; [auto|]. intros [= H]. auto.
Qed.

Lemma path_join1_inj (p a b : string) :
  starts_with_sep a = false -> starts_with_sep b = false ->
  path_join1 p a = path_join1 p b -> a = b.
Proof.
  unfold path_join1. intros -> ->.
  destruct (_ || _); intros H.
  - now apply string_app_inj_l in H.
  - apply string_app_inj_l in H. now apply string_app_inj_l in H.
Qed.

Lemma case_pt_ne_nii dd i : case_pt dd i <> case_nii dd i.
Proof.
  unfold case_pt, case_nii, path_join. cbn [fold_left]. intros H.
  apply path_join1_inj in H; [discriminate | reflexivity | reflexivity].
Qed.

Section TestFacts.

Context {Data Losses Visuals Elt DS M : Type}.
Context `{!atme.Model (Data:=Data) (Losses:=Losses) (Visuals:=Visuals) (Elt:=Elt) M}
        `{!atme.Dataset (Data:=Data) (Elt:=Elt) DS} `{!atme.Env DS M}.
Variable zero : Elt.

Local Abbreviation World := (atme.World Data Losses Visuals Elt M).

Lemma keeps_refl (w : World) : keeps w w.
Proof. repeat split. exists []. now rewrite app_nil_r. Qed.

Lemma keeps_trans (w1 w2 w3 : World) : keeps w1 w2 -> keeps w2 w3 -> keeps w1 w3.
Proof.
  intros (Ho1 & Hf1 & evs1 & Hl1 & Hr1 & Hi1) (Ho2 & Hf2 & evs2 & Hl2 & Hr2 & Hi2).
  split; [congruence|]. split; [congruence|].
  exists (evs1 ++ evs2). rewrite Hl2, Hl1, app_assoc, !omap_app, Hr1, Hr2, Hi1, Hi2. auto.
Qed.

Ltac close_keeps :=
  unfold keeps; cbn [w_opt w_fs w_log];
  split; [reflexivity|]; split; [reflexivity|];
  first [ exists []; split; [symmetry; apply app_nil_r | split; reflexivity]
        | rewrite <- ?app_assoc; eexists; (split; [reflexivity|]);
          split; reflexivity ].

Lemma test_slice_keeps sfd i j data (w : World) :
  match test_slice sfd i j data w with
  | Ok (_, w') => keeps w w'
  | Raise _ => True
  end.
Proof.
  unfold test_slice. destruct_world w. run_eval.
  repeat (stuck_case; run_eval); try exact I; close_keeps.
Qed.

Lemma test_slices_keeps sfd i (slices : list Data) : forall j0 (w : World),
  match for_enumerate j0 slices (test_slice sfd i) w with
  | Ok (_, w') => keeps w w'
  | Raise _ => True
  end.
Proof.
  induction slices as [|d slices IH]; intros j0 w; cbn [for_enumerate].
  - apply keeps_refl.
  - unfold mbind, Run_bind.
    pose proof (test_slice_keeps sfd i j0 d w) as Hstep.
    destruct (test_slice sfd i j0 d w) as [[[] w1]|]; [|exact I].
    specialize (IH (S j0) w1).
    destruct (for_enumerate (S j0) slices _ w1) as [[[] w2]|]; [|exact I].
    eapply keeps_trans; eassumption.
Qed.

Lemma fill_volume_keeps (ds : DS) sfd i (w : World) :
  match fill_volume zero ds sfd i w with
  | Ok (_, w') => keeps w w'
  | Raise _ => True
  end.
Proof.
  unfold fill_volume, alloc_volume. destruct_world w. run_eval.
  destruct (torch_zeros _ _ _ _); [|exact I]. run_eval.
  match goal with |- context [for_enumerate 0 ?l ?b ?w1] =>
    pose proof (test_slices_keeps sfd i l 0%nat w1) as Hloop;
    destruct (for_enumerate 0 l b w1) as [[[] w2]|]
  end; [|exact I].
  eapply keeps_trans; [|exact Hloop]. close_keeps.
Qed.

Lemma fs_makedirs_inv (fs fs' : FS Elt) p :
  fs_makedirs fs p = Ok fs' -> files fs' = files fs.
Proof.
  unfold fs_makedirs. destruct (fs_exists fs p); [discriminate|].
  destruct (existsb _ _); [discriminate|]. now intros [= <-].
Qed.

Lemma fs_write_inv (fs fs' : FS Elt) p b :
  fs_write fs p b = Ok fs' -> dirs fs' = dirs fs /\ files fs' = <[p := b]> (files fs).
Proof.
  unfold fs_write. destruct (bool_decide _); [discriminate|].
  destruct (_ || _); [|discriminate]. now intros [= <-].
Qed.

Ltac fs_facts :=
  repeat match goal with
  | H : fs_makedirs _ _ = Ok _ |- _ => apply fs_makedirs_inv in H; cbn [files] in H
  | H : fs_write _ _ _ = Ok _ |- _ =>
      apply fs_write_inv in H; cbn [files dirs] in H; destruct H
  end.

Lemma test_case_spec sfd cases axs i cor_case (w : World) :
  match test_case zero sfd cases axs i cor_case w with
  | Ok (_, w') => case_post cor_case i w w'
  | Raise _ => True
  end.
Proof.
  unfold test_case, case_post, case_uses, case_io, case_dir, case_pt, case_nii.
  destruct_world w. run_eval.
  repeat (first
    [ match goal with |- context [fill_volume zero ?d ?s ?j ?w1] =>
        let K := fresh "K" in
        pose proof (fill_volume_keeps d s j w1) as K;
        destruct (fill_volume zero d s j w1) as [[[] w2]|]; [|exact I];
        destruct K as (Ko & Kf & kevs & Kl & Kr & Ki);
        destruct w2 as [? ? ? ? ? ? ? ? ? ? ? ? ?];
        cbn [w_opt w_fs w_log] in Ko, Kf, Kl; subst
      end
    | stuck_case ]; run_eval); try exact I.
  all: fs_facts.
  all: split; [reflexivity|]; eexists _, _; split; [reflexivity|].
  all: split; [rewrite <- ?app_assoc; reflexivity|].
  all: split; [rewrite ?omap_app, ?Kr; reflexivity|].
  all: match goal with Hex : fs_exists _ _ = _ |- _ => rewrite ?Hex end.
  all: split; [rewrite ?omap_app, ?Ki; reflexivity|].
  all: split; [intros Hex; try discriminate; congruence|].
  all: split; [eexists _, _; reflexivity|].
  all: pose proof (case_pt_ne_nii s i) as Hne;
    unfold case_pt, case_nii, case_dir in Hne.
  all: unfold case_dir; split.
  all: repeat match goal with H : files _ = _ |- _ => rewrite H; clear H end.
  all: rewrite ?lookup_insert_eq; try reflexivity.
  all: rewrite lookup_insert_ne by congruence.
  all: rewrite ?lookup_insert_eq; reflexivity.
Qed.

Lemma test_cases_spec sfd cases axs (rest : list string) : forall i0 (w : World),
  match for_enumerate i0 rest (test_case zero sfd cases axs) w with
  | Ok (_, w') =>
      w_opt w' = w_opt w /\
      exists evs, w_log w' = w_log w ++ evs /\
        omap range_view evs = flat_map (fun _ => case_uses (w_opt w)) rest
  | Raise _ => True
  end.
Proof.
  induction rest as [|c rest IH]; intros i0 w; cbn [for_enumerate flat_map].
  - split; [reflexivity|]. exists []. now rewrite app_nil_r.
  - unfold mbind, Run_bind.
    pose proof (test_case_spec sfd cases axs i0 c w) as Hcase.
    destruct (test_case zero sfd cases axs i0 c w) as [[[] w1]|]; [|exact I].
    destruct Hcase as (Ho1 & dd & evs1 & _ & Hl1 & Hr1 & _).
    specialize (IH (S i0) w1).
    destruct (for_enumerate (S i0) rest _ w1) as [[[] w2]|]; [|exact I].
    destruct IH as (Ho2 & evs2 & Hl2 & Hr2).
    split; [congruence|]. exists (evs1 ++ evs2).
    rewrite Hl2, Hl1, app_assoc, omap_app, Hr1, Hr2, Ho1. auto.
Qed.

Lemma test_spec (w : World) :
  match test zero w with
  | Ok (_, w') => test_post w w'
  | Raise _ => True
  end.
Proof.
  unfold test, test_post, opt_at_test_loop, range_unset.
  destruct_world w. run_eval.
  change (path_join csv_name0 []) with csv_name0.
  repeat (first
    [ match goal with |- context [for_enumerate 0 ?l (test_case zero ?s ?c ?a) ?w1] =>
        let K := fresh "K" in
        pose proof (test_cases_spec s c a l 0%nat w1) as K;
        destruct (for_enumerate 0 l (test_case zero s c a) w1) as [[[] w2]|];
        [|exact I];
        destruct K as (Ko & kevs & Kl & Kr);
        destruct w2 as [? ? ? ? ? ? ? ? ? ? ? ? ?];
        cbn [w_opt w_log] in Ko, Kl; subst
      end
    | stuck_case ]; run_eval); try exact I.
  all: eexists; (split; [reflexivity|]); cbn zeta; (split; [reflexivity|]).
  all: rewrite <- ?app_assoc; eexists; (split; [reflexivity|]).
  all: rewrite ?omap_app, Kr; reflexivity.
Qed.

End TestFacts.
(** ** [test]: the reconstructed volume *)

Section VolumeFacts.

Context {Data Losses Visuals Elt DS M : Type}.
Context `{!atme.Model (Data:=Data) (Losses:=Losses) (Visuals:=Visuals) (Elt:=Elt) M}
        `{!atme.Dataset (Data:=Data) (Elt:=Elt) DS} `{!atme.Env DS M}.
Variable zero : Elt.

Local Abbreviation World := (atme.World Data Losses Visuals Elt M).

Lemma expand1_id w (row : list Elt) : length row = w -> expand1 w row = Some row.
Proof. intros <-. unfold expand1. now rewrite Nat.eqb_refl. Qed.

Lemma mapM_expand1_id w (rows : tensor2 Elt) :
  Forall (fun r => length r = w) rows -> mapM (expand1 w) rows = Some rows.
Proof.
  induction 1 as [|r rows Hr _ IH]; [reflexivity|].
  cbn. rewrite (expand1_id _ _ Hr). cbn. rewrite IH. reflexivity.
Qed.

Lemma expand2_id h w (t : tensor2 Elt) : has_shape2 h w t -> expand2 h w t = Some t.
Proof.
  intros [<- Hrows]. unfold expand2. rewrite Nat.eqb_refl.
  now apply mapM_expand1_id.
Qed.

Lemma setitem_slice_ok d (vol : tensor3 Elt) j dest c :
  vol !! j = Some dest -> has_shape2 d d dest -> has_shape2 d d c ->
  setitem_slice vol j c = Ok (<[j := c]> vol).
Proof.
  intros Hj [Hlen Hrows] Hc. unfold setitem_slice, tensor3, tensor2 in *.
  rewrite Hj.
  assert (Hw : match dest with r :: _ => length r | [] => O end = d).
  { destruct dest as [|r dest]; [exact Hlen|]. now inversion Hrows. }
  rewrite Hw, Hlen, (expand2_id _ _ _ Hc). reflexivity.
Qed.

Lemma zeros3_shape n h w : has_shape3 n h w (zeros3 zero n h w).
Proof.
  unfold zeros3. split; [apply repeat_length|].
  apply Forall_forall. intros t Ht. apply list_elem_of_In, repeat_spec in Ht as ->.
  split; [apply repeat_length|].
  apply Forall_forall. intros r Hr. apply list_elem_of_In, repeat_spec in Hr as ->.
  apply repeat_length.
Qed.

Lemma has_shape3_insert n d (vol : tensor3 Elt) j c :
  has_shape3 n d d vol -> has_shape2 d d c -> has_shape3 n d d (<[j := c]> vol).
Proof.
  unfold has_shape3, tensor3, tensor2 in *.
  intros [Hlen Hall] Hc. split; [now rewrite length_insert|].
  apply Forall_insert; assumption.
Qed.

Lemma test_slice_ok sfd i j data (w : World) n d c :
  has_shape3 n d d (w_gen_vol w) -> (j < n)%nat ->
  output_of (infer (w_model w) data) = Ok c -> has_shape2 d d c ->
  exists w',
    test_slice sfd i j data w = Ok (tt, w') /\
    w_gen_vol w' = <[j := c]> (w_gen_vol w) /\
    w_model w' = infer (w_model w) data /\ w_opt w' = w_opt w.
Proof.
  unfold test_slice, output_of, infer. destruct_world w. run_eval.
  intros Hvol Hj Hout Hc. rewrite Hout. run_eval.
  destruct Hvol as [Hlen Hall].
  destruct (lookup_lt_is_Some_2 w_gen_vol0 j) as [dest Hdest]; [lia|].
  assert (Hd : has_shape2 d d dest).
  { eapply Forall_lookup_1 in Hall; eassumption. }
  rewrite (setitem_slice_ok d _ _ _ _ Hdest Hd Hc). run_eval.
  destruct (j =? plot_slice)%nat; run_eval; eexists; repeat split; reflexivity.
Qed.

Lemma test_slices_ok sfd i n d (slices : list Data) : forall j0 (w : World),
  outputs_square (M:=M) d ->
  has_shape3 n d d (w_gen_vol w) -> (j0 + length slices = n)%nat ->
  exists w',
    for_enumerate j0 slices (test_slice sfd i) w = Ok (tt, w') /\
    has_shape3 n d d (w_gen_vol w') /\
    (forall j, (j < j0)%nat -> w_gen_vol w' !! j = w_gen_vol w !! j) /\
    (forall k, (k < length slices)%nat ->
       exists c, output_of (fold_left infer (take (S k) slices) (w_model w)) = Ok c /\
                 w_gen_vol w' !! (j0 + k)%nat = Some c).
Proof.
  induction slices as [|data slices IH]; intros j0 w Hsq Hvol Hn; cbn [for_enumerate length] in *.
  - exists w. repeat split; [exact (proj1 Hvol) | exact (proj2 Hvol) | lia].
  - destruct (Hsq (model_set_input data None (w_model w))) as (c & Hc & Hcs).
    fold (infer (w_model w) data) in Hc.
    destruct (test_slice_ok sfd i j0 data w n d c Hvol ltac:(lia) Hc Hcs)
      as (w1 & Hrun1 & Hv1 & Hm1 & _).
    assert (Hvol1 : has_shape3 n d d (w_gen_vol w1)).
    { rewrite Hv1. now apply has_shape3_insert. }
    destruct (IH (S j0) w1 Hsq Hvol1 ltac:(lia)) as (w' & Hrun & Hvol' & Hbefore & Hafter).
    exists w'. split.
    { unfold mbind, Run_bind. now rewrite Hrun1. }
    split; [exact Hvol'|]. split.
    + intros j Hj. rewrite Hbefore by lia. rewrite Hv1.
      apply list_lookup_insert_ne. lia.
    + intros [|k] Hk.
      * exists c. split; [exact Hc|].
        rewrite Nat.add_0_r, Hbefore by lia. rewrite Hv1.
        apply list_lookup_insert_eq. destruct Hvol as [-> _]. lia.
      * destruct (Hafter k ltac:(lia)) as (c' & Hc' & Hl').
        exists c'. rewrite Hm1 in Hc'. split; [exact Hc'|].
        now replace (j0 + S k)%nat with (S j0 + k)%nat by lia.
Qed.

End VolumeFacts.

(** ** [test]: the claims *)

Section TestClaims.

Context {Data Losses Visuals Elt DS M : Type}.
Context `{!atme.Model (Data:=Data) (Losses:=Losses) (Visuals:=Visuals) (Elt:=Elt) M}
        `{!atme.Dataset (Data:=Data) (Elt:=Elt) DS} `{!atme.Env DS M}.
Variable zero : Elt.

Local Abbreviation World := (atme.World Data Losses Visuals Elt M).

(** C1. For a per-case dataset whose length is the number [n] of slices it
    yields, and a model whose outputs are [d] x [d] with [d = vol_cube_dim]:
    the volume allocated before the slice loop is [zeros (n, d, d)]; the
    loop completes; the volume then has shape [(n, d, d)], and its position
    [j] holds the first-channel, first-batch-element output of inference on
    slice [j], for every [j < n]. *)
Theorem C1_volume_holds_slice_outputs (ds : DS) (sfd : string) (i : nat) (w : World) :
  let slices := ds_iter ds (w_passes w) in
  let n := length slices in
  let d := Z.to_nat (vol_cube_dim (w_opt w)) in
  ds_len ds = n -> 0 <= vol_cube_dim (w_opt w) -> outputs_square (M:=M) d ->
  exists w0 w',
    alloc_volume zero ds w = Ok (tt, w0) /\
    w_gen_vol w0 = zeros3 zero n d d /\
    fill_volume zero ds sfd i w = Ok (tt, w') /\
    has_shape3 n d d (w_gen_vol w') /\
    forall j, (j < n)%nat ->
      exists c,
        output_of (fold_left infer (take (S j) slices) (w_model w)) = Ok c /\
        w_gen_vol w' !! j = Some c.
Proof.
  destruct_world w. run_eval. intros Hlen HD Hsq.
  set (slices := ds_iter ds w_passes0) in *.
  set (n := length slices) in *.
  set (d := Z.to_nat vol_cube_dim0) in *.
  unfold fill_volume, alloc_volume, torch_zeros. run_eval.
  assert ((vol_cube_dim0 <? 0) || (vol_cube_dim0 <? 0) = false) as -> by lia.
  run_eval. rewrite Hlen. fold slices d.
  match goal with |- context [for_enumerate 0 slices ?b ?w1] =>
    destruct (test_slices_ok sfd i n d slices 0 w1 Hsq) as (w' & Hrun & Hshape & _ & Hafter)
  end.
  { apply zeros3_shape. }
  { reflexivity. }
  eexists _, w'. split; [reflexivity|]. split; [reflexivity|].
  rewrite Hrun. split; [reflexivity|]. split; [exact Hshape|].
  intros j Hj. exact (Hafter j Hj).
Qed.

(** C7. In a completed run of [test]: [find_grayscale_limits] is called iff
    both configured bounds are 0, then once and before any case; every call
    of every case that is handed [opt] sees the same bounds, the recomputed
    ones if both were 0 and the configured ones otherwise. *)
Theorem C7_global_range_computed_once (w w' : World) :
  test zero w = Ok (tt, w') ->
  let o := w_opt w in
  exists cases tr,
    df_loc (read_csv (csv_name o)) (eval_plane o) = Ok cases /\
    w_log w' = w_log w ++ tr /\
    let b := range_bounds o cases in
    omap range_view tr =
      (if range_unset o then [R_find_grayscale_limits] else [])
      ++ flat_map (fun _ => [R_uses (fst b) (snd b); R_uses (fst b) (snd b);
                             R_uses (fst b) (snd b)]) cases /\
    global_min (w_opt w') = fst b /\ global_max (w_opt w') = snd b.
Proof.
  intros Hrun o. pose proof (test_spec zero w) as Hs. rewrite Hrun in Hs.
  destruct Hs as (cases & Hdf & Ho & tr & Hl & Hr). fold o in Hdf, Ho, Hr.
  exists cases, tr. split; [exact Hdf|]. split; [exact Hl|]. cbn zeta.
  rewrite Hr, Ho. unfold range_bounds, opt_at_test_loop, range_unset, case_uses.
  subst o. destruct_world w. run_eval.
  destruct (global_min0 =? 0), (global_max0 =? 0); cbn; repeat split; reflexivity.
Qed.

(** C8, as amended. A completed case [i]: creates its directory unless the
    path existed, and leaves an existing one's directories alone; saves the
    cropped volume as [atme_vol.pt]; calls [save_nifti] iff the option is
    set; so that afterwards [atme_vol.nii.gz] is there iff the option is set
    or the file was there before the case. *)
Theorem C8_case_artifacts (sfd : string) (cases axs : list string) (i : nat)
    (cor_case : string) (w w' : World) :
  test_case zero sfd cases axs i cor_case w = Ok (tt, w') ->
  exists dd tr,
    data_dir (w_opt w) = Some dd /\
    w_log w' = w_log w ++ tr /\
    omap io_view tr = case_io (w_opt w) (w_fs w) dd i /\
    (fs_exists (w_fs w) (case_dir dd i) = true -> dirs (w_fs w') = dirs (w_fs w)) /\
    (exists ax v, w_gen_vol w' =
       ds_crop_volume (create_atme_test_dataset (w_opt w) cor_case i ax) v) /\
    files (w_fs w') !! case_pt dd i = Some (TensorFile (w_gen_vol w')) /\
    (save_nifti (w_opt w) = true ->
     files (w_fs w') !! case_nii dd i = Some (NiftiFile (w_gen_vol w'))) /\
    (is_Some (files (w_fs w') !! case_nii dd i) <->
     save_nifti (w_opt w) = true \/ is_Some (files (w_fs w) !! case_nii dd i)).
Proof.
  intros Hrun. pose proof (test_case_spec zero sfd cases axs i cor_case w) as Hs.
  rewrite Hrun in Hs.
  destruct Hs as (_ & dd & tr & Hdd & Hl & _ & Hio & Hdirs & Hcrop & Hpt & Hnii).
  exists dd, tr. repeat (split; [assumption|]).
  destruct (save_nifti (w_opt w)); rewrite Hnii.
  - split; [reflexivity|]. split; [now left | eauto].
  - split; [discriminate|]. split; [now right | now intros [?|?]].
Qed.

(** C6, as amended. A completed [train] or [test] leaves [opt] as it was
    but for [isTrain], [save_dir] and [data_dir], which both assign on
    entry, and, in [test], [global_min] and [global_max] when both were 0;
    the epoch loop of [train] and the case loop of [test] leave [opt] as
    they find it. *)
Theorem C6_opt_changes_on_entry_only (w w' : World) :
  (train w = Ok (tt, w') -> w_opt w' = opt_after_train (w_opt w)) /\
  (test zero w = Ok (tt, w') ->
   exists lim, w_opt w' = opt_at_test_loop lim (w_opt w)) /\
  (forall (dataset : DS) sfd epochs,
     is_Some (w_t_data w) \/ w_total_iters w = 0 ->
     for_each epochs (train_epoch dataset sfd) w = Ok (tt, w') ->
     w_opt w' = w_opt w) /\
  (forall sfd cases axs rest,
     for_enumerate 0 rest (test_case zero sfd cases axs) w = Ok (tt, w') ->
     w_opt w' = w_opt w).
Proof.
  split; [|split; [|split]].
  - intros Hrun. pose proof (train_spec w) as Hs. rewrite Hrun in Hs. apply Hs.
  - intros Hrun. pose proof (test_spec zero w) as Hs. rewrite Hrun in Hs.
    destruct Hs as (cases & _ & Ho & _). eexists. exact Ho.
  - intros dataset sfd epochs Ht Hrun.
    pose proof (train_epochs_spec dataset sfd epochs 0%nat w Ht) as Hs.
    cbn zeta in Hs. unfold for_each in Hrun. rewrite Hrun in Hs. apply Hs.
  - intros sfd cases axs rest Hrun.
    pose proof (test_cases_spec zero sfd cases axs rest 0%nat w) as Hs.
    rewrite Hrun in Hs. apply Hs.
Qed.

End TestClaims.

(** ** Runs in the concrete setting *)

Import Options.

Lemma demo_good_cfg : good_cfg Demo.opt.
Proof. unfold good_cfg. cbn. repeat split; (discriminate || lia). Defined.

Lemma demo_outputs_square : outputs_square (M:=list nat) 2.
Proof.
  intros m. eexists. split; [reflexivity|].
  split; [reflexivity|]. repeat constructor.
Defined.

Lemma C1_witness :
  (ds_len [5; 6]%nat = length (ds_iter [5; 6]%nat (w_passes demo_world)) /\
   0 <= vol_cube_dim (w_opt demo_world) /\ outputs_square (M:=list nat) 2) /\
  exists w0 w',
    alloc_volume 0 [5; 6]%nat demo_world = Ok (tt, w0) /\
    w_gen_vol w0 = zeros3 0 2 2 2 /\
    fill_volume 0 [5; 6]%nat "figs" 0 demo_world = Ok (tt, w') /\
    has_shape3 2 2 2 (w_gen_vol w') /\
    forall j, (j < 2)%nat ->
      exists c,
        output_of (fold_left infer (take (S j) [5; 6]%nat) (w_model demo_world)) = Ok c /\
        w_gen_vol w' !! j = Some c.
Proof.
  split.
  - split; [reflexivity|]. split; [cbn; lia | exact demo_outputs_square].
  - refine (C1_volume_holds_slice_outputs 0 [5; 6]%nat "figs" 0%nat demo_world
              eq_refl _ demo_outputs_square).
    cbn. lia.
Defined.

(** The volume of that run: two slices, each the output for its input. *)
Example C1_demo_volume :
  fill_volume 0 [5; 6]%nat "figs" 0 demo_world = Ok (tt, demo_volume_end) /\
  w_gen_vol demo_volume_start = [[[0; 0]; [0; 0]]; [[0; 0]; [0; 0]]] /\
  w_gen_vol demo_volume_end = [[[5; 1]; [2; 3]]; [[6; 1]; [2; 3]]].
Proof. split; [by_run|]. split; by_run. Qed.

Lemma C2_witness :
  good_cfg (w_opt demo_world) /\
  exists w' tr,
    train demo_world = Ok (tt, w') /\ w_log w' = w_log demo_world ++ tr /\
    let o := w_opt demo_world in
    let ts := iters_of K_optimize_parameters tr in
    ts = ticks (batch_size o) 0 (train_steps o) /\
    StronglySorted Z.lt ts /\
    iters_of K_compute_visuals tr = List.filter (fires (display_freq o)) ts /\
    iters_of K_print_current_losses tr = List.filter (fires (print_freq o)) ts /\
    iters_of K_save_atme_images tr = List.filter (fires (save_latest_freq o)) ts.
Proof.
  split; [exact demo_good_cfg|].
  apply (C2_cadence_fires_on_exact_multiples demo_world). exact demo_good_cfg.
Defined.

(** The cadences of that run: display every 4, print every 2. *)
Example C2_demo_cadences :
  train demo_world = Ok (tt, demo_train_end) /\
  iters_of K_optimize_parameters (w_log demo_train_end) = [1; 2; 3; 4; 5; 6] /\
  iters_of K_compute_visuals (w_log demo_train_end) = [4] /\
  iters_of K_print_current_losses (w_log demo_train_end) = [2; 4; 6] /\
  iters_of K_save_atme_images (w_log demo_train_end) = [].
Proof. split; [by_run|]. repeat split; by_run. Qed.

Lemma C3_witness :
  (good_cfg (w_opt demo_world) /\
   epoch_count (w_opt demo_world) <= 2
     <= n_epochs (w_opt demo_world) + n_epochs_decay (w_opt demo_world)) /\
  exists w' tr rest,
    train demo_world = Ok (tt, w') /\ w_log w' = w_log demo_world ++ tr /\
    kinds_in_epoch 2 tr = K_update_learning_rate :: rest /\
    count_kind K_update_learning_rate rest = 0%nat /\
    count_kind K_optimize_parameters rest =
      train_lens (w_opt demo_world) (Z.to_nat (2 - epoch_count (w_opt demo_world))).
Proof.
  split.
  - split; [exact demo_good_cfg | cbn; lia].
  - apply (C3_lr_update_once_before_batches demo_world 2).
    + exact demo_good_cfg.
    + cbn. lia.
Defined.

Lemma C4_witness :
  (epoch_count (w_opt demo_world) = 1 /\ n_epochs (w_opt demo_world) = 2 /\
   n_epochs_decay (w_opt demo_world) = 0 /\ batch_size (w_opt demo_world) = 1 /\
   save_latest_freq (w_opt demo_world) = 1000000 /\
   display_freq (w_opt demo_world) <> 0 /\ print_freq (w_opt demo_world) <> 0 /\
   update_html_freq (w_opt demo_world) <> 0 /\
   save_epoch_freq (w_opt demo_world) <> 0 /\
   (forall k, train_lens (w_opt demo_world) k = 3%nat)) /\
  exists w' tr,
    train demo_world = Ok (tt, w') /\ w_log w' = w_log demo_world ++ tr /\
    length (calls_of K_update_learning_rate tr) = 2%nat /\
    length (calls_of K_optimize_parameters tr) = 6%nat /\
    iters_of K_optimize_parameters tr = [1; 2; 3; 4; 5; 6] /\
    iters_of K_save_atme_images tr = [] /\
    w_total_iters w' = 6.
Proof.
  split.
  - repeat split; try reflexivity; discriminate.
  - apply (C4_scenario_A demo_world); try reflexivity; discriminate.
Defined.

(** C5. With batches of two, the slice index passed to [save_atme_images]
    is [random.randint(0, batch_size)], whose upper bound is inclusive: on
    a raw draw of 2 it is 2, the batch size itself.  (The claim asks for an
    index in [0, batch_size).) *)
Theorem C5_slice_index_reaches_batch_size :
  train (Demo.world Demo.opt_batch2 Demo.fs_empty) = Ok (tt, demo_batch2_end) /\
  batch_size (w_opt demo_batch2_end) = 2 /\
  slice_nums (w_log demo_batch2_end) = [2; 2; 2].
Proof. split; [by_run|]. split; by_run. Qed.

(** [random.randint(0, b)] stays within [0, b] and can return [b]. *)
Lemma randint_bounds raw b z : randint raw 0 b = Ok z -> 0 <= z <= b.
Proof.
  unfold randint, randbelow. destruct (0 <? b + 1 - 0) eqn:Hw; [|discriminate].
  intros [= <-]. pose proof (Z.mod_pos_bound raw (b + 1 - 0)). lia.
Qed.

Lemma randint_reaches_upper b : 0 <= b -> randint b 0 b = Ok b.
Proof.
  intros Hb. unfold randint, randbelow.
  destruct (0 <? b + 1 - 0) eqn:Hw; [|lia].
  rewrite Z.mod_small by lia. reflexivity.
Qed.

(** C6 fails as stated: [train] leaves another [save_dir] in [opt]. *)
Lemma C6_counterexample :
  train demo_world = Ok (tt, demo_train_end) /\
  save_dir (w_opt demo_world) = "outputs" /\
  save_dir (w_opt demo_train_end) = "outputs/atme_output/runs" /\
  save_dir (w_opt demo_train_end) <> save_dir (w_opt demo_world).
Proof.
  split; [by_run|]. split; [by_run|]. split; [by_run|].
  intros H.
  assert (H' : "outputs/atme_output/runs" = "outputs")
    by exact (H <: "outputs/atme_output/runs" = "outputs").
  discriminate H'.
Qed.

Lemma C6_witness :
  (train demo_world = Ok (tt, demo_train_end) /\
   test 0 demo_world = Ok (tt, demo_test_end) /\
   (is_Some (w_t_data demo_world) \/ w_total_iters demo_world = 0) /\
   for_each [1; 2] (train_epoch [10; 20; 30]%nat "figs") demo_world
     = Ok (tt, demo_epochs_end) /\
   for_enumerate 0 ["a"; "b"] (test_case 0 "figs" ["a"; "b"] ["a_ax"; "b_ax"])
     demo_case_world = Ok (tt, demo_cases_end)) /\
  w_opt demo_train_end = opt_after_train (w_opt demo_world) /\
  (exists lim, w_opt demo_test_end = opt_at_test_loop lim (w_opt demo_world)) /\
  w_opt demo_epochs_end = w_opt demo_world /\
  w_opt demo_cases_end = w_opt demo_case_world.
Proof.
  split.
  - split; [by_run|]. split; [by_run|]. split; [right; reflexivity|].
    split; by_run.
  - split; [|split; [|split]].
    + apply (proj1 (C6_opt_changes_on_entry_only 0 demo_world demo_train_end)).
      by_run.
    + apply (proj1 (proj2 (C6_opt_changes_on_entry_only 0 demo_world demo_test_end))).
      by_run.
    + apply (proj1 (proj2 (proj2
               (C6_opt_changes_on_entry_only 0 demo_world demo_epochs_end)))
               [10; 20; 30]%nat "figs" [1; 2]).
      * right. reflexivity.
      * by_run.
    + apply (proj2 (proj2 (proj2
               (C6_opt_changes_on_entry_only 0 demo_case_world demo_cases_end)))
               "figs" ["a"; "b"] ["a_ax"; "b_ax"] ["a"; "b"]).
      by_run.
Defined.

Lemma C7_witness :
  test 0 demo_world = Ok (tt, demo_test_end) /\
  exists cases tr,
    df_loc (read_csv (csv_name (w_opt demo_world))) (eval_plane (w_opt demo_world))
      = Ok cases /\
    w_log demo_test_end = w_log demo_world ++ tr /\
    let b := range_bounds (w_opt demo_world) cases in
    omap range_view tr =
      (if range_unset (w_opt demo_world) then [R_find_grayscale_limits] else [])
      ++ flat_map (fun _ => [R_uses (fst b) (snd b); R_uses (fst b) (snd b);
                             R_uses (fst b) (snd b)]) cases /\
    global_min (w_opt demo_test_end) = fst b /\
    global_max (w_opt demo_test_end) = snd b.
Proof.
  split; [by_run|].
  apply (C7_global_range_computed_once 0 demo_world demo_test_end). by_run.
Defined.

(** The range of that run: computed once, then [(-5, 7)] in every use. *)
Example C7_demo_range :
  omap range_view (w_log demo_test_end) =
    [R_find_grayscale_limits; R_uses (-5) 7; R_uses (-5) 7; R_uses (-5) 7;
     R_uses (-5) 7; R_uses (-5) 7; R_uses (-5) 7].
Proof. by_run. Qed.

(** C8 fails as stated: evaluating again without [save_nifti], over the
    directory of a run that saved NIfTI files, leaves [atme_vol.nii.gz] in
    [case_0]. *)
Lemma C8_counterexample :
  test 0 (Demo.world Demo.opt Demo.fs_rerun) = Ok (tt, demo_rerun_end) /\
  save_nifti (w_opt demo_rerun_end) = false /\
  files (w_fs demo_rerun_end) !! case_nii "outputs/atme_output/data" 0
    = Some OtherFile.
Proof. split; [by_run|]. split; by_run. Qed.

Lemma C8_witness :
  test_case 0 "figs" ["a"; "b"] ["a_ax"; "b_ax"] 0 "a" demo_case_world
    = Ok (tt, demo_case_end) /\
  exists dd tr,
    data_dir (w_opt demo_case_world) = Some dd /\
    w_log demo_case_end = w_log demo_case_world ++ tr /\
    omap io_view tr = case_io (w_opt demo_case_world) (w_fs demo_case_world) dd 0 /\
    (fs_exists (w_fs demo_case_world) (case_dir dd 0) = true ->
     dirs (w_fs demo_case_end) = dirs (w_fs demo_case_world)) /\
    (exists ax v, w_gen_vol demo_case_end =
       ds_crop_volume (create_atme_test_dataset (w_opt demo_case_world) "a" 0 ax) v) /\
    files (w_fs demo_case_end) !! case_pt dd 0
      = Some (TensorFile (w_gen_vol demo_case_end)) /\
    (save_nifti (w_opt demo_case_world) = true ->
     files (w_fs demo_case_end) !! case_nii dd 0
       = Some (NiftiFile (w_gen_vol demo_case_end))) /\
    (is_Some (files (w_fs demo_case_end) !! case_nii dd 0) <->
     save_nifti (w_opt demo_case_world) = true \/
     is_Some (files (w_fs demo_case_world) !! case_nii dd 0)).
Proof.
  split; [by_run|].
  apply (C8_case_artifacts 0 "figs" ["a"; "b"] ["a_ax"; "b_ax"] 0%nat "a"
           demo_case_world demo_case_end).
  by_run.
Defined.

Lemma C10_witness :
  (gpu_ids (p_opt Demo.pworld) = VStr "0,-1,2" /\
   SimpleOptions.parse Demo.str_format Demo.pworld
     = Ok (p_opt demo_parse_end, demo_parse_end)) /\
  exists ids,
    Forall2 (fun str z => py_int str = Ok z) (str_split "," "0,-1,2") ids /\
    gpu_ids (p_opt demo_parse_end) = VInts (nonneg ids) /\
    p_devices demo_parse_end = p_devices Demo.pworld ++ first_device (nonneg ids) /\
    ("0,-1,2" = "-1" ->
     gpu_ids (p_opt demo_parse_end) = VInts [] /\
     p_devices demo_parse_end = p_devices Demo.pworld).
Proof.
  split.
  - split; [reflexivity | by_run].
  - apply (C10_gpu_ids_nonnegative_in_order Demo.str_format Demo.pworld "0,-1,2"
             (p_opt demo_parse_end) demo_parse_end); [reflexivity | by_run].
Defined.

(** What [parse] leaves for ["0,-1,2"] and for ["-1"]. *)
Example C10_demo_parse :
  gpu_ids (p_opt demo_parse_end) = VInts [0; 2] /\
  p_devices demo_parse_end = [0] /\
  SimpleOptions.parse Demo.str_format
    {| p_opt := set_gpu_ids (VStr "-1") (p_opt Demo.pworld); p_devices := [] |}
  = Ok ({| suffix := EmptyString; name := None; gpu_ids := VInts [];
           planes := VStrs ["axial"; "coronal"] |},
        {| p_opt := {| suffix := EmptyString; name := None; gpu_ids := VInts [];
                       planes := VStrs ["axial"; "coronal"] |};
           p_devices := [] |}).
Proof. repeat split; by_run. Qed.

(** ** [train]: arguments, checkpoints and errors *)

Section TrainMore.

Context {Data Losses Visuals Elt DS M : Type}.
Context `{!atme.Model (Data:=Data) (Losses:=Losses) (Visuals:=Visuals) (Elt:=Elt) M}
        `{!atme.Dataset (Data:=Data) (Elt:=Elt) DS} `{!atme.Env DS M}.

Local Abbreviation World := (atme.World Data Losses Visuals Elt M).

Lemma details_app (l1 l2 : list (Call Data Losses Visuals)) :
  details (l1 ++ l2) = details l1 ++ details l2.
Proof. apply omap_app. Qed.

Lemma logs_refl (w : World) : logs w w [].
Proof. exists []. now rewrite app_nil_r. Qed.

Lemma logs_trans (w w1 w2 : World) ds1 ds2 :
  logs w w1 ds1 -> logs w1 w2 ds2 -> logs w w2 (ds1 ++ ds2).
Proof.
  intros (evs1 & Hl1 & Hd1) (evs2 & Hl2 & Hd2). exists (evs1 ++ evs2).
  rewrite Hl2, Hl1, app_assoc, details_app, Hd1, Hd2. auto.
Qed.

(** A division by zero: one of the divisors is zero. *)
Ltac zero_division :=
  left; split; [reflexivity|]; unfold zero_divisor; cbn;
  repeat match goal with
  | H : (_ =? 0) = true |- _ => apply Z.eqb_eq in H
  end; tauto.

Lemma train_batch_details sfd e i data (w : World) :
  batch_pre e w ->
  match train_batch sfd e i data w with
  | Ok (_, w') =>
      w_epoch_iter w' = w_epoch_iter w + batch_size (w_opt w) /\
      logs w w' (step_details (w_opt w) sfd e
                   (w_total_iters w + batch_size (w_opt w))
                   (w_epoch_iter w + batch_size (w_opt w)))
  | Raise err => train_raises (w_opt w) err
  end.
Proof.
  unfold batch_pre, logs, train_raises, train_batch, step_details, fires,
    input_epoch, save_suffix.
  destruct_world w. run_eval.
  intros (-> & [idt ->] & Ht).
  repeat (stuck_case; run_eval).
  all: try zero_division.
  all: try (right; split; [reflexivity | lia]).
  all: try match goal with
    | H : (_ `mod` _ =? 0) = false |- _ =>
        destruct Ht as [Ht|Ht];
        [| rewrite Ht, Zmod_0_l in H; discriminate]
    end.
  all: try (destruct Ht as [? Ht]; discriminate).
  all: split; [reflexivity|].
  all: rewrite <- ?app_assoc; eexists; (split; [reflexivity|]); reflexivity.
Qed.

Lemma train_batches_details sfd e (batches : list Data) : forall i0 (w : World),
  batch_pre e w ->
  match for_enumerate i0 batches (train_batch sfd e) w with
  | Ok (_, w') =>
      logs w w' (batches_details (w_opt w) sfd e (w_total_iters w) (w_epoch_iter w)
                   (length batches))
  | Raise err => train_raises (w_opt w) err
  end.
Proof.
  induction batches as [|data batches IH]; intros i0 w Hpre;
    cbn [for_enumerate length batches_details].
  - apply logs_refl.
  - unfold mbind, Run_bind.
    pose proof (train_batch_spec sfd e i0 data w Hpre) as Hstep.
    pose proof (train_batch_details sfd e i0 data w Hpre) as Hdet.
    destruct (train_batch sfd e i0 data w) as [[[] w1]|err]; [|exact Hdet].
    destruct Hstep as (Hpre1 & _ & _ & Ho1 & Hi1 & _).
    destruct Hdet as (Hei1 & Hlog1).
    specialize (IH (S i0) w1 Hpre1). rewrite Ho1, Hi1, Hei1, Z.mul_1_r in IH.
    destruct (for_enumerate (S i0) batches (train_batch sfd e) w1) as [[[] w2]|err].
    + eapply logs_trans; eassumption.
    + exact IH.
Qed.

Lemma train_epoch_details (dataset : DS) sfd e (w : World) :
  is_Some (w_t_data w) \/ w_total_iters w = 0 ->
  match train_epoch dataset sfd e w with
  | Ok (_, w') =>
      logs w w' (epoch_details (w_opt w) sfd e (w_total_iters w)
                   (length (ds_iter dataset (w_passes w))))
  | Raise err => train_raises (w_opt w) err
  end.
Proof.
  intros Ht. unfold train_epoch. run_eval.
  match goal with |- context [for_enumerate 0 ?l ?b ?w1] =>
    pose proof (train_batches_spec sfd e l 0%nat w1) as Hloop;
    pose proof (train_batches_details sfd e l 0%nat w1) as Hdet;
    destruct (for_enumerate 0 l b w1) as [[[] w2]|err]
  end; unfold batch_pre, advances, logs in Hloop, Hdet; run_eval in Hloop;
    run_eval in Hdet.
  2:{ apply Hdet. eauto. }
  destruct Hloop as (_ & _ & Ho2 & Hi2 & _); [eauto|].
  destruct Hdet as (evs & Hl2 & Hd2); [eauto|].
  unfold train_raises, logs, epoch_details, epoch_end_details, fires. run_eval.
  repeat (first [rewrite Ho2 | rewrite Hi2 | rewrite Hl2 | stuck_case]; run_eval).
  all: try zero_division.
  all: rewrite <- ?app_assoc; eexists; (split; [reflexivity|]).
  all: rewrite !details_app, Hd2; cbn; rewrite ?app_nil_r; reflexivity.
Qed.

Lemma train_epochs_details (dataset : DS) sfd (epochs : list Z) : forall i0 (w : World),
  is_Some (w_t_data w) \/ w_total_iters w = 0 ->
  match for_enumerate i0 epochs (fun _ x => train_epoch dataset sfd x) w with
  | Ok (_, w') =>
      logs w w' (run_details (w_opt w) sfd (fun k => length (ds_iter dataset k))
                   (w_passes w) (w_total_iters w) epochs)
  | Raise err => train_raises (w_opt w) err
  end.
Proof.
  induction epochs as [|e epochs IH]; intros i0 w Ht;
    cbn [for_enumerate length run_details].
  - apply logs_refl.
  - unfold mbind, Run_bind.
    pose proof (train_epoch_spec dataset sfd e w Ht) as Hstep. cbn zeta in Hstep.
    pose proof (train_epoch_details dataset sfd e w Ht) as Hdet.
    destruct (train_epoch dataset sfd e w) as [[[] w1]|err]; [|exact Hdet].
    destruct Hstep as (Hp1 & Ho1 & Hi1 & Ht1 & _).
    specialize (IH (S i0) w1 Ht1). rewrite Ho1, Hi1, Hp1 in IH.
    destruct (for_enumerate (S i0) epochs _ w1) as [[[] w2]|err].
    + eapply logs_trans; eassumption.
    + exact IH.
Qed.

Lemma train_details (w : World) :
  let o := opt_after_train (w_opt w) in
  match train w with
  | Ok (_, w') =>
      logs w w' (run_details o (train_fig_dir (w_opt w))
                   (fun k => length (ds_iter (create_atme_train_dataset o) k)) 0 0
                   (py_range (epoch_count o) (n_epochs o + n_epochs_decay o + 1)))
  | Raise err => train_raises o err
  end.
Proof.
  intros o. unfold train, train_fig_dir, logs. run_eval.
  match goal with |- context [for_enumerate 0 ?l (fun _ x => train_epoch ?d ?s x) ?w1] =>
    pose proof (train_epochs_details d s l 0%nat w1) as Hdet;
    destruct (for_enumerate 0 l (fun _ x => train_epoch d s x) w1) as [[[] w2]|err]
  end; unfold logs in Hdet; run_eval in Hdet.
  - destruct Hdet as (evs & Hl2 & Hd2); [now right|].
    rewrite Hl2, <- !app_assoc. eexists. split; [reflexivity|].
    rewrite !details_app, Hd2. reflexivity.
  - apply Hdet. now right.
Qed.

End TrainMore.
(** ** The expected details of [train], as lists *)

Lemma Forall_omap_1 {A B} (f : A -> option B) (P : B -> Prop) (l : list A) :
  Forall P (omap f l) -> Forall (fun x => forall y, f x = Some y -> P y) l.
Proof.
  induction l as [|x l IH]; [constructor|].
  rewrite omap_cons. destruct (f x) as [y|] eqn:Hy.
  - intros HF. inversion HF as [|? ? Hy' HF']; subst. constructor.
    + intros y' Heq. rewrite Hy in Heq. now simplify_eq.
    + apply IH, HF'.
  - intros HF. constructor.
    + intros y' Heq. rewrite Hy in Heq. discriminate.
    + apply IH, HF.
Qed.


Section DetailFacts.

Variable o : Opt.
Variable sfd : string.

Lemma step_details_cases e t ei :
  omap save_of (step_details o sfd e t ei) =
    flat_map (fun t => [D_save_networks (save_suffix o t);
                        D_save_atme_images sfd (Some t) (Some e) None])
      (List.filter (fires (save_latest_freq o)) [t]) /\
  omap losses_of (step_details o sfd e t ei) =
    (if fires (print_freq o) t then [(e, ei)] else []) /\
  omap epoch_tag_of (step_details o sfd e t ei) = [] /\
  Forall (input_ok o) (step_details o sfd e t ei).
Proof.
  unfold step_details, save_suffix. cbn [List.filter].
  destruct (fires (print_freq o) t), (fires (save_latest_freq o) t); cbn;
    repeat split; try reflexivity; repeat constructor; eexists; split; reflexivity.
Qed.

Lemma saves_batches e t0 ei0 n :
  omap save_of (batches_details o sfd e t0 ei0 n) =
  flat_map (fun t => [D_save_networks (save_suffix o t);
                      D_save_atme_images sfd (Some t) (Some e) None])
    (List.filter (fires (save_latest_freq o)) (ticks (batch_size o) t0 n)).
Proof.
  revert t0 ei0. induction n as [|n IH]; intros t0 ei0; [reflexivity|].
  cbn [batches_details]. rewrite omap_app, IH, ticks_S.
  destruct (step_details_cases e (t0 + batch_size o) (ei0 + batch_size o)) as (-> & _).
  cbn [List.filter]. destruct (fires _ _); reflexivity.
Qed.

Lemma losses_batches e t0 ei0 n : forall k,
  omap losses_of (batches_details o sfd e (t0 + batch_size o * Z.of_nat k)
                    (ei0 + batch_size o * Z.of_nat k) n) =
  map (fun j => (e, ei0 + batch_size o * Z.of_nat j))
    (List.filter (fun j => fires (print_freq o) (t0 + batch_size o * Z.of_nat j))
       (seq (S k) n)).
Proof.
  induction n as [|n IH]; intros k; [reflexivity|].
  cbn [batches_details seq List.filter]. rewrite omap_app.
  replace (t0 + batch_size o * Z.of_nat k + batch_size o)
    with (t0 + batch_size o * Z.of_nat (S k)) by lia.
  replace (ei0 + batch_size o * Z.of_nat k + batch_size o)
    with (ei0 + batch_size o * Z.of_nat (S k)) by lia.
  rewrite IH.
  destruct (step_details_cases e (t0 + batch_size o * Z.of_nat (S k))
              (ei0 + batch_size o * Z.of_nat (S k))) as (_ & -> & _).
  destruct (fires _ _); reflexivity.
Qed.


Lemma inputs_batches e t0 ei0 n :
  Forall (input_ok o) (batches_details o sfd e t0 ei0 n).
Proof.
  revert t0 ei0. induction n as [|n IH]; intros t0 ei0; [constructor|].
  cbn [batches_details]. apply Forall_app. split; [|apply IH].
  apply step_details_cases.
Qed.

Lemma epoch_end_details_cases e :
  omap save_of (epoch_end_details o e) = epoch_end_details o e /\
  omap losses_of (epoch_end_details o e) = [] /\
  omap epoch_tag_of (epoch_end_details o e) = List.filter (fires (save_epoch_freq o)) [e] /\
  Forall (input_ok o) (epoch_end_details o e).
Proof.
  unfold epoch_end_details. cbn [List.filter].
  destruct (fires _ _); cbn; repeat split; repeat constructor.
Qed.

Variable lens : nat -> nat.


Lemma inputs_run p t0 es : Forall (input_ok o) (run_details o sfd lens p t0 es).
Proof.
  revert p t0. induction es as [|e es IH]; intros p t0; [constructor|].
  cbn [run_details]. unfold epoch_details.
  repeat (apply Forall_app; split); [apply inputs_batches | | apply IH].
  apply epoch_end_details_cases.
Qed.

End DetailFacts.
(** ** [train]: further properties *)

Lemma py_range_cons a b : a < b -> py_range a b = a :: py_range (a + 1) b.
Proof.
  intros H. unfold py_range.
  replace (Z.to_nat (b - a)) with (S (Z.to_nat (b - (a + 1)))) by lia.
  cbn [seq map]. f_equal; [lia|].
  rewrite <- seq_shift, map_map. apply map_ext. intros k. lia.
Qed.

Lemma py_range_empty a b : b <= a -> py_range a b = [].
Proof. intros H. unfold py_range. now replace (Z.to_nat (b - a)) with O by lia. Qed.

Section TrainExtras.

Context {Data Losses Visuals Elt DS M : Type}.
Context `{!atme.Model (Data:=Data) (Losses:=Losses) (Visuals:=Visuals) (Elt:=Elt) M}
        `{!atme.Dataset (Data:=Data) (Elt:=Elt) DS} `{!atme.Env DS M}.

Local Abbreviation World := (atme.World Data Losses Visuals Elt M).

(** Under a good configuration an epoch returns, and its details are the
    expected ones. *)
Lemma train_epoch_returns (dataset : DS) sfd e (w : World) :
  good_cfg (w_opt w) ->
  is_Some (w_t_data w) \/ w_total_iters w = 0 ->
  exists w' tr,
    train_epoch dataset sfd e w = Ok (tt, w') /\ w_log w' = w_log w ++ tr /\
    details tr = epoch_details (w_opt w) sfd e (w_total_iters w)
                   (length (ds_iter dataset (w_passes w))).
Proof.
  intros Hg Ht.
  pose proof (train_epoch_spec dataset sfd e w Ht) as Hs. cbn zeta in Hs.
  pose proof (train_epoch_details dataset sfd e w Ht) as Hd.
  destruct (train_epoch dataset sfd e w) as [[[] w']|err].
  - destruct Hd as (tr & Hl & Hd). exists w', tr. auto.
  - exfalso. destruct Hs as [_ Hn]. exact (Hn Hg).
Qed.


(** X2. In an epoch [e] that starts with the counter at [t0] and has [n]
    batches, under a good configuration: for every counter value [t] among
    [t0 + B, ..., t0 + n B] with [t % save_latest_freq == 0], and in this
    order, [save_networks] is called with ['iter_<t>'] if [save_by_iter] and
    ['latest'] otherwise, followed by [save_atme_images] with the figure
    directory, [iter_num = t] and [epoch = e]; after the batches, if
    [e % save_epoch_freq == 0], [save_networks('latest')] and
    [save_networks(e)] are called; and there is no other call of either. *)
Theorem X2_saves_of_an_epoch (dataset : DS) (sfd : string) (e : Z) (w : World) :
  good_cfg (w_opt w) ->
  is_Some (w_t_data w) \/ w_total_iters w = 0 ->
  let o := w_opt w in
  let n := length (ds_iter dataset (w_passes w)) in
  exists w' tr,
    train_epoch dataset sfd e w = Ok (tt, w') /\ w_log w' = w_log w ++ tr /\
    omap save_of (details tr) =
      flat_map (fun t => [D_save_networks (save_suffix o t);
                          D_save_atme_images sfd (Some t) (Some e) None])
        (List.filter (fires (save_latest_freq o))
           (ticks (batch_size o) (w_total_iters w) n))
      ++ (if fires (save_epoch_freq o) e
          then [D_save_networks (TagStr "latest"); D_save_networks (TagInt e)]
          else []).
Proof.
  intros Hg Ht o n.
  destruct (train_epoch_returns dataset sfd e w Hg Ht) as (w' & tr & Hrun & Hl & Hd).
  exists w', tr. split; [exact Hrun|]. split; [exact Hl|].
  rewrite Hd. unfold epoch_details. rewrite omap_app, saves_batches.
  destruct (epoch_end_details_cases (w_opt w) e) as (-> & _). reflexivity.
Qed.

(** X3. In a run of [train] that returns, every [set_input] call is made
    inside an epoch, and its epoch argument is that epoch when
    ['n_save_noisy'] is an attribute of [opt] and is left out otherwise. *)
Theorem X3_set_input_epoch_argument (w w' : World) :
  train w = Ok (tt, w') ->
  exists tr, w_log w' = w_log w ++ tr /\
    Forall (fun c => forall data ep, what c = E_set_input data ep ->
              exists e, at_epoch c = Some e /\
                ep = match n_save_noisy (w_opt w) with
                     | Some _ => Some e
                     | None => None
                     end) tr.
Proof.
  intros Hrun. pose proof (train_details w) as Hd. cbn zeta in Hd.
  rewrite Hrun in Hd. destruct Hd as (tr & Hl & Hd).
  exists tr. split; [exact Hl|].
  pose proof (inputs_run (opt_after_train (w_opt w)) (train_fig_dir (w_opt w))
                (fun k => length (ds_iter (create_atme_train_dataset
                                             (opt_after_train (w_opt w))) k))
                0%nat 0 (train_epochs (w_opt w))) as HF.
  change (train_epochs (w_opt w)) with
    (py_range (epoch_count (opt_after_train (w_opt w)))
       (n_epochs (opt_after_train (w_opt w))
        + n_epochs_decay (opt_after_train (w_opt w)) + 1)) in HF.
  rewrite <- Hd in HF. apply Forall_omap_1 in HF.
  eapply Forall_impl; [exact HF|].
  intros c Hc data ep Hw. specialize (Hc (D_set_input (at_epoch c) ep)).
  unfold detail_view in Hc. rewrite Hw in Hc. exact (Hc eq_refl).
Qed.

(** X4. In an epoch [e] that starts with the counter at [t0] and has [n]
    batches, under a good configuration, [print_current_losses] is called
    with [(e, epoch_iter)] where [epoch_iter = j B] counts from the start of
    the epoch, for exactly the batches [j = 1, ..., n] whose global counter
    value [t0 + j B] is a multiple of [print_freq]. *)
Theorem X4_epoch_iter_counts_from_epoch_start (dataset : DS) (sfd : string)
    (e : Z) (w : World) :
  good_cfg (w_opt w) ->
  is_Some (w_t_data w) \/ w_total_iters w = 0 ->
  let o := w_opt w in
  let n := length (ds_iter dataset (w_passes w)) in
  exists w' tr,
    train_epoch dataset sfd e w = Ok (tt, w') /\ w_log w' = w_log w ++ tr /\
    omap losses_of (details tr) =
      map (fun j => (e, batch_size o * Z.of_nat j))
        (List.filter
           (fun j => fires (print_freq o)
                       (w_total_iters w + batch_size o * Z.of_nat j))
           (seq 1 n)).
Proof.
  intros Hg Ht o n.
  destruct (train_epoch_returns dataset sfd e w Hg Ht) as (w' & tr & Hrun & Hl & Hd).
  exists w', tr. split; [exact Hrun|]. split; [exact Hl|].
  rewrite Hd. unfold epoch_details. rewrite omap_app.
  destruct (epoch_end_details_cases (w_opt w) e) as (_ & -> & _).
  rewrite app_nil_r.
  subst o n.
  pose proof (losses_batches (w_opt w) sfd e (w_total_iters w) 0
                (length (ds_iter dataset (w_passes w))) 0%nat) as Hb.
  replace (w_total_iters w + batch_size (w_opt w) * Z.of_nat 0)
    with (w_total_iters w) in Hb by lia.
  replace (0 + batch_size (w_opt w) * Z.of_nat 0) with 0 in Hb by lia.
  rewrite Hb. apply map_ext. intros j. reflexivity.
Qed.

(** X5. The only exceptions [train] itself ends with are
    [ZeroDivisionError], and then one of the five frequencies or the batch
    size is zero, and [ValueError] (from [random.randint]), and then the
    batch size is negative. *)
Theorem X5_train_raises_only (w : World) (err : exn) :
  train w = Raise err ->
  (err = ZeroDivisionError /\ zero_divisor (w_opt w)) \/
  (err = ValueError /\ batch_size (w_opt w) < 0).
Proof.
  intros Hrun. pose proof (train_details w) as Hd. cbn zeta in Hd.
  rewrite Hrun in Hd. exact Hd.
Qed.

Lemma train_batch_zero_freq sfd e i data (w : World) :
  batch_pre e w ->
  print_freq (w_opt w) = 0 \/ display_freq (w_opt w) = 0 \/
  save_latest_freq (w_opt w) = 0 ->
  train_batch sfd e i data w = Raise ZeroDivisionError.
Proof.
  unfold batch_pre, train_batch. destruct_world w. run_eval.
  intros (-> & [idt ->] & Ht) Hz.
  repeat (stuck_case; run_eval); try reflexivity.
  all: repeat match goal with
    | H : (_ =? 0) = false |- _ => apply Z.eqb_neq in H
    end.
  all: try (exfalso; lia).
  all: destruct Ht as [[? Ht]|Ht]; [discriminate|].
  all: subst; rewrite Zmod_0_l in *; congruence.
Qed.

Lemma train_epoch_zero_freq (dataset : DS) sfd e (w : World) :
  is_Some (w_t_data w) \/ w_total_iters w = 0 ->
  ds_iter dataset (w_passes w) <> [] ->
  print_freq (w_opt w) = 0 \/ display_freq (w_opt w) = 0 \/
  save_latest_freq (w_opt w) = 0 ->
  train_epoch dataset sfd e w = Raise ZeroDivisionError.
Proof.
  intros Ht Hne Hz. unfold train_epoch. run_eval.
  destruct (ds_iter dataset (w_passes w)) as [|d ds]; [contradiction|].
  cbn [for_enumerate]. unfold mbind at 1, Run_bind at 1.
  rewrite train_batch_zero_freq; [reflexivity | | exact Hz].
  unfold batch_pre. cbn. eauto.
Qed.

(** X6. If the run has at least one epoch and the first traversal of the
    training set yields at least one batch, a zero [print_freq],
    [display_freq] or [save_latest_freq] makes [train] end with
    [ZeroDivisionError] (in its first batch). *)
Theorem X6_zero_frequency_fails (w : World) :
  let o := w_opt w in
  epoch_count o <= n_epochs o + n_epochs_decay o ->
  train_lens o 0 <> 0%nat ->
  print_freq o = 0 \/ display_freq o = 0 \/ save_latest_freq o = 0 ->
  train w = Raise ZeroDivisionError.
Proof.
  intros o Hep Hlen Hz. subst o. unfold train. run_eval. run_eval in Hep.
  rewrite py_range_cons by lia.
  cbn [for_enumerate]. unfold mbind at 1, Run_bind at 1.
  rewrite train_epoch_zero_freq; [reflexivity | now right | | exact Hz].
  intros Hnil. apply Hlen. exact (f_equal (@length Data) Hnil).
Qed.

(** X7. If the range of epochs is empty
    ([n_epochs + n_epochs_decay < epoch_count]), [train] returns, whatever
    the frequencies are, after the set-up only: [mkdirs], the dataset, the
    [print] of its size, the model, its [setup] and the visualizer; no
    method of the training loop is called and the counter is 0. *)
Theorem X7_empty_epoch_range (w : World) :
  let o := w_opt w in
  n_epochs o + n_epochs_decay o < epoch_count o ->
  let o' := opt_after_train o in
  let dataset := create_atme_train_dataset o' in
  exists w',
    train w = Ok (tt, w') /\ w_total_iters w' = 0 /\ w_opt w' = o' /\
    map what (drop (length (w_log w)) (w_log w')) =
      [ E_mkdirs [path_join (main_root o) [model_root o; exp_name o];
                  path_join (main_root o) [model_root o; data_name o];
                  train_fig_dir o];
        E_create_atme_train_dataset o';
        E_print "The number of training images = %d"
                [PInt (Z.of_nat (ds_len dataset))];
        E_create_model o';
        E_model_setup o';
        E_Visualizer o' ].
Proof.
  intros o Hep o' dataset. subst o o' dataset. unfold train. run_eval.
  run_eval in Hep. rewrite py_range_empty by lia.
  cbn [for_enumerate]. run_eval. eexists. split; [reflexivity|].
  split; [reflexivity|]. split; [reflexivity|].
  cbn [w_log]. rewrite <- !app_assoc, drop_app_length. reflexivity.
Qed.

End TrainExtras.
(** ** [train]: the random source and the reported times *)

Section TrainSources.

Context {Data Losses Visuals Elt DS M : Type}.
Context `{!atme.Model (Data:=Data) (Losses:=Losses) (Visuals:=Visuals) (Elt:=Elt) M}
        `{!atme.Dataset (Data:=Data) (Elt:=Elt) DS} `{!atme.Env DS M}.

Local Abbreviation World := (atme.World Data Losses Visuals Elt M).









End TrainSources.
(** ** [test]: previews, errors and the file system *)

(** [series[i]] returned: the series has an entry [i]. *)
Ltac series_facts :=
  repeat match goal with
  | H : series_at _ _ = Ok _ |- _ =>
      unfold series_at in H;
      destruct (_ !! _) eqn:?; [injection H as <- | discriminate H]
  end.

Section TestMore.

Context {Data Losses Visuals Elt DS M : Type}.
Context `{!atme.Model (Data:=Data) (Losses:=Losses) (Visuals:=Visuals) (Elt:=Elt) M}
        `{!atme.Dataset (Data:=Data) (Elt:=Elt) DS} `{!atme.Env DS M}.
Variable zero : Elt.

Local Abbreviation World := (atme.World Data Losses Visuals Elt M).


(** From [w] to [w']: [opt] is kept and the log grows by calls whose test
    views are [ds]. *)
Lemma test_slice_previews sfd i j data (w : World) :
  match test_slice sfd i j data w with
  | Ok (_, w') =>
      exists evs, w_log w' = w_log w ++ evs /\
        omap test_view evs = slices_previews sfd i j 1
  | Raise _ => True
  end.
Proof.
  unfold test_slice. destruct_world w. run_eval.
  repeat (stuck_case; run_eval); try exact I.
  all: unfold slices_previews.
  all: match goal with
    | H : (?j =? plot_slice)%nat = true |- _ => apply Nat.eqb_eq in H; subst j
    | H : (?j =? plot_slice)%nat = false |- _ =>
        apply Nat.eqb_neq in H;
        replace ((j <=? plot_slice)%nat && (plot_slice <? j + 1)%nat) with false
          by (symmetry; apply andb_false_iff;
              destruct (Nat.leb_spec j plot_slice);
              [right; apply Nat.ltb_ge; lia | now left])
    end.
  all: rewrite <- ?app_assoc; eexists; (split; [reflexivity|]); reflexivity.
Qed.

Lemma slices_previews_S sfd i j0 n :
  slices_previews sfd i j0 1 ++ slices_previews sfd i (S j0) n
  = slices_previews sfd i j0 (S n).
Proof.
  unfold slices_previews.
  destruct (Nat.leb_spec j0 plot_slice), (Nat.ltb_spec plot_slice (j0 + 1)),
    (Nat.leb_spec (S j0) plot_slice), (Nat.ltb_spec plot_slice (S j0 + n)),
    (Nat.ltb_spec plot_slice (j0 + S n)); cbn; try reflexivity; lia.
Qed.

Lemma test_slices_previews sfd i (slices : list Data) : forall j0 (w : World),
  match for_enumerate j0 slices (test_slice sfd i) w with
  | Ok (_, w') =>
      exists evs, w_log w' = w_log w ++ evs /\
        omap test_view evs = slices_previews sfd i j0 (length slices)
  | Raise _ => True
  end.
Proof.
  induction slices as [|d slices IH]; intros j0 w; cbn [for_enumerate length].
  - exists []. split; [now rewrite app_nil_r|]. unfold slices_previews.
    destruct (Nat.leb_spec j0 plot_slice), (Nat.ltb_spec plot_slice (j0 + 0));
      cbn; try reflexivity; lia.
  - unfold mbind, Run_bind.
    pose proof (test_slice_previews sfd i j0 d w) as Hstep.
    destruct (test_slice sfd i j0 d w) as [[[] w1]|]; [|exact I].
    specialize (IH (S j0) w1).
    destruct (for_enumerate (S j0) slices _ w1) as [[[] w2]|]; [|exact I].
    destruct Hstep as (evs1 & Hl1 & Hv1). destruct IH as (evs2 & Hl2 & Hv2).
    exists (evs1 ++ evs2). rewrite Hl2, Hl1, app_assoc, omap_app, Hv1, Hv2.
    split; [reflexivity|]. apply slices_previews_S.
Qed.

Lemma fill_volume_previews (ds : DS) sfd i (w : World) :
  match fill_volume zero ds sfd i w with
  | Ok (_, w') =>
      exists evs, w_log w' = w_log w ++ evs /\
        omap test_view evs =
          slices_previews sfd i 0 (length (ds_iter ds (w_passes w)))
  | Raise _ => True
  end.
Proof.
  unfold fill_volume, alloc_volume. destruct_world w. run_eval.
  destruct (torch_zeros _ _ _ _); [|exact I]. run_eval.
  match goal with |- context [for_enumerate 0 ?l ?b ?w1] =>
    pose proof (test_slices_previews sfd i l 0%nat w1) as Hloop;
    destruct (for_enumerate 0 l b w1) as [[[] w2]|]
  end; [|exact I].
  exact Hloop.
Qed.

Lemma test_case_previews sfd cases axs i cor_case (w : World) :
  match test_case zero sfd cases axs i cor_case w with
  | Ok (_, w') =>
      exists ax evs,
        axs !! i = Some ax /\ w_log w' = w_log w ++ evs /\
        omap test_view evs =
          slices_previews sfd i 0
            (length (ds_iter (create_atme_test_dataset (w_opt w) cor_case i ax) 0))
  | Raise _ => True
  end.
Proof.
  unfold test_case. destruct_world w. run_eval.
  repeat (first
    [ match goal with |- context [fill_volume zero ?d ?s ?j ?w1] =>
        let K := fresh "K" in
        pose proof (fill_volume_previews d s j w1) as K;
        destruct (fill_volume zero d s j w1) as [[[] w2]|]; [|exact I];
        destruct K as (kevs & Kl & Kv);
        destruct w2 as [? ? ? ? ? ? ? ? ? ? ? ? ?];
        cbn [w_log w_passes] in Kl, Kv; subst
      end
    | stuck_case ]; run_eval); try exact I.
  all: series_facts.
  all: eexists _, _; split; [first [eassumption | reflexivity]|].
  all: split; [rewrite <- ?app_assoc; reflexivity|].
  all: rewrite ?omap_app, Kv; cbn; rewrite ?app_nil_r; reflexivity.
Qed.

Lemma slices_previews_are_previews sfd i j0 n :
  Forall is_preview (slices_previews sfd i j0 n).
Proof. unfold slices_previews. destruct (_ && _); repeat constructor. Qed.

Lemma test_cases_previews sfd cases axs (rest : list string) : forall i0 (w : World),
  match for_enumerate i0 rest (test_case zero sfd cases axs) w with
  | Ok (_, w') =>
      exists evs, w_log w' = w_log w ++ evs /\ Forall is_preview (omap test_view evs)
  | Raise _ => True
  end.
Proof.
  induction rest as [|c rest IH]; intros i0 w; cbn [for_enumerate].
  - exists []. split; [now rewrite app_nil_r | constructor].
  - unfold mbind, Run_bind.
    pose proof (test_case_previews sfd cases axs i0 c w) as Hcase.
    destruct (test_case zero sfd cases axs i0 c w) as [[[] w1]|]; [|exact I].
    destruct Hcase as (ax & evs1 & _ & Hl1 & Hv1).
    specialize (IH (S i0) w1).
    destruct (for_enumerate (S i0) rest _ w1) as [[[] w2]|]; [|exact I].
    destruct IH as (evs2 & Hl2 & Hv2).
    exists (evs1 ++ evs2). split; [now rewrite Hl2, Hl1, app_assoc|].
    rewrite omap_app, Hv1. apply Forall_app. split; [|exact Hv2].
    apply slices_previews_are_previews.
Qed.

Lemma test_previews (w : World) :
  match test zero w with
  | Ok (_, w') =>
      exists evs, w_log w' = w_log w ++ evs /\ Forall is_preview (omap test_view evs)
  | Raise _ => True
  end.
Proof.
  unfold test. destruct_world w. run_eval.
  repeat (first
    [ match goal with |- context [for_enumerate 0 ?l (test_case zero ?s ?c ?a) ?w1] =>
        let K := fresh "K" in
        pose proof (test_cases_previews s c a l 0%nat w1) as K;
        destruct (for_enumerate 0 l (test_case zero s c a) w1) as [[[] w2]|];
        [|exact I];
        destruct K as (kevs & Kl & Kv);
        destruct w2 as [? ? ? ? ? ? ? ? ? ? ? ? ?];
        cbn [w_log] in Kl; subst
      end
    | stuck_case ]; run_eval); try exact I.
  all: rewrite <- ?app_assoc; eexists; (split; [reflexivity|]).
  all: rewrite ?omap_app; cbn; exact Kv.
Qed.


(** X10. A completed run of [test] makes no call that belongs to training:
    no [mkdirs], training dataset or visualizer, no [update_learning_rate],
    [optimize_parameters] or [compute_visuals], no loss report and no
    [save_networks]. *)
Theorem X10_test_never_trains (w w' : World) :
  test zero w = Ok (tt, w') ->
  exists tr, w_log w' = w_log w ++ tr /\
    Forall (fun c => training_call (what c) = false) tr.
Proof.
  intros Hrun. pose proof (test_previews w) as Ht. rewrite Hrun in Ht.
  destruct Ht as (tr & Hl & HF). exists tr. split; [exact Hl|].
  apply Forall_omap_1 in HF. eapply Forall_impl; [exact HF|].
  intros c Hc. specialize (Hc T_training). unfold test_view in Hc.
  destruct (what c); cbn in *; try reflexivity; exfalso; exact (Hc eq_refl).
Qed.

End TestMore.
(** ** [test]: what it does to the file system *)

Section FsFacts.

Context {Elt : Type}.
Implicit Types fs : FS Elt.

Lemma fs_extends_refl A fs : fs_extends A fs fs.
Proof. repeat split; auto. Qed.

Lemma fs_extends_trans A fs1 fs2 fs3 :
  fs_extends A fs1 fs2 -> fs_extends A fs2 fs3 -> fs_extends A fs1 fs3.
Proof.
  intros (Hd1 & Hf1 & Hk1) (Hd2 & Hf2 & Hk2). split; [set_solver|].
  split; [auto|]. intros p Hp. rewrite Hk2, Hk1; auto.
Qed.

Lemma fs_extends_weaken (A B : string -> Prop) fs fs' :
  (forall p, A p -> B p) -> fs_extends A fs fs' -> fs_extends B fs fs'.
Proof.
  intros HAB (Hd & Hf & Hk). split; [exact Hd|]. split; [exact Hf|].
  intros p Hp. apply Hk. intros HA. apply Hp, HAB, HA.
Qed.

Lemma fs_makedirs_extends A fs p fs' :
  fs_makedirs fs p = Ok fs' -> fs_extends A fs fs'.
Proof.
  unfold fs_makedirs. destruct (fs_exists fs p); [discriminate|].
  destruct (existsb _ _); [discriminate|]. intros [= <-].
  split; [cbn; set_solver|]. split; auto.
Qed.

Lemma fs_write_extends (A : string -> Prop) fs p b fs' :
  fs_write fs p b = Ok fs' -> A p -> fs_extends A fs fs'.
Proof.
  unfold fs_write. destruct (bool_decide _); [discriminate|].
  destruct (_ || _); [|discriminate]. intros [= <-] HA.
  split; [reflexivity|]. cbn. split.
  - intros q Hq. destruct (decide (p = q)) as [->|Hne].
    + rewrite lookup_insert_eq. eauto.
    + now rewrite lookup_insert_ne.
  - intros q Hq. apply lookup_insert_ne. intros ->. contradiction.
Qed.

Lemma case_artifact_S dd i0 n p :
  case_artifact dd i0 1 p \/ case_artifact dd (S i0) n p ->
  case_artifact dd i0 (S n) p.
Proof.
  intros [(i & Hi & Hp)|(i & Hi & Hp)]; exists i; (split; [lia | exact Hp]).
Qed.

End FsFacts.

Section TestFs.

Context {Data Losses Visuals Elt DS M : Type}.
Context `{!atme.Model (Data:=Data) (Losses:=Losses) (Visuals:=Visuals) (Elt:=Elt) M}
        `{!atme.Dataset (Data:=Data) (Elt:=Elt) DS} `{!atme.Env DS M}.
Variable zero : Elt.

Local Abbreviation World := (atme.World Data Losses Visuals Elt M).

Ltac fs_chain :=
  repeat match goal with
  | H : fs_makedirs ?a _ = Ok _ |- fs_extends _ ?a _ =>
      eapply fs_extends_trans; [exact (fs_makedirs_extends _ _ _ _ H)|]; clear H
  | H : fs_write ?a _ _ = Ok _ |- fs_extends _ ?a _ =>
      eapply fs_extends_trans;
      [apply (fs_write_extends _ _ _ _ _ H);
       eexists; (split; [|first [left; reflexivity | right; reflexivity]]); lia|];
      clear H
  end; apply fs_extends_refl.

Lemma test_case_fs sfd cases axs i cor_case (w : World) :
  match test_case zero sfd cases axs i cor_case w with
  | Ok (_, w') =>
      exists dd, data_dir (w_opt w) = Some dd /\
        fs_extends (case_artifact dd i 1) (w_fs w) (w_fs w')
  | Raise _ => True
  end.
Proof.
  unfold test_case. destruct_world w. run_eval.
  repeat (first
    [ match goal with |- context [fill_volume zero ?d ?s ?j ?w1] =>
        let K := fresh "K" in
        pose proof (fill_volume_keeps zero d s j w1) as K;
        destruct (fill_volume zero d s j w1) as [[[] w2]|]; [|exact I];
        destruct K as (Ko & Kf & kevs & Kl & Kr & Ki);
        destruct w2 as [? ? ? ? ? ? ? ? ? ? ? ? ?];
        cbn [w_opt w_fs w_log] in Ko, Kf, Kl; subst
      end
    | stuck_case ]; run_eval); try exact I.
  all: eexists; (split; [reflexivity|]).
  all: unfold case_artifact, case_pt, case_nii, case_dir; fs_chain.
Qed.

Lemma test_cases_fs sfd cases axs (rest : list string) : forall i0 (w : World),
  match for_enumerate i0 rest (test_case zero sfd cases axs) w with
  | Ok (_, w') =>
      rest = [] /\ w_fs w' = w_fs w \/
      exists dd, data_dir (w_opt w) = Some dd /\
        fs_extends (case_artifact dd i0 (length rest)) (w_fs w) (w_fs w')
  | Raise _ => True
  end.
Proof.
  induction rest as [|c rest IH]; intros i0 w; cbn [for_enumerate length].
  - left. split; reflexivity.
  - unfold mbind, Run_bind.
    pose proof (test_case_fs sfd cases axs i0 c w) as Hfs.
    pose proof (test_case_spec zero sfd cases axs i0 c w) as Hcase.
    destruct (test_case zero sfd cases axs i0 c w) as [[[] w1]|]; [|exact I].
    destruct Hcase as (Ho1 & _). destruct Hfs as (dd & Hdd & Hfs).
    specialize (IH (S i0) w1).
    destruct (for_enumerate (S i0) rest _ w1) as [[[] w2]|]; [|exact I].
    right. exists dd. split; [exact Hdd|].
    destruct IH as [[-> ->]|(dd' & Hdd' & Hfs')]; [exact Hfs|].
    rewrite Ho1, Hdd in Hdd'. injection Hdd' as <-.
    eapply fs_extends_trans.
    + eapply fs_extends_weaken; [|exact Hfs].
      intros p Hp. apply case_artifact_S. now left.
    + eapply fs_extends_weaken; [|exact Hfs'].
      intros p Hp. apply case_artifact_S. now right.
Qed.

(** X11. In a completed run of [test], the file operations it performs
    itself ([os.makedirs], [torch.save], [save_nifti]) remove no directory
    and no file, and leave every file as it was except [atme_vol.pt] and
    [atme_vol.nii.gz] in the directories [case_<i>] of the cases of the
    manifest, under [<main_root>/<model_root>/<data_name>/generation]. *)
Theorem X11_test_writes_only_case_artifacts (w w' : World) :
  test zero w = Ok (tt, w') ->
  let o := w_opt w in
  let dd := path_join (main_root o) [model_root o; data_name o] in
  exists cases,
    df_loc (read_csv (csv_name o)) (eval_plane o) = Ok cases /\
    dirs (w_fs w) ⊆ dirs (w_fs w') /\
    (forall p, is_Some (files (w_fs w) !! p) -> is_Some (files (w_fs w') !! p)) /\
    (forall p,
       (forall i, (i < length cases)%nat -> p <> case_pt dd i /\ p <> case_nii dd i) ->
       files (w_fs w') !! p = files (w_fs w) !! p).
Proof.
  unfold test. destruct_world w. run_eval.
  change (path_join csv_name0 []) with csv_name0.
  repeat (first
    [ match goal with |- context [for_enumerate 0 ?l (test_case zero ?s ?c ?a) ?w1] =>
        let K := fresh "K" in
        pose proof (test_cases_fs s c a l 0%nat w1) as K;
        destruct (for_enumerate 0 l (test_case zero s c a) w1) as [[[] w2]|];
        [|intros; discriminate];
        destruct w2 as [? ? ? ? ? ? ? ? ? ? ? ? ?];
        cbn [w_opt w_fs data_dir] in K
      end
    | stuck_case ]; run_eval); try (intros; discriminate).
  all: intros [= <-]; cbn [w_fs].
  all: eexists; (split; [reflexivity|]).
  all: destruct K as [[-> ->]|(dd' & [= <-] & (Hd & Hf & Hk))];
    [repeat split; auto|].
  all: split; [exact Hd|]; split; [exact Hf|].
  all: intros p Hp; apply Hk; intros (i & Hi & Hpi).
  all: destruct (Hp i ltac:(lia)) as [Hpt Hnii]; destruct Hpi; contradiction.
Qed.

End TestFs.

(** ** [test]: the clock and the random source *)

Section TestSources.

Context {Data Losses Visuals Elt DS M : Type}.
Context `{!atme.Model (Data:=Data) (Losses:=Losses) (Visuals:=Visuals) (Elt:=Elt) M}
        `{!atme.Dataset (Data:=Data) (Elt:=Elt) DS} `{!atme.Env DS M}.
Variable zero : Elt.

Local Abbreviation World := (atme.World Data Losses Visuals Elt M).

Lemma reads_no_source_refl (w : World) : reads_no_source w w.
Proof. split; reflexivity. Qed.

Lemma reads_no_source_trans (w1 w2 w3 : World) :
  reads_no_source w1 w2 -> reads_no_source w2 w3 -> reads_no_source w1 w3.
Proof. intros [Hd1 Hc1] [Hd2 Hc2]. split; congruence. Qed.

Lemma test_slice_sources sfd i j data (w : World) :
  match test_slice sfd i j data w with
  | Ok (_, w') => reads_no_source w w'
  | Raise _ => True
  end.
Proof.
  unfold test_slice, reads_no_source. destruct_world w. run_eval.
  repeat (stuck_case; run_eval); try exact I; split; reflexivity.
Qed.

Lemma test_slices_sources sfd i (slices : list Data) : forall j0 (w : World),
  match for_enumerate j0 slices (test_slice sfd i) w with
  | Ok (_, w') => reads_no_source w w'
  | Raise _ => True
  end.
Proof.
  induction slices as [|d slices IH]; intros j0 w; cbn [for_enumerate].
  - apply reads_no_source_refl.
  - unfold mbind, Run_bind.
    pose proof (test_slice_sources sfd i j0 d w) as Hstep.
    destruct (test_slice sfd i j0 d w) as [[[] w1]|]; [|exact I].
    specialize (IH (S j0) w1).
    destruct (for_enumerate (S j0) slices _ w1) as [[[] w2]|]; [|exact I].
    eapply reads_no_source_trans; eassumption.
Qed.

Lemma fill_volume_sources (ds : DS) sfd i (w : World) :
  match fill_volume zero ds sfd i w with
  | Ok (_, w') => reads_no_source w w'
  | Raise _ => True
  end.
Proof.
  unfold fill_volume, alloc_volume. destruct_world w. run_eval.
  destruct (torch_zeros _ _ _ _); [|exact I]. run_eval.
  match goal with |- context [for_enumerate 0 ?l ?b ?w1] =>
    pose proof (test_slices_sources sfd i l 0%nat w1) as Hloop;
    destruct (for_enumerate 0 l b w1) as [[[] w2]|]
  end; [|exact I].
  exact Hloop.
Qed.

Lemma test_case_sources sfd cases axs i cor_case (w : World) :
  match test_case zero sfd cases axs i cor_case w with
  | Ok (_, w') => reads_no_source w w'
  | Raise _ => True
  end.
Proof.
  unfold test_case, reads_no_source. destruct_world w. run_eval.
  repeat (first
    [ match goal with |- context [fill_volume zero ?d ?s ?j ?w1] =>
        let K := fresh "K" in
        pose proof (fill_volume_sources d s j w1) as K;
        destruct (fill_volume zero d s j w1) as [[[] w2]|]; [|exact I];
        destruct K as (Kd & Kc);
        destruct w2 as [? ? ? ? ? ? ? ? ? ? ? ? ?];
        cbn [w_draws w_clock] in Kd, Kc; subst
      end
    | stuck_case ]; run_eval); try exact I; split; reflexivity.
Qed.

Lemma test_cases_sources sfd cases axs (rest : list string) : forall i0 (w : World),
  match for_enumerate i0 rest (test_case zero sfd cases axs) w with
  | Ok (_, w') => reads_no_source w w'
  | Raise _ => True
  end.
Proof.
  induction rest as [|c rest IH]; intros i0 w; cbn [for_enumerate].
  - apply reads_no_source_refl.
  - unfold mbind, Run_bind.
    pose proof (test_case_sources sfd cases axs i0 c w) as Hcase.
    destruct (test_case zero sfd cases axs i0 c w) as [[[] w1]|]; [|exact I].
    specialize (IH (S i0) w1).
    destruct (for_enumerate (S i0) rest _ w1) as [[[] w2]|]; [|exact I].
    eapply reads_no_source_trans; eassumption.
Qed.

(** X28. A completed run of [test] has neither read the clock nor drawn a
    random number. *)
Theorem X28_test_reads_no_clock_or_random (w w' : World) :
  test zero w = Ok (tt, w') ->
  w_draws w' = w_draws w /\ w_clock w' = w_clock w.
Proof.
  unfold test. destruct_world w. run_eval.
  repeat (first
    [ match goal with |- context [for_enumerate 0 ?l (test_case zero ?s ?c ?a) ?w1] =>
        let K := fresh "K" in
        pose proof (test_cases_sources s c a l 0%nat w1) as K;
        destruct (for_enumerate 0 l (test_case zero s c a) w1) as [[[] w2]|];
        [|intros; discriminate];
        destruct K as (Kd & Kc); cbn [w_draws w_clock] in Kd, Kc
      end
    | stuck_case ]; run_eval); try (intros; discriminate).
  all: intros [= <-]; split; assumption.
Qed.

End TestSources.
(** ** [test]: the volume when the dataset's length and its slices differ,
       and what a case saves *)

Lemma lookup_repeat {A} (x : A) (n i : nat) :
  (i < n)%nat -> repeat x n !! i = Some x.
Proof.
  revert i. induction n as [|n IH]; intros i Hi; [lia|].
  destruct i as [|i]; [reflexivity|]. cbn. apply IH. lia.
Qed.

Section VolumeMore.

Context {Data Losses Visuals Elt DS M : Type}.
Context `{!atme.Model (Data:=Data) (Losses:=Losses) (Visuals:=Visuals) (Elt:=Elt) M}
        `{!atme.Dataset (Data:=Data) (Elt:=Elt) DS} `{!atme.Env DS M}.
Variable zero : Elt.

Local Abbreviation World := (atme.World Data Losses Visuals Elt M).

Lemma test_slices_fill sfd i n d (slices : list Data) : forall j0 (w : World),
  outputs_square (M:=M) d ->
  has_shape3 n d d (w_gen_vol w) -> (j0 + length slices <= n)%nat ->
  exists w',
    for_enumerate j0 slices (test_slice sfd i) w = Ok (tt, w') /\
    has_shape3 n d d (w_gen_vol w') /\
    (forall j, (j < j0 \/ j0 + length slices <= j)%nat ->
       w_gen_vol w' !! j = w_gen_vol w !! j) /\
    (forall k, (k < length slices)%nat ->
       exists c, output_of (fold_left infer (take (S k) slices) (w_model w)) = Ok c /\
                 w_gen_vol w' !! (j0 + k)%nat = Some c).
Proof.
  induction slices as [|data slices IH]; intros j0 w Hsq Hvol Hn;
    cbn [for_enumerate length] in *.
  - exists w. repeat split; [exact (proj1 Hvol) | exact (proj2 Hvol) | lia].
  - destruct (Hsq (model_set_input data None (w_model w))) as (c & Hc & Hcs).
    fold (infer (w_model w) data) in Hc.
    destruct (test_slice_ok sfd i j0 data w n d c Hvol ltac:(lia) Hc Hcs)
      as (w1 & Hrun1 & Hv1 & Hm1 & _).
    assert (Hvol1 : has_shape3 n d d (w_gen_vol w1)).
    { rewrite Hv1. now apply has_shape3_insert. }
    destruct (IH (S j0) w1 Hsq Hvol1 ltac:(lia)) as (w' & Hrun & Hvol' & Hframe & Hafter).
    exists w'. split.
    { unfold mbind, Run_bind. now rewrite Hrun1. }
    split; [exact Hvol'|]. split.
    + intros j Hj. rewrite Hframe by lia. rewrite Hv1.
      apply list_lookup_insert_ne. lia.
    + intros [|k] Hk.
      * exists c. split; [exact Hc|].
        rewrite Nat.add_0_r, Hframe by lia. rewrite Hv1.
        apply list_lookup_insert_eq. destruct Hvol as [-> _]. lia.
      * destruct (Hafter k ltac:(lia)) as (c' & Hc' & Hl').
        exists c'. rewrite Hm1 in Hc'. split; [exact Hc'|].
        now replace (j0 + S k)%nat with (S j0 + k)%nat by lia.
Qed.

Lemma test_slices_model sfd i (slices : list Data) : forall j0 (w w' : World),
  for_enumerate j0 slices (test_slice sfd i) w = Ok (tt, w') ->
  w_model w' = fold_left infer slices (w_model w).
Proof.
  induction slices as [|data slices IH]; intros j0 w w'; cbn [for_enumerate fold_left].
  - now intros [= <-].
  - intros Hrun. apply bind_inv in Hrun as ([] & w1 & Hstep & Hrest).
    rewrite (IH _ _ _ Hrest). f_equal.
    revert Hstep. unfold test_slice, infer. destruct_world w. run_eval.
    repeat (stuck_case; run_eval); try discriminate; now intros [= <-].
Qed.

Lemma test_slice_out_of_range sfd i data (w : World) n d :
  outputs_square (M:=M) d -> has_shape3 n d d (w_gen_vol w) ->
  test_slice sfd i n data w = Raise IndexError.
Proof.
  intros Hsq [Hlen _]. unfold test_slice. destruct_world w. run_eval.
  destruct (Hsq (model_set_input data None w_model0)) as (c & Hc & _).
  unfold output_of in Hc. rewrite Hc. run_eval.
  unfold setitem_slice, tensor3, tensor2 in *. cbn in Hlen.
  rewrite (lookup_ge_None_2 w_gen_vol0 n) by lia. reflexivity.
Qed.

Lemma test_slices_overflow sfd i n d (slices : list Data) : forall j0 (w : World),
  outputs_square (M:=M) d -> has_shape3 n d d (w_gen_vol w) ->
  (j0 <= n < j0 + length slices)%nat ->
  for_enumerate j0 slices (test_slice sfd i) w = Raise IndexError.
Proof.
  induction slices as [|data slices IH]; intros j0 w Hsq Hvol Hn;
    cbn [for_enumerate length] in *; [lia|].
  unfold mbind, Run_bind.
  destruct (decide (j0 = n)) as [->|Hne].
  - now rewrite (test_slice_out_of_range sfd i data w n d Hsq Hvol).
  - destruct (Hsq (model_set_input data None (w_model w))) as (c & Hc & Hcs).
    fold (infer (w_model w) data) in Hc.
    destruct (test_slice_ok sfd i j0 data w n d c Hvol ltac:(lia) Hc Hcs)
      as (w1 & -> & Hv1 & _).
    apply IH; [exact Hsq | | lia].
    rewrite Hv1. now apply has_shape3_insert.
Qed.

Lemma fill_volume_overflow (ds : DS) (sfd : string) (i : nat) (w : World) :
  let slices := ds_iter ds (w_passes w) in
  let d := Z.to_nat (vol_cube_dim (w_opt w)) in
  (ds_len ds < length slices)%nat -> 0 <= vol_cube_dim (w_opt w) ->
  outputs_square (M:=M) d ->
  fill_volume zero ds sfd i w = Raise IndexError.
Proof.
  destruct_world w. run_eval. intros Hlen HD Hsq.
  set (slices := ds_iter ds w_passes0) in *.
  set (d := Z.to_nat vol_cube_dim0) in *.
  unfold fill_volume, alloc_volume, torch_zeros. run_eval.
  assert ((vol_cube_dim0 <? 0) || (vol_cube_dim0 <? 0) = false) as -> by lia.
  run_eval. fold slices d.
  apply (test_slices_overflow sfd i (ds_len ds) d); [exact Hsq | | lia].
  apply zeros3_shape.
Qed.

Lemma fill_volume_fits (ds : DS) (sfd : string) (i : nat) (w : World) :
  let slices := ds_iter ds (w_passes w) in
  let d := Z.to_nat (vol_cube_dim (w_opt w)) in
  (length slices <= ds_len ds)%nat -> 0 <= vol_cube_dim (w_opt w) ->
  outputs_square (M:=M) d ->
  exists w',
    fill_volume zero ds sfd i w = Ok (tt, w') /\
    has_shape3 (ds_len ds) d d (w_gen_vol w') /\
    w_model w' = fold_left infer slices (w_model w) /\
    (forall j, (j < length slices)%nat ->
       exists c,
         output_of (fold_left infer (take (S j) slices) (w_model w)) = Ok c /\
         w_gen_vol w' !! j = Some c) /\
    (forall j, (length slices <= j < ds_len ds)%nat ->
       w_gen_vol w' !! j = Some (repeat (repeat zero d) d)).
Proof.
  destruct_world w. run_eval. intros Hlen HD Hsq.
  set (slices := ds_iter ds w_passes0) in *.
  set (d := Z.to_nat vol_cube_dim0) in *.
  unfold fill_volume, alloc_volume, torch_zeros. run_eval.
  assert ((vol_cube_dim0 <? 0) || (vol_cube_dim0 <? 0) = false) as -> by lia.
  run_eval. fold slices d.
  match goal with |- context [for_enumerate 0 slices ?b ?w1] =>
    destruct (test_slices_fill sfd i (ds_len ds) d slices 0 w1 Hsq)
      as (w' & Hrun & Hshape & Hframe & Hafter);
    [apply zeros3_shape | cbn; lia |];
    pose proof (test_slices_model sfd i slices 0%nat w1 w' Hrun) as Hmodel
  end.
  exists w'. rewrite Hrun. split; [reflexivity|]. split; [exact Hshape|].
  split; [exact Hmodel|]. split.
  - intros j Hj. exact (Hafter j Hj).
  - intros j Hj. rewrite Hframe by (cbn; lia). cbn [w_gen_vol].
    unfold zeros3. apply lookup_repeat. lia.
Qed.

(** X12. If the per-case dataset yields more slices than its [len], the
    slice loop ends with [IndexError] (for a model whose outputs are
    [d] x [d], [d = vol_cube_dim >= 0]): the volume has only [len(dataset)]
    positions. *)
Theorem X12_more_slices_than_len (ds : DS) (sfd : string) (i : nat) (w : World) :
  let slices := ds_iter ds (w_passes w) in
  let d := Z.to_nat (vol_cube_dim (w_opt w)) in
  (ds_len ds < length slices)%nat -> 0 <= vol_cube_dim (w_opt w) ->
  outputs_square (M:=M) d ->
  fill_volume zero ds sfd i w = Raise IndexError.
Proof. exact (fill_volume_overflow ds sfd i w). Qed.

(** X13. If the per-case dataset yields at most [len(dataset)] slices, the
    slice loop completes; the volume has [len(dataset)] positions, the
    position of every slice yielded holds the output of inference on it,
    the positions beyond them are still zero, and the model has been fed
    every slice in order. *)
Theorem X13_fewer_slices_than_len (ds : DS) (sfd : string) (i : nat) (w : World) :
  let slices := ds_iter ds (w_passes w) in
  let d := Z.to_nat (vol_cube_dim (w_opt w)) in
  (length slices <= ds_len ds)%nat -> 0 <= vol_cube_dim (w_opt w) ->
  outputs_square (M:=M) d ->
  exists w',
    fill_volume zero ds sfd i w = Ok (tt, w') /\
    has_shape3 (ds_len ds) d d (w_gen_vol w') /\
    w_model w' = fold_left infer slices (w_model w) /\
    (forall j, (j < length slices)%nat ->
       exists c,
         output_of (fold_left infer (take (S j) slices) (w_model w)) = Ok c /\
         w_gen_vol w' !! j = Some c) /\
    (forall j, (length slices <= j < ds_len ds)%nat ->
       w_gen_vol w' !! j = Some (repeat (repeat zero d) d)).
Proof. exact (fill_volume_fits ds sfd i w). Qed.

(** What a completed slice loop leaves, whatever the dataset. *)
Lemma fill_volume_inv (ds : DS) sfd i (w w2 : World) :
  fill_volume zero ds sfd i w = Ok (tt, w2) ->
  let slices := ds_iter ds (w_passes w) in
  let d := Z.to_nat (vol_cube_dim (w_opt w)) in
  outputs_square (M:=M) d ->
  has_shape3 (ds_len ds) d d (w_gen_vol w2) /\
  (forall j, (j < length slices)%nat ->
     exists c,
       output_of (fold_left infer (take (S j) slices) (w_model w)) = Ok c /\
       w_gen_vol w2 !! j = Some c).
Proof.
  intros Hrun slices d Hsq.
  destruct (Z.le_gt_cases 0 (vol_cube_dim (w_opt w))) as [HD|HD].
  - destruct (Nat.le_gt_cases (length slices) (ds_len ds)) as [Hlen|Hlen].
    + destruct (fill_volume_fits ds sfd i w Hlen HD Hsq)
        as (w' & Hrun' & Hshape & _ & Hafter & _).
      rewrite Hrun in Hrun'. injection Hrun' as <-. split; assumption.
    + rewrite (fill_volume_overflow ds sfd i w Hlen HD Hsq) in Hrun.
      discriminate.
  - exfalso. revert Hrun. unfold fill_volume, alloc_volume, torch_zeros.
    destruct_world w. run_eval. cbn in HD.
    assert ((vol_cube_dim0 <? 0) || (vol_cube_dim0 <? 0) = true) as -> by lia.
    discriminate.
Qed.

(** X14. What a completed case [i] saves in [atme_vol.pt]: the crop, by its
    own dataset, of a volume of shape [(len(dataset), d, d)] whose position
    [j] holds the output of inference on slice [j], by a model created for
    this case ([create_model], [setup], [eval]) and fed the slices
    [0, ..., j] of the case only; nothing of an earlier case enters it. *)
Theorem X14_saved_volume_of_a_case (sfd : string) (cases axs : list string)
    (i : nat) (cor_case : string) (w w' : World) :
  test_case zero sfd cases axs i cor_case w = Ok (tt, w') ->
  let o := w_opt w in
  let d := Z.to_nat (vol_cube_dim o) in
  outputs_square (M:=M) d ->
  exists dd ax vol,
    data_dir o = Some dd /\ axs !! i = Some ax /\
    let ds := create_atme_test_dataset o cor_case i ax in
    let m0 := model_eval (model_setup o (create_model o ds)) in
    let slices := ds_iter ds 0 in
    files (w_fs w') !! case_pt dd i = Some (TensorFile (ds_crop_volume ds vol)) /\
    has_shape3 (ds_len ds) d d vol /\
    forall j, (j < length slices)%nat ->
      exists c,
        output_of (fold_left infer (take (S j) slices) m0) = Ok c /\
        vol !! j = Some c.
Proof.
  intros Hrun o d Hsq. subst o d.
  pose proof (test_case_spec zero sfd cases axs i cor_case w) as Hs.
  rewrite Hrun in Hs.
  destruct Hs as (_ & dd & evs & Hdd & _ & _ & _ & _ & _ & Hpt & _).
  exists dd. revert Hrun Hpt.
  destruct_world w. cbn in Hdd, Hsq. subst data_dir0.
  unfold test_case. run_eval.
  repeat (first
    [ match goal with |- context [fill_volume zero ?ds ?s ?j ?w1] =>
        let K := fresh "K" in
        destruct (fill_volume zero ds s j w1) as [[[] w2]|] eqn:K;
        [|intros; discriminate];
        apply fill_volume_inv in K; [|exact Hsq];
        destruct w2 as [? ? ? ? ? ? ? ? ? ? ? ? ?];
        cbn [w_opt w_gen_vol w_model w_passes] in K
      end
    | stuck_case ]; run_eval); try (intros; discriminate).
  all: series_facts.
  all: intros [= <-] Hpt; cbn [w_fs w_gen_vol] in Hpt.
  all: destruct K as [Kshape Kslices].
  all: eexists _, _; split; [reflexivity|]; split; [reflexivity|].
  all: cbn zeta; split; [exact Hpt|]; split; [exact Kshape | exact Kslices].
Qed.

End VolumeMore.
(** ** [parse]: errors, the suffix and the planes *)

Lemma str_split_cons sep s : exists x l, str_split sep s = x :: l.
Proof.
  induction s as [|c s (x & l & IH)]; cbn; [eauto|].
  destruct (Ascii.eqb c sep); [eauto|]. rewrite IH. eauto.
Qed.

Lemma str_split_concat sep s :
  String.concat (String sep EmptyString) (str_split sep s) = s.
Proof.
  induction s as [|c s IH]; [reflexivity|]. cbn [str_split].
  destruct (str_split_cons sep s) as (x & l & Hs). rewrite Hs in IH |- *.
  destruct (Ascii.eqb_spec c sep) as [->|Hne].
  - change (String.concat (String sep EmptyString) (EmptyString :: x :: l))
      with (String sep (String.concat (String sep EmptyString) (x :: l))).
    now rewrite IH.
  - destruct l as [|y l].
    + cbn in IH |- *. now rewrite IH.
    + change (String.concat (String sep EmptyString) (String c x :: y :: l))
        with (String c (x +:+ String sep EmptyString
                          +:+ String.concat (String sep EmptyString) (y :: l))).
      change (String.concat (String sep EmptyString) (x :: y :: l))
        with (x +:+ String sep EmptyString
                +:+ String.concat (String sep EmptyString) (y :: l)) in IH.
      now rewrite IH.
Qed.

Lemma str_split_length sep s :
  length (str_split sep s) = S (count_char sep s).
Proof.
  induction s as [|c s IH]; [reflexivity|]. cbn [str_split count_char].
  destruct (str_split_cons sep s) as (x & l & Hs). rewrite Hs in IH |- *.
  destruct (Ascii.eqb c sep); cbn in IH |- *; lia.
Qed.

Lemma str_split_pieces sep s :
  Forall (fun x => count_char sep x = O) (str_split sep s).
Proof.
  induction s as [|c s IH]; [repeat constructor|]. cbn [str_split].
  destruct (str_split_cons sep s) as (x & l & Hs). rewrite Hs in IH |- *.
  inversion IH as [|? ? Hx Hl]; subst.
  destruct (Ascii.eqb c sep) eqn:Hc.
  - constructor; [reflexivity|]. constructor; assumption.
  - constructor; [|assumption]. cbn. now rewrite Hc.
Qed.

Lemma py_int_raises s e : py_int s = Raise e -> e = ValueError.
Proof.
  unfold py_int. cbv zeta.
  match goal with |- match ?x with _ => _ end = _ -> _ => destruct x end.
  - discriminate.
  - intros H. injection H as <-. reflexivity.
Qed.

Import Options.

Section ParseMore.
Variable str_format : string -> Namespace -> result string.

Lemma gpu_loop_raises (strs : list string) : forall i0 w acc,
  gpu_ids (p_opt w) = VInts acc ->
  Exists (fun piece => py_int piece = Raise ValueError) strs ->
  for_enumerate i0 strs (fun _ x => gpu_ids_body x) w = Raise ValueError.
Proof.
  induction strs as [|str strs IH]; intros i0 w acc Hacc Hex;
    [inversion Hex|]. cbn [for_enumerate].
  unfold mbind at 1, Run_bind at 1.
  unfold gpu_ids_body at 1, when, mbind, Run_bind, gets, lift, mret, Run_ret, modify.
  destruct (py_int str) as [id|e] eqn:Hid.
  - inversion Hex as [? ? Hbad|? ? Hrest]; subst; [congruence|].
    destruct (0 <=? id); cbn.
    + rewrite Hacc. cbn. eapply IH; [reflexivity | exact Hrest].
    + eapply IH; [exact Hacc | exact Hrest].
  - now rewrite (py_int_raises _ _ Hid).
Qed.

Lemma set_gpu_ids_block_raises w s :
  gpu_ids (p_opt w) = VStr s ->
  Exists (fun piece => py_int piece = Raise ValueError) (str_split "," s) ->
  set_gpu_ids_block w = Raise ValueError.
Proof.
  intros Hs Hex.
  unfold set_gpu_ids_block, for_each, mbind, Run_bind, gets, lift, modify.
  rewrite Hs. cbn [as_str].
  now rewrite (gpu_loop_raises (str_split "," s) 0%nat
                 (set_p_opt (set_gpu_ids (VInts [])) w) [] eq_refl Hex).
Qed.

Lemma process_suffix_empty w :
  suffix (p_opt w) = EmptyString -> process_suffix str_format w = Ok (tt, w).
Proof.
  intros Hsuf. unfold process_suffix, when, mbind, Run_bind, gets. now rewrite Hsuf.
Qed.

(** X15. With no suffix to format, if some comma-separated piece of
    [gpu_ids] is not an integer for [int] (an empty piece as in ["0,"] or
    in the empty text, a word), both [parse] methods end with
    [ValueError]. *)
Theorem X15_malformed_gpu_ids (w : PWorld) (s : string) :
  suffix (p_opt w) = EmptyString -> gpu_ids (p_opt w) = VStr s ->
  Exists (fun piece => py_int piece = Raise ValueError) (str_split "," s) ->
  BaseOptions.parse str_format w = Raise ValueError /\
  SimpleOptions.parse str_format w = Raise ValueError.
Proof.
  intros Hsuf Hs Hex. unfold BaseOptions.parse, SimpleOptions.parse.
  rewrite !(bind_Ok _ _ _ _ _ (process_suffix_empty w Hsuf)).
  rewrite !(bind_Raise _ _ _ _ (set_gpu_ids_block_raises w s Hs Hex)).
  split; reflexivity.
Qed.

Lemma planes_loop_spec (l : list string) : forall i0 w acc u w',
  planes (p_opt w) = VStrs acc ->
  for_enumerate i0 l (fun _ str_plane =>
      o ← gets p_opt;
      l' ← lift (list_append_str (planes o) str_plane);
      modify (set_p_opt (set_planes l'))) w = Ok (u, w') ->
  planes (p_opt w') = VStrs (acc ++ l) /\
  gpu_ids (p_opt w') = gpu_ids (p_opt w) /\ name (p_opt w') = name (p_opt w) /\
  suffix (p_opt w') = suffix (p_opt w) /\ p_devices w' = p_devices w.
Proof.
  induction l as [|x l IH]; intros i0 w acc u w' Hacc; cbn [for_enumerate].
  - intros [= <- <-]. rewrite app_nil_r. auto.
  - intros H. apply bind_inv in H as ([] & w1 & Hb & H).
    unfold mbind, Run_bind, gets, lift, modify in Hb. rewrite Hacc in Hb.
    cbn in Hb. injection Hb as <-.
    eapply IH in H as (-> & -> & -> & -> & ->); [|reflexivity].
    rewrite <- app_assoc. auto.
Qed.

Lemma set_planes_block_spec w p u w' :
  planes (p_opt w) = VStr p ->
  set_planes_block w = Ok (u, w') ->
  planes (p_opt w') = VStrs (str_split "," p) /\
  gpu_ids (p_opt w') = gpu_ids (p_opt w) /\ name (p_opt w') = name (p_opt w) /\
  suffix (p_opt w') = suffix (p_opt w) /\ p_devices w' = p_devices w.
Proof.
  intros Hp H. unfold set_planes_block in H.
  apply bind_inv in H as (o & w1 & Ho & H). injection Ho as <- <-.
  apply bind_inv in H as (s' & w1 & Hl & H). unfold lift in Hl. rewrite Hp in Hl.
  cbn in Hl. injection Hl as <- <-.
  apply bind_inv in H as ([] & w1 & Hm & H). injection Hm as <-.
  unfold for_each in H. eapply planes_loop_spec in H; [|reflexivity]. exact H.
Qed.

(** X16. After [SimpleOptions.parse] returns on a text [p] of planes,
    [planes] is the list [p.split(',')]: never empty (one empty name for an
    empty text), one more entry than [p] has commas, no entry contains a
    comma, and joining the entries with commas gives [p] back. *)
Theorem X16_planes_split (w : PWorld) (p : string) (opt' : Namespace) (w' : PWorld) :
  planes (p_opt w) = VStr p ->
  SimpleOptions.parse str_format w = Ok (opt', w') ->
  exists l,
    planes opt' = VStrs l /\ l = str_split "," p /\ l <> [] /\
    length l = S (count_char "," p) /\
    Forall (fun x => count_char "," x = O) l /\
    String.concat "," l = p.
Proof.
  intros Hp H. apply parse_inv in H as (w1 & w2 & [u1 H1] & [u2 H2] & [u3 H3] & ->).
  apply process_suffix_frame in H1 as (Hg1 & Hp1 & _).
  assert (Hp2 : planes (p_opt w2) = VStr p).
  { destruct (gpu_ids (p_opt w1)) as [s| |] eqn:Hs.
    - eapply set_gpu_ids_block_spec in H2 as (_ & _ & _ & -> & _); [|exact Hs].
      now rewrite Hp1.
    - revert H2. unfold set_gpu_ids_block, mbind, Run_bind, gets, lift.
      rewrite Hs. discriminate.
    - revert H2. unfold set_gpu_ids_block, mbind, Run_bind, gets, lift.
      rewrite Hs. discriminate. }
  eapply set_planes_block_spec in H3 as (Hpl & _); [|exact Hp2].
  exists (str_split "," p). split; [exact Hpl|]. split; [reflexivity|].
  split.
  { destruct (str_split_cons "," p) as (x & l & ->). discriminate. }
  split; [apply str_split_length|]. split; [apply str_split_pieces|].
  apply str_split_concat.
Qed.

Lemma process_suffix_spec w u w' :
  process_suffix str_format w = Ok (u, w') ->
  let o := p_opt w in
  suffix (p_opt w') = suffix o /\
  if String.eqb (suffix o) EmptyString then name (p_opt w') = name o
  else exists n f,
         name o = Some n /\ str_format (suffix o) o = Ok f /\
         name (p_opt w') = Some (n +:+ "_" +:+ f).
Proof.
  unfold process_suffix, when, mbind, Run_bind, gets, lift, mret, Run_ret, modify, raise.
  intros H. cbn zeta. destruct (String.eqb (suffix (p_opt w)) EmptyString) eqn:Hsuf;
    cbn in H; rewrite ?Hsuf in H; cbn in H.
  - injection H as <- <-. auto.
  - destruct (str_format _ _) as [f|] eqn:Hf; [|cbn in H; discriminate]. cbn in H.
    destruct (name (p_opt w)) as [n|] eqn:Hn; [|cbn in H; discriminate].
    injection H as <- <-. cbn. split; [reflexivity|]. eauto.
Qed.

Lemma set_gpu_ids_block_keeps w u w' :
  set_gpu_ids_block w = Ok (u, w') ->
  name (p_opt w') = name (p_opt w) /\ suffix (p_opt w') = suffix (p_opt w) /\
  planes (p_opt w') = planes (p_opt w).
Proof.
  intros H. unfold set_gpu_ids_block in H.
  apply bind_inv in H as (o & w1 & Ho & H). injection Ho as <- <-.
  apply bind_inv in H as (s' & w1 & Hl & H). unfold lift in Hl.
  destruct (as_str _); [|discriminate]. injection Hl as <- <-.
  apply bind_inv in H as ([] & w1 & Hm & H). injection Hm as <-.
  apply bind_inv in H as ([] & w2 & Hloop & H).
  eapply gpu_loop_spec in Hloop as (ids & _ & Hg & Hp & Hs & Hn & _); [|reflexivity].
  apply bind_inv in H as (o & w3 & Ho & H). injection Ho as <- <-.
  assert (Hw : name (p_opt w') = name (p_opt w2) /\
               suffix (p_opt w') = suffix (p_opt w2) /\
               planes (p_opt w') = planes (p_opt w2)).
  { destruct (gpu_ids (p_opt w2)) as [|[|d rest]|];
      unfold cuda_set_device, modify, mret, Run_ret in H; injection H as _ <-; auto. }
  destruct Hw as (-> & -> & ->). rewrite Hn, Hs, Hp. auto.
Qed.

(** X17. After either [parse] returns: with an empty [suffix] the [name] is
    as it was (also when there is none); with a non-empty one, there was a
    name [n], the suffix was formatted to some [f], and the name is now
    [n + '_' + f]. *)
Theorem X17_suffix_appended_to_name (w : PWorld) (opt' : Namespace) (w' : PWorld) :
  BaseOptions.parse str_format w = Ok (opt', w') \/
  SimpleOptions.parse str_format w = Ok (opt', w') ->
  let o := p_opt w in
  if String.eqb (suffix o) EmptyString then name opt' = name o
  else exists n f,
         name o = Some n /\ str_format (suffix o) o = Ok f /\
         name opt' = Some (n +:+ "_" +:+ f).
Proof.
  intros H o.
  assert (Hn : exists u w1, process_suffix str_format w = Ok (u, w1) /\
                            name opt' = name (p_opt w1)).
  { destruct H as [H|H].
    - apply base_parse_inv in H as (w1 & [u1 H1] & [u2 H2] & ->).
      apply set_gpu_ids_block_keeps in H2 as (-> & _). eauto.
    - apply parse_inv in H as (w1 & w2 & [u1 H1] & [u2 H2] & [u3 H3] & ->).
      apply set_gpu_ids_block_keeps in H2 as (Hn2 & _ & Hp2).
      assert (name (p_opt w') = name (p_opt w2)) as ->.
      { destruct (planes (p_opt w2)) as [p| |] eqn:Hp.
        - eapply set_planes_block_spec in H3 as (_ & _ & -> & _); [reflexivity|exact Hp].
        - revert H3. unfold set_planes_block, mbind, Run_bind, gets, lift.
          rewrite Hp. discriminate.
        - revert H3. unfold set_planes_block, mbind, Run_bind, gets, lift.
          rewrite Hp. discriminate. }
      rewrite Hn2. eauto. }
  destruct Hn as (u & w1 & H1 & ->).
  apply process_suffix_spec in H1 as (_ & H1). exact H1.
Qed.

(** X18. With a non-empty [suffix] that formats, and no attribute [name] in
    the namespace, both [parse] methods end with [AttributeError]. *)
Theorem X18_suffix_without_name (w : PWorld) (f : string) :
  suffix (p_opt w) <> EmptyString ->
  str_format (suffix (p_opt w)) (p_opt w) = Ok f ->
  name (p_opt w) = None ->
  BaseOptions.parse str_format w = Raise AttributeError /\
  SimpleOptions.parse str_format w = Raise AttributeError.
Proof.
  intros Hsuf Hf Hn.
  assert (H1 : process_suffix str_format w = Raise AttributeError).
  { unfold process_suffix, when, mbind, Run_bind, gets, lift, mret, Run_ret, raise.
    apply String.eqb_neq in Hsuf.
    repeat (progress (cbn; rewrite ?Hsuf, ?Hf, ?Hn)). reflexivity. }
  unfold BaseOptions.parse, SimpleOptions.parse.
  rewrite !(bind_Raise _ _ _ _ H1). split; reflexivity.
Qed.

(** X19. [SimpleOptions.parse] is [BaseOptions.parse] followed by the split
    of [planes]: on a namespace whose [planes] is still text, it raises what
    the base method raises, and otherwise returns the namespace the base
    method returns, with the same devices selected, except that [planes] is
    the list of the pieces of the text. *)
Theorem X19_simple_parse_extends_base (w : PWorld) (p : string) :
  planes (p_opt w) = VStr p ->
  match BaseOptions.parse str_format w with
  | Ok (ob, wb) =>
      SimpleOptions.parse str_format w
        = Ok (set_planes (VStrs (str_split "," p)) ob,
              set_p_opt (set_planes (VStrs (str_split "," p))) wb) /\
      planes ob = VStr p
  | Raise e => SimpleOptions.parse str_format w = Raise e
  end.
Proof.
  intros Hp. unfold BaseOptions.parse, SimpleOptions.parse.
  destruct (process_suffix str_format w) as [[[] w1]|e] eqn:H1;
    [rewrite !(bind_Ok _ _ _ _ _ H1) | now rewrite !(bind_Raise _ _ _ _ H1)].
  apply process_suffix_frame in H1 as (_ & Hp1 & _).
  destruct (set_gpu_ids_block w1) as [[[] w2]|e] eqn:H2;
    [rewrite !(bind_Ok _ _ _ _ _ H2) | now rewrite !(bind_Raise _ _ _ _ H2)].
  apply set_gpu_ids_block_keeps in H2 as (_ & _ & Hp2).
  assert (Hpw : planes (p_opt w2) = VStr p) by congruence.
  destruct (set_planes_block_total w2 p Hpw) as (w3 & H3).
  pose proof (set_planes_block_spec w2 p tt w3 Hpw H3) as (Hpl & Hg & Hn & Hs & Hd).
  rewrite (bind_Ok _ _ _ _ _ H3). unfold gets. split; [|exact Hpw].
  assert (Hw3 : w3 = set_p_opt (set_planes (VStrs (str_split "," p))) w2).
  { destruct w3 as [[s3 n3 g3 p3] d3], w2 as [[s2 n2 g2 p2] d2]. cbn in *.
    now subst. }
  rewrite Hw3. reflexivity.
Qed.

End ParseMore.
(** ** [int] reads back what [str] prints *)













Import Options.

Section ParseInts.
Variable str_format : string -> Namespace -> result string.



End ParseInts.
(** ** The options object: [gather_options] and [print_options] *)

Lemma append_cons x (a b : string) : String x a +:+ b = String x (a +:+ b).
Proof. reflexivity. Qed.

Lemma append_assoc (a b c : string) : (a +:+ b) +:+ c = a +:+ b +:+ c.
Proof.
  induction a as [|x a IH]; [reflexivity|]. rewrite !append_cons. now f_equal.
Qed.

Lemma append_nil_r (a : string) : a +:+ EmptyString = a.
Proof.
  induction a as [|x a IH]; [reflexivity|]. rewrite append_cons. now f_equal.
Qed.

Lemma length_append (a b : string) :
  String.length (a +:+ b) = (String.length a + String.length b)%nat.
Proof.
  induction a as [|x a IH]; [reflexivity|]. rewrite append_cons.
  cbn [String.length]. now rewrite IH.
Qed.

Lemma substring_middle (a b c : string) :
  substring (String.length a) (String.length b) (a +:+ b +:+ c) = b.
Proof.
  induction a as [|x a IH]; [|exact IH]. change (EmptyString +:+ ?s) with s.
  cbn [String.length].
  induction b as [|y b IHb]; [now destruct c|].
  rewrite append_cons. cbn [String.length substring]. now f_equal.
Qed.

Import OptionsObject.

Lemma length_spaces n : String.length (spaces n) = n.
Proof. induction n as [|n IH]; [reflexivity|]. cbn. now f_equal. Qed.

Lemma length_rjust w s : String.length (rjust w s) = Nat.max w (String.length s).
Proof. unfold rjust. rewrite length_append, length_spaces. lia. Qed.

Lemma length_ljust w s : String.length (ljust w s) = Nat.max w (String.length s).
Proof. unfold ljust. rewrite length_append, length_spaces. lia. Qed.

Lemma lift_inv {W A} (r : result A) (w w' : W) (a : A) :
  lift r w = Ok (a, w') -> w' = w /\ r = Ok a.
Proof. unfold lift. destruct r; [|discriminate]. now intros [= <- <-]. Qed.

Lemma deref_inv {W A} (x : option A) (w w' : W) (a : A) :
  deref x w = Ok (a, w') -> w' = w /\ x = Some a.
Proof. unfold deref. destruct x; [|discriminate]. now intros [= <- <-]. Qed.

Section GatherFacts.

Context {Parser NS : Type} `{!Argparse Parser NS}.

(** X21. Once [gather_options] has returned (with or without a parser
    passed in), the object is [initialized] and holds the parser; a further
    call without a parser then ends with [AttributeError], since no parser
    is built for an initialized object. *)
Theorem X21_gather_options_once (parser_ : option Parser) (s s' : Self) (opt : NS) :
  gather_options parser_ s = Ok (opt, s') ->
  initialized s' = true /\ is_Some (parser s') /\
  gather_options None s' = Raise AttributeError.
Proof.
  intros Hrun.
  assert (Hi : initialized s' = true /\ is_Some (parser s')).
  { unfold gather_options in Hrun.
    apply bind_inv in Hrun as (s0 & w0 & Hget & Hrun). injection Hget as <- <-.
    apply bind_inv in Hrun as (po & s1 & Hinit & Hrun).
    assert (Hi1 : initialized s1 = true).
    { destruct (initialized s) eqn:Hinit0; cbn [negb] in Hinit.
      - injection Hinit as <- <-. exact Hinit0.
      - apply bind_inv in Hinit as (p & s2 & Hl & Hinit).
        apply lift_inv in Hl as [-> _].
        apply bind_inv in Hinit as ([] & s3 & Hm & Hinit).
        injection Hm as <-. injection Hinit as <- <-. reflexivity. }
    apply bind_inv in Hrun as (p & s2 & Hd & Hrun). apply deref_inv in Hd as [-> _].
    apply bind_inv in Hrun as (o1 & s2 & Hl & Hrun). apply lift_inv in Hl as [-> _].
    apply bind_inv in Hrun as (mn & s2 & Hd & Hrun). apply deref_inv in Hd as [-> _].
    apply bind_inv in Hrun as (st & s2 & Hl & Hrun). apply lift_inv in Hl as [-> _].
    apply bind_inv in Hrun as (it & s2 & Hd & Hrun). apply deref_inv in Hd as [-> _].
    apply bind_inv in Hrun as (p2 & s2 & Hl & Hrun). apply lift_inv in Hl as [-> _].
    apply bind_inv in Hrun as (o2 & s2 & Hl & Hrun). apply lift_inv in Hl as [-> _].
    apply bind_inv in Hrun as ([] & s2 & Hm & Hrun). injection Hm as <-.
    injection Hrun as _ <-. cbn. split; [exact Hi1 | eauto]. }
  destruct Hi as [Hi Hp]. split; [exact Hi|]. split; [exact Hp|].
  unfold gather_options, deref, mbind, Run_bind, mret, Run_ret, get, lift,
    modify, raise.
  rewrite Hi. reflexivity.
Qed.

End GatherFacts.

Section PrintFacts.

Context {V : Type}.
Variable py_str : V -> string.
Variable path_of : V -> result string.

#[local] Instance key_le_total : Total (@key_le V).
Proof. intros x y. unfold key_le. apply String.leb_total. Qed.

Lemma fold_left_lines (f : string * V -> string) (l : list (string * V)) (init : string) :
  fold_left (fun message kv => message +:+ f kv) l init
  = init +:+ String.concat EmptyString (map f l).
Proof.
  revert init. induction l as [|kv l IH]; intros init; cbn [fold_left map].
  - cbn. now rewrite append_nil_r.
  - rewrite IH, append_assoc. f_equal. destruct l as [|kv' l]; cbn.
    + now rewrite append_nil_r.
    + reflexivity.
Qed.

(** X22. The message of [print_options] is the header line, one line per
    attribute of [opt], and the footer; every attribute has exactly one
    line, and the lines are in the order of the attribute names. *)
Theorem X22_options_listed_in_name_order (opt : gmap string V) :
  exists items,
    options_message py_str opt =
      "----------------- Options ---------------" +:+ nl
      +:+ String.concat EmptyString
            (map (fun kv => option_line py_str (fst kv) (snd kv)) items)
      +:+ "----------------- End -------------------" /\
    items ≡ₚ map_to_list opt /\
    NoDup (map fst items) /\
    Sorted (fun x y => String.leb (fst x) (fst y) = true) items.
Proof.
  exists (sorted_items opt). split; [|split; [|split]].
  - unfold options_message. cbv zeta. rewrite fold_left_lines.
    change (EmptyString +:+ ?x) with x. now rewrite append_assoc.
  - apply sorting.merge_sort_Permutation.
  - unfold sorted_items. rewrite sorting.merge_sort_Permutation.
    apply NoDup_fst_map_to_list.
  - apply (sorting.Sorted_merge_sort (@key_le V)).
Qed.

(** X23. A line of the listing is padded, never cut: its length is
    [max 25 |k| + 2 + max 30 |str v| + 1]; for a name of at most 25
    characters the name ends at column 25 and the value starts at column 27
    of the line. *)
Theorem X23_option_line_alignment (k : string) (v : V) :
  String.length (option_line py_str k v)
    = (Nat.max 25 (String.length k) + 2
       + Nat.max 30 (String.length (py_str v)) + 1)%nat /\
  ((String.length k <= 25)%nat ->
   substring (25 - String.length k) (String.length k) (option_line py_str k v) = k /\
   substring 27 (String.length (py_str v)) (option_line py_str k v) = py_str v).
Proof.
  unfold option_line. cbv zeta. split.
  - rewrite !length_append, length_rjust, length_ljust. cbn. lia.
  - intros Hk. split.
    + unfold rjust. rewrite append_assoc.
      rewrite <- (length_spaces (25 - String.length k)) at 1.
      apply substring_middle.
    + unfold ljust.
      assert (Hpre : String.length (rjust 25 k +:+ ": ") = 27%nat).
      { rewrite length_append, length_rjust. cbn. lia. }
      rewrite <- Hpre, <- (append_assoc (rjust 25 k) ": "), !append_assoc.
      rewrite <- (append_assoc (rjust 25 k) ": ").
      apply substring_middle.
Qed.

(** X24. If [print_options] returns, [opt] has the attributes [main_root],
    [model_root], [exp_name], [checkpoints_dir] and [phase]; the text
    printed is the message and a line feed; the file
    [<main_root>/<model_root>/<exp_name>/<checkpoints_dir>/<phase>_opt.txt]
    then holds exactly the text printed, whatever it held before;
    [util.mkdirs] has been called once, with its directory; and no other
    file is written. *)
Theorem X24_options_file_holds_what_is_printed (opt : gmap string V) (w w' : Out) :
  print_options py_str path_of opt w = Ok (tt, w') ->
  exists mr mo ex ck ph main_root model_root exp_name checkpoints_dir,
    opt !! "main_root" = Some mr /\ path_of mr = Ok main_root /\
    opt !! "model_root" = Some mo /\ path_of mo = Ok model_root /\
    opt !! "exp_name" = Some ex /\ path_of ex = Ok exp_name /\
    opt !! "checkpoints_dir" = Some ck /\ path_of ck = Ok checkpoints_dir /\
    opt !! "phase" = Some ph /\
    let text := options_message py_str opt +:+ nl in
    let expr_dir := path_join main_root [model_root; exp_name; checkpoints_dir] in
    let file_name := path_join expr_dir [py_str ph +:+ "_opt.txt"] in
    stdout w' = stdout w ++ [text] /\
    mkdirs_calls w' = mkdirs_calls w ++ [expr_dir] /\
    text_files w' !! file_name = Some text /\
    forall p, p <> file_name -> text_files w' !! p = text_files w !! p.
Proof.
  unfold print_options, py_print, util_mkdirs, write_text, deref,
    mbind, Run_bind, mret, Run_ret, lift, modify, raise.
  cbv zeta. intros Hrun.
  destruct (opt !! "main_root") as [mr|] eqn:Lmr; [|discriminate].
  destruct (opt !! "model_root") as [mo|] eqn:Lmo; [|discriminate].
  destruct (opt !! "exp_name") as [ex|] eqn:Lex; [|discriminate].
  destruct (opt !! "checkpoints_dir") as [ck|] eqn:Lck; [|discriminate].
  cbn beta iota in Hrun.
  destruct (path_of mr) as [main_root|] eqn:Hmr; [|discriminate].
  destruct (path_of mo) as [model_root|] eqn:Hmo; [|discriminate].
  destruct (path_of ex) as [exp_name|] eqn:Hex; [|discriminate].
  destruct (path_of ck) as [checkpoints_dir|] eqn:Hck; [|discriminate].
  destruct (opt !! "phase") as [ph|] eqn:Lph; [|discriminate].
  injection Hrun as <-.
  exists mr, mo, ex, ck, ph, main_root, model_root, exp_name, checkpoints_dir.
  split; [reflexivity|]. split; [exact Hmr|]. split; [reflexivity|].
  split; [exact Hmo|]. split; [reflexivity|]. split; [exact Hex|].
  split; [reflexivity|]. split; [exact Hck|]. split; [reflexivity|].
  cbn [stdout mkdirs_calls text_files].
  split; [reflexivity|]. split; [reflexivity|]. split.
  - rewrite lookup_insert_eq. reflexivity.
  - intros p Hp. now rewrite lookup_insert_ne.
Qed.

End PrintFacts.

(** ** The script *)

Section MainFacts.

Context {Data Losses Visuals Elt DS M : Type}.
Context `{!atme.Model (Data:=Data) (Losses:=Losses) (Visuals:=Visuals) (Elt:=Elt) M}
        `{!atme.Dataset (Data:=Data) (Elt:=Elt) DS} `{!atme.Env DS M}.
Variable zero : Elt.

Local Abbreviation World := (atme.World Data Losses Visuals Elt M).

(** X25. A completed run of the script leaves [isTrain] as it was parsed:
    [train] runs iff it is set and sets it again, [test] runs otherwise and
    clears it again; and a run with [isTrain] unset makes no call that
    belongs to training. *)
Theorem X25_script_keeps_isTrain (w w' : World) :
  main zero w = Ok (tt, w') ->
  isTrain (w_opt w') = isTrain (w_opt w) /\
  (if isTrain (w_opt w)
   then w_opt w' = opt_after_train (w_opt w)
   else exists tr, w_log w' = w_log w ++ tr /\
          Forall (fun c => training_call (what c) = false) tr).
Proof.
  unfold main, mbind, Run_bind, gets. destruct_world w. cbn [w_opt isTrain].
  destruct isTrain0; intros Hrun.
  - match type of Hrun with train ?W = _ => pose proof (train_spec W) as Hs end.
    cbn zeta in Hs. rewrite Hrun in Hs.
    destruct Hs as (Ho & _). rewrite Ho. split; reflexivity.
  - split.
    + match type of Hrun with test _ ?W = _ => pose proof (test_spec zero W) as Hs end.
      rewrite Hrun in Hs.
      destruct Hs as (cases & _ & Ho & _). rewrite Ho.
      unfold opt_at_test_loop. cbv zeta. now destruct (_ && _).
    + match type of Hrun with test _ ?W = _ =>
        pose proof (test_previews zero W) as Ht end.
      rewrite Hrun in Ht.
      destruct Ht as (tr & Hl & HF). exists tr. split; [exact Hl|].
      apply Forall_omap_1 in HF. eapply Forall_impl; [exact HF|].
      intros c Hc. specialize (Hc T_training). unfold test_view in Hc.
      destruct (what c); cbn in *; try reflexivity; exfalso; exact (Hc eq_refl).
Qed.

End MainFacts.
(** ** More runs in the concrete setting *)

Import Options.



Lemma X2_witness :
  (good_cfg (w_opt demo_world) /\
   (is_Some (w_t_data demo_world) \/ w_total_iters demo_world = 0)) /\
  exists w' tr,
    train_epoch [10; 20; 30]%nat "figs" 5 demo_world = Ok (tt, w') /\
    w_log w' = w_log demo_world ++ tr /\
    omap save_of (details tr) =
      flat_map (fun t => [D_save_networks (save_suffix (w_opt demo_world) t);
                          D_save_atme_images "figs" (Some t) (Some 5) None])
        (List.filter (fires (save_latest_freq (w_opt demo_world)))
           (ticks (batch_size (w_opt demo_world)) (w_total_iters demo_world)
              (length (ds_iter [10; 20; 30]%nat (w_passes demo_world)))))
      ++ (if fires (save_epoch_freq (w_opt demo_world)) 5
          then [D_save_networks (TagStr "latest"); D_save_networks (TagInt 5)]
          else []).
Proof.
  split.
  - split; [exact demo_good_cfg | right; reflexivity].
  - apply (X2_saves_of_an_epoch [10; 20; 30]%nat "figs" 5 demo_world).
    + exact demo_good_cfg.
    + right. reflexivity.
Defined.

(** The checkpoints of that epoch: none at the batches, two at its end. *)
Example X2_demo_saves :
  omap save_of
    (details (w_log (outcome (train_epoch [10; 20; 30]%nat "figs" 5 demo_world)
                       demo_world)))
  = [D_save_networks (TagStr "latest"); D_save_networks (TagInt 5)].
Proof. by_eval. Qed.

Lemma X3_witness :
  train demo_noisy_world = Ok (tt, demo_noisy_end) /\
  exists tr, w_log demo_noisy_end = w_log demo_noisy_world ++ tr /\
    Forall (fun c => forall data ep, what c = E_set_input data ep ->
              exists e, at_epoch c = Some e /\
                ep = match n_save_noisy (w_opt demo_noisy_world) with
                     | Some _ => Some e
                     | None => None
                     end) tr.
Proof.
  split; [by_run|].
  apply (X3_set_input_epoch_argument demo_noisy_world demo_noisy_end). by_run.
Defined.

Lemma X4_witness :
  (good_cfg (w_opt demo_world) /\
   (is_Some (w_t_data demo_world) \/ w_total_iters demo_world = 0)) /\
  exists w' tr,
    train_epoch [10; 20; 30]%nat "figs" 1 demo_world = Ok (tt, w') /\
    w_log w' = w_log demo_world ++ tr /\
    omap losses_of (details tr) =
      map (fun j => (1, batch_size (w_opt demo_world) * Z.of_nat j))
        (List.filter
           (fun j => fires (print_freq (w_opt demo_world))
                       (w_total_iters demo_world
                        + batch_size (w_opt demo_world) * Z.of_nat j))
           (seq 1 (length (ds_iter [10; 20; 30]%nat (w_passes demo_world))))).
Proof.
  split.
  - split; [exact demo_good_cfg | right; reflexivity].
  - apply (X4_epoch_iter_counts_from_epoch_start [10; 20; 30]%nat "figs" 1 demo_world).
    + exact demo_good_cfg.
    + right. reflexivity.
Defined.

Lemma X5_witness :
  train demo_zero_freq_world = Raise ZeroDivisionError /\
  ((ZeroDivisionError = ZeroDivisionError /\
    zero_divisor (w_opt demo_zero_freq_world)) \/
   (ZeroDivisionError = ValueError /\ batch_size (w_opt demo_zero_freq_world) < 0)).
Proof.
  split; [by_eval|].
  apply (X5_train_raises_only demo_zero_freq_world ZeroDivisionError). by_eval.
Defined.

Lemma X6_witness :
  (epoch_count (w_opt demo_zero_freq_world)
     <= n_epochs (w_opt demo_zero_freq_world)
        + n_epochs_decay (w_opt demo_zero_freq_world) /\
   train_lens (w_opt demo_zero_freq_world) 0 <> 0%nat /\
   (print_freq (w_opt demo_zero_freq_world) = 0 \/
    display_freq (w_opt demo_zero_freq_world) = 0 \/
    save_latest_freq (w_opt demo_zero_freq_world) = 0)) /\
  train demo_zero_freq_world = Raise ZeroDivisionError.
Proof.
  split.
  - split; [cbn; lia|]. split; [discriminate | left; reflexivity].
  - apply (X6_zero_frequency_fails demo_zero_freq_world).
    + cbn. lia.
    + discriminate.
    + left. reflexivity.
Defined.

Lemma X7_witness :
  n_epochs (w_opt demo_no_epochs_world) + n_epochs_decay (w_opt demo_no_epochs_world)
    < epoch_count (w_opt demo_no_epochs_world) /\
  let o := w_opt demo_no_epochs_world in
  let o' := opt_after_train o in
  let dataset := create_atme_train_dataset o' in
  exists w',
    train demo_no_epochs_world = Ok (tt, w') /\ w_total_iters w' = 0 /\ w_opt w' = o' /\
    map what (drop (length (w_log demo_no_epochs_world)) (w_log w')) =
      [ E_mkdirs [path_join (main_root o) [model_root o; exp_name o];
                  path_join (main_root o) [model_root o; data_name o];
                  train_fig_dir o];
        E_create_atme_train_dataset o';
        E_print "The number of training images = %d"
                [PInt (Z.of_nat (ds_len dataset))];
        E_create_model o';
        E_model_setup o';
        E_Visualizer o' ].
Proof.
  split; [cbn; lia|].
  apply (X7_empty_epoch_range demo_no_epochs_world). cbn. lia.
Defined.



Lemma X10_witness :
  test 0 demo_world = Ok (tt, demo_test_end) /\
  exists tr, w_log demo_test_end = w_log demo_world ++ tr /\
    Forall (fun c => training_call (what c) = false) tr.
Proof.
  split; [by_run|].
  apply (X10_test_never_trains 0 demo_world demo_test_end). by_run.
Defined.

Lemma X11_witness :
  test 0 (Demo.world Demo.opt Demo.fs_rerun) = Ok (tt, demo_rerun_end) /\
  let w := Demo.world Demo.opt Demo.fs_rerun in
  let o := w_opt w in
  let dd := path_join (main_root o) [model_root o; data_name o] in
  exists cases,
    df_loc (read_csv (csv_name o)) (eval_plane o) = Ok cases /\
    dirs (w_fs w) ⊆ dirs (w_fs demo_rerun_end) /\
    (forall p, is_Some (files (w_fs w) !! p) ->
               is_Some (files (w_fs demo_rerun_end) !! p)) /\
    (forall p,
       (forall i, (i < length cases)%nat -> p <> case_pt dd i /\ p <> case_nii dd i) ->
       files (w_fs demo_rerun_end) !! p = files (w_fs w) !! p).
Proof.
  split; [by_run|].
  apply (X11_test_writes_only_case_artifacts 0 (Demo.world Demo.opt Demo.fs_rerun)
           demo_rerun_end).
  by_run.
Defined.

Lemma X12_witness :
  ((ds_len DemoMore.long_ds
    < length (ds_iter DemoMore.long_ds (w_passes demo_world)))%nat /\
   0 <= vol_cube_dim (w_opt demo_world) /\ outputs_square (M:=list nat) 2) /\
  fill_volume 0 DemoMore.long_ds "figs" 0 demo_world = Raise IndexError.
Proof.
  split.
  - split; [cbn; lia|]. split; [cbn; lia | exact demo_outputs_square].
  - refine (X12_more_slices_than_len 0 DemoMore.long_ds "figs" 0%nat demo_world _ _
              demo_outputs_square); cbn; lia.
Defined.

Lemma X13_witness :
  ((length (ds_iter DemoMore.short_ds (w_passes demo_world))
    <= ds_len DemoMore.short_ds)%nat /\
   0 <= vol_cube_dim (w_opt demo_world) /\ outputs_square (M:=list nat) 2) /\
  exists w',
    fill_volume 0 DemoMore.short_ds "figs" 0 demo_world = Ok (tt, w') /\
    has_shape3 (ds_len DemoMore.short_ds) 2 2 (w_gen_vol w') /\
    w_model w' = fold_left infer DemoMore.short_slices (w_model demo_world) /\
    (forall j, (j < length DemoMore.short_slices)%nat ->
       exists c,
         output_of (fold_left infer (take (S j) DemoMore.short_slices)
                      (w_model demo_world)) = Ok c /\
         w_gen_vol w' !! j = Some c) /\
    (forall j, (length DemoMore.short_slices <= j < ds_len DemoMore.short_ds)%nat ->
       w_gen_vol w' !! j = Some (repeat (repeat 0 2) 2)).
Proof.
  split.
  - split; [cbn; lia|]. split; [cbn; lia | exact demo_outputs_square].
  - refine (X13_fewer_slices_than_len 0 DemoMore.short_ds "figs" 0%nat demo_world _ _
              demo_outputs_square); cbn; lia.
Defined.

(** The volume of that run: two slices filled, the third still zero. *)
Example X13_demo_volume :
  w_gen_vol (outcome (fill_volume 0 DemoMore.short_ds "figs" 0 demo_world)
               demo_world)
  = [[[5; 1]; [2; 3]]; [[6; 1]; [2; 3]]; [[0; 0]; [0; 0]]].
Proof. by_eval. Qed.

Lemma X14_witness :
  (test_case 0 "figs" ["a"; "b"] ["a_ax"; "b_ax"] 0 "a" demo_case_world
     = Ok (tt, demo_case_end) /\
   outputs_square (M:=list nat) 2) /\
  let o := w_opt demo_case_world in
  exists dd ax vol,
    data_dir o = Some dd /\ ["a_ax"; "b_ax"] !! 0%nat = Some ax /\
    let ds := create_atme_test_dataset o "a" 0 ax in
    let m0 := model_eval (model_setup o (create_model o ds)) in
    let slices := ds_iter ds 0 in
    files (w_fs demo_case_end) !! case_pt dd 0
      = Some (TensorFile (ds_crop_volume ds vol)) /\
    has_shape3 (ds_len ds) 2 2 vol /\
    forall j, (j < length slices)%nat ->
      exists c,
        output_of (fold_left infer (take (S j) slices) m0) = Ok c /\
        vol !! j = Some c.
Proof.
  split.
  - split; [by_run | exact demo_outputs_square].
  - refine (X14_saved_volume_of_a_case 0 "figs" ["a"; "b"] ["a_ax"; "b_ax"] 0%nat "a"
              demo_case_world demo_case_end _ demo_outputs_square).
    by_run.
Defined.

Lemma X15_witness :
  (suffix (p_opt (DemoMore.pworld_with EmptyString None "0,")) = EmptyString /\
   gpu_ids (p_opt (DemoMore.pworld_with EmptyString None "0,")) = VStr "0," /\
   Exists (fun piece => py_int piece = Raise ValueError) (str_split "," "0,")) /\
  BaseOptions.parse Demo.str_format (DemoMore.pworld_with EmptyString None "0,")
    = Raise ValueError /\
  SimpleOptions.parse Demo.str_format (DemoMore.pworld_with EmptyString None "0,")
    = Raise ValueError.
Proof.
  split.
  - split; [reflexivity|]. split; [reflexivity|].
    apply Exists_cons_tl, Exists_cons_hd. reflexivity.
  - apply (X15_malformed_gpu_ids Demo.str_format
             (DemoMore.pworld_with EmptyString None "0,") "0,");
      [reflexivity | reflexivity |].
    apply Exists_cons_tl, Exists_cons_hd. reflexivity.
Defined.

Lemma X16_witness :
  (planes (p_opt Demo.pworld) = VStr "axial,coronal" /\
   SimpleOptions.parse Demo.str_format Demo.pworld
     = Ok (p_opt demo_parse_end, demo_parse_end)) /\
  exists l,
    planes (p_opt demo_parse_end) = VStrs l /\ l = str_split "," "axial,coronal" /\
    l <> [] /\ length l = S (count_char "," "axial,coronal") /\
    Forall (fun x => count_char "," x = O) l /\
    String.concat "," l = "axial,coronal".
Proof.
  split.
  - split; [reflexivity | by_eval].
  - apply (X16_planes_split Demo.str_format Demo.pworld "axial,coronal"
             (p_opt demo_parse_end) demo_parse_end); [reflexivity | by_eval].
Defined.

Lemma X17_witness :
  (BaseOptions.parse Demo.str_format (DemoMore.pworld_with "v2" (Some "exp") "0")
     = Ok (p_opt demo_suffix_end, demo_suffix_end) \/
   SimpleOptions.parse Demo.str_format (DemoMore.pworld_with "v2" (Some "exp") "0")
     = Ok (p_opt demo_suffix_end, demo_suffix_end)) /\
  let o := p_opt (DemoMore.pworld_with "v2" (Some "exp") "0") in
  if String.eqb (suffix o) EmptyString then name (p_opt demo_suffix_end) = name o
  else exists n f,
         name o = Some n /\ Demo.str_format (suffix o) o = Ok f /\
         name (p_opt demo_suffix_end) = Some (n +:+ "_" +:+ f).
Proof.
  split.
  - right. by_eval.
  - apply (X17_suffix_appended_to_name Demo.str_format
             (DemoMore.pworld_with "v2" (Some "exp") "0")
             (p_opt demo_suffix_end) demo_suffix_end).
    right. by_eval.
Defined.

(** The name that run leaves. *)
Example X17_demo_name : name (p_opt demo_suffix_end) = Some "exp_v2".
Proof. by_eval. Qed.

Lemma X18_witness :
  (suffix (p_opt (DemoMore.pworld_with "v2" None "0")) <> EmptyString /\
   Demo.str_format (suffix (p_opt (DemoMore.pworld_with "v2" None "0")))
     (p_opt (DemoMore.pworld_with "v2" None "0")) = Ok "v2" /\
   name (p_opt (DemoMore.pworld_with "v2" None "0")) = None) /\
  BaseOptions.parse Demo.str_format (DemoMore.pworld_with "v2" None "0")
    = Raise AttributeError /\
  SimpleOptions.parse Demo.str_format (DemoMore.pworld_with "v2" None "0")
    = Raise AttributeError.
Proof.
  split.
  - split; [discriminate|]. split; reflexivity.
  - apply (X18_suffix_without_name Demo.str_format
             (DemoMore.pworld_with "v2" None "0") "v2");
      [discriminate | reflexivity | reflexivity].
Defined.

Lemma X19_witness :
  planes (p_opt Demo.pworld) = VStr "axial,coronal" /\
  match BaseOptions.parse Demo.str_format Demo.pworld with
  | Ok (ob, wb) =>
      SimpleOptions.parse Demo.str_format Demo.pworld
        = Ok (set_planes (VStrs (str_split "," "axial,coronal")) ob,
              set_p_opt (set_planes (VStrs (str_split "," "axial,coronal"))) wb) /\
      planes ob = VStr "axial,coronal"
  | Raise e => SimpleOptions.parse Demo.str_format Demo.pworld = Raise e
  end.
Proof.
  split; [reflexivity|].
  apply (X19_simple_parse_extends_base Demo.str_format Demo.pworld "axial,coronal").
  reflexivity.
Defined.


Lemma X21_witness :
  OptionsObject.gather_options None OptionsObject.init
    = Ok (["model"; "isTrain"; "lambda_L1"], demo_gather_end) /\
  OptionsObject.initialized demo_gather_end = true /\
  is_Some (OptionsObject.parser demo_gather_end) /\
  OptionsObject.gather_options None demo_gather_end = Raise AttributeError.
Proof.
  split; [by_eval|].
  apply (X21_gather_options_once None OptionsObject.init demo_gather_end
           ["model"; "isTrain"; "lambda_L1"]).
  by_eval.
Defined.

Lemma X23_witness :
  String.length (OptionsObject.option_line (fun v => v) "gpu_ids" "0")
    = (Nat.max 25 (String.length "gpu_ids") + 2
       + Nat.max 30 (String.length "0") + 1)%nat /\
  ((String.length "gpu_ids" <= 25)%nat ->
   substring (25 - String.length "gpu_ids") (String.length "gpu_ids")
     (OptionsObject.option_line (fun v => v) "gpu_ids" "0") = "gpu_ids" /\
   substring 27 (String.length "0")
     (OptionsObject.option_line (fun v => v) "gpu_ids" "0") = "0").
Proof. exact (X23_option_line_alignment (fun v : string => v) "gpu_ids" "0"). Defined.

(** That line, as printed. *)
Example X23_demo_line :
  OptionsObject.option_line (fun v => v) "gpu_ids" "0"
  = "                  gpu_ids: 0                             " +:+ OptionsObject.nl.
Proof. reflexivity. Qed.

Lemma X24_witness :
  OptionsObject.print_options (fun v => v) Ok DemoMore.vars DemoMore.out_empty
    = Ok (tt, demo_print_end) /\
  exists mr mo ex ck ph main_root model_root exp_name checkpoints_dir,
    DemoMore.vars !! "main_root" = Some mr /\ Ok mr = Ok main_root /\
    DemoMore.vars !! "model_root" = Some mo /\ Ok mo = Ok model_root /\
    DemoMore.vars !! "exp_name" = Some ex /\ Ok ex = Ok exp_name /\
    DemoMore.vars !! "checkpoints_dir" = Some ck /\ Ok ck = Ok checkpoints_dir /\
    DemoMore.vars !! "phase" = Some ph /\
    let text := OptionsObject.options_message (fun v => v) DemoMore.vars
                +:+ OptionsObject.nl in
    let expr_dir := path_join main_root [model_root; exp_name; checkpoints_dir] in
    let file_name := path_join expr_dir [ph +:+ "_opt.txt"] in
    OptionsObject.stdout demo_print_end = OptionsObject.stdout DemoMore.out_empty ++ [text] /\
    OptionsObject.mkdirs_calls demo_print_end
      = OptionsObject.mkdirs_calls DemoMore.out_empty ++ [expr_dir] /\
    OptionsObject.text_files demo_print_end !! file_name = Some text /\
    forall p, p <> file_name ->
      OptionsObject.text_files demo_print_end !! p
        = OptionsObject.text_files DemoMore.out_empty !! p.
Proof.
  split; [by_run|].
  apply (X24_options_file_holds_what_is_printed (fun v : string => v) Ok
           DemoMore.vars DemoMore.out_empty demo_print_end).
  by_run.
Defined.

(** The directory made and the names listed in that run, in order. *)
Example X24_demo_listing :
  OptionsObject.mkdirs_calls demo_print_end = ["outputs/simple_output/runs/checkpoints"] /\
  map fst (OptionsObject.sorted_items DemoMore.vars)
    = ["checkpoints_dir"; "exp_name"; "gpu_ids"; "main_root"; "model_root"; "phase"].
Proof. split; by_eval. Qed.

Lemma X25_witness :
  main 0 demo_eval_world = Ok (tt, demo_eval_end) /\
  isTrain (w_opt demo_eval_end) = isTrain (w_opt demo_eval_world) /\
  (if isTrain (w_opt demo_eval_world)
   then w_opt demo_eval_end = opt_after_train (w_opt demo_eval_world)
   else exists tr, w_log demo_eval_end = w_log demo_eval_world ++ tr /\
          Forall (fun c => training_call (what c) = false) tr).
Proof.
  split; [by_run|].
  apply (X25_script_keeps_isTrain 0 demo_eval_world demo_eval_end). by_run.
Defined.



(** The times that step reports: the loading time is the one measured in
    the step before. *)
Example X27_demo_times :
  omap times_view (w_log demo_mid_end)
  = [(TDiv (TSub (Now 5) (Now 4)) 1, TSub (Now 2) (Now 1))].
Proof. by_eval. Qed.

Lemma X28_witness :
  test 0 demo_world = Ok (tt, demo_test_end) /\
  w_draws demo_test_end = w_draws demo_world /\
  w_clock demo_test_end = w_clock demo_world.
Proof.
  split; [by_run|].
  apply (X28_test_reads_no_clock_or_random 0 demo_world demo_test_end). by_run.
Defined.
